(** * volatility-prediction: the download-and-persist pipeline and its utilities

    A shallow embedding of [download_data.py], [utils/io.py],
    [utils/logger.py] and [utils/seeding.py].  Python code that raises is
    modelled in an exception monad over an explicit world; dictionaries are
    [gmap]s, or association lists where insertion order is observable. *)

From Stdlib Require Import ZArith String Ascii List Bool Lia DecimalString.
From stdpp Require Import gmap strings list fin_maps.

Local Open Scope string_scope.

(** ** Python basics: exceptions, strings, dates *)

Module Py.

(** The exception classes the modelled code raises or receives.  All of
    them derive from [Exception], so [except Exception] catches each. *)
Inductive exn : Type :=
| FileNotFoundError (msg : string)
| IsADirectoryError (msg : string)
| ParserError (msg : string)
| ValueError (msg : string)
| OSError (msg : string)
| RuntimeError (msg : string).

(** [str(e)] *)
Definition str_exn (e : exn) : string :=
  match e with
  | FileNotFoundError m | IsADirectoryError m | ParserError m
  | ValueError m | OSError m | RuntimeError m => m
  end.

Inductive res (A : Type) : Type :=
| Ok (a : A)
| Raise (e : exn).
Arguments Ok {A} a.
Arguments Raise {A} e.

Definition raises {A} (r : res A) : bool :=
  match r with Ok _ => false | Raise _ => true end.

(** Statements that read and write a state [S] and may raise. *)
Definition M (S A : Type) : Type := S -> res A * S.

Definition ret {S A} (a : A) : M S A := fun s => (Ok a, s).
Definition raise {S A} (e : exn) : M S A := fun s => (Raise e, s).
Definition bind {S A B} (m : M S A) (k : A -> M S B) : M S B :=
  fun s => match m s with
           | (Ok a, s') => k a s'
           | (Raise e, s') => (Raise e, s')
           end.

(** [try: body / except Exception as e: handler e].  The state changes made
    by [body] before it raised are kept. *)
Definition try_except {S A} (body : M S A) (handler : exn -> M S A) : M S A :=
  fun s => match body s with
           | (Ok a, s') => (Ok a, s')
           | (Raise e, s') => handler e s'
           end.

Definition modify {S} (f : S -> S) : M S unit := fun s => (Ok tt, f s).
Definition gets {S A} (f : S -> A) : M S A := fun s => (Ok (f s), s).
Definition lift_res {S A} (r : res A) : M S A := fun s => (r, s).

(** [if guard: stmt] for a statement without a value. *)
Definition when {S} (guard : bool) (stmt : M S unit) : M S unit :=
  if guard then stmt else ret tt.

(** A statement that returns, without raising, from every state. *)
Definition total {S A} (m : M S A) : Prop :=
  forall s, exists a s', m s = (Ok a, s').

(** [str.endswith]: some tail of [s] is [suffix]. *)
Fixpoint endswith (s suffix : string) : bool :=
  if String.eqb s suffix then true
  else match s with
       | EmptyString => false
       | String _ s' => endswith s' suffix
       end.

(** [str.startswith] *)
Definition startswith (s pre : string) : bool := String.prefix pre s.

(** [str(n)] for an [int]. *)
Definition str_int (n : Z) : string := NilZero.string_of_int (Z.to_int n).

(** [sep.join(parts)] *)
Fixpoint join (sep : string) (parts : list string) : string :=
  match parts with
  | [] => ""
  | [p] => p
  | p :: ps => p ++ sep ++ join sep ps
  end.

(** A [datetime.datetime]; the constructor of the class keeps
    [1 <= year <= 9999], [1 <= month <= 12] and so on. *)
Record datetime : Type := {
  year : nat; month : nat; day : nat;
  hour : nat; minute : nat; second : nat
}.

Definition digit (d : nat) : ascii := ascii_of_nat (48 + d mod 10).

(** The [width] low decimal digits of [n], zero padded: what the [%Y]
    (width 4), [%m], [%d], [%H], [%M] and [%S] (width 2) directives of
    [strftime] print for the fields of a [datetime]. *)
Fixpoint zpad (width n : nat) : string :=
  match width with
  | O => ""
  | S w => zpad w (n / 10) ++ String (digit n) ""
  end.

(** The number that a string of decimal digits writes, after [acc]. *)
Fixpoint decimal_value (acc : nat) (s : string) : nat :=
  match s with
  | EmptyString => acc
  | String c s' => decimal_value (10 * acc + (nat_of_ascii c - 48)) s'
  end.

(** [t.strftime("%Y%m%d")] *)
Definition strftime_Ymd (t : datetime) : string :=
  zpad 4 (year t) ++ zpad 2 (month t) ++ zpad 2 (day t).

(** [t.strftime("%Y%m%d_%H%M%S")] *)
Definition strftime_Ymd_HMS (t : datetime) : string :=
  strftime_Ymd t ++ "_" ++ zpad 2 (hour t) ++ zpad 2 (minute t) ++ zpad 2 (second t).

Definition is_digit (c : ascii) : bool :=
  let n := nat_of_ascii c in (48 <=? n)%nat && (n <=? 57)%nat.

(** [s] has the shape [pattern]: a [d] of the pattern stands for one
    decimal digit, every other character for itself. *)
Fixpoint shape (pattern s : string) : bool :=
  match pattern, s with
  | EmptyString, EmptyString => true
  | String p pattern', String c s' =>
      (if Ascii.eqb p "d" then is_digit c else Ascii.eqb p c) && shape pattern' s'
  | _, _ => false
  end.

End Py.

Module Notations.
Notation "x <- m ;; k" := (Py.bind m (fun x => k))
  (at level 100, m at next level, right associativity).
Notation "m ;;; k" := (Py.bind m (fun _ => k))
  (at level 100, right associativity).
End Notations.

(** ** Tables, the file system and the outside world *)

Module Sys.
Import Py.

(** A cell of a table.  A 64-bit float is carried by its textual value: how
    [%.6f] prints it is not modelled. *)
Inductive cell : Type :=
| CInt (n : Z)
| CFloat (repr : string)
| CStr (s : string)
| CTime (t : datetime) (tz : option string).

(** A [pandas.DataFrame] with a single-level index: [values] holds one list
    of cells per row, aligned with [index]. *)
Record DataFrame : Type := {
  index_name : option string;
  index : list cell;
  columns : list string;
  values : list (list cell)
}.

(** The frame [df] with other values on its index. *)
Definition reindexed (idx : list cell) (df : DataFrame) : DataFrame :=
  {| index_name := index_name df; index := idx;
     columns := columns df; values := values df |}.

(** [len(df)] *)
Definition len (df : DataFrame) : nat := length (index df).

(** [df.empty]: some axis has length zero. *)
Definition empty (df : DataFrame) : bool :=
  (len df =? 0)%nat || (length (columns df) =? 0)%nat.

(** What a file holds.  Tables written by [to_csv] and [to_excel] are kept
    structured, together with the formats they were written with. *)
Inductive content : Type :=
| Csv (header : list string) (rows : list (list cell))
      (float_format date_format : string)
| Xlsx (sheets : list (string * (list string * list (list cell))))
| Text (bytes : string).

Inductive node : Type :=
| Dir
| File (c : content).

(** Log levels, with the numbers [logging] gives them. *)
Inductive level : Type := DEBUG | INFO | WARNING | ERROR.

Definition levelno (l : level) : nat :=
  match l with DEBUG => 10 | INFO => 20 | WARNING => 30 | ERROR => 40 end.

(** A log record as a handler receives it. *)
Record record : Type := { lvl : level; logger_name : string; message : string }.

(** A [logging.Handler]: where it writes, and its own threshold. *)
Inductive sink : Type :=
| StreamHandler
| FileHandler (path : string).

Record handler : Type := { target : sink; hlevel : level }.

(** A [logging.Logger] of the registry behind [logging.getLogger]. *)
Record pylogger : Type := { llevel : level; handlers : list handler }.

(** The mutable world the pipeline runs in. *)
Record World : Type := {
  files : gmap string node;        (* the file system, by path; the lines of
                                      the log files are kept in [log] *)
  clock : nat;                     (* readings of [datetime.now()] so far *)
  requests : nat;                  (* remote calls made so far *)
  loggers : gmap string pylogger;  (* the registry of [logging], by name *)
  log : list (sink * record);      (* records written, with the sink written to *)
  stdout : list string             (* lines written by [print] *)
}.

(** The collaborators outside the repository. *)
Record Env : Type := {
  (* [yf.Ticker(ticker).history(period=, interval=)], by number of the call *)
  history : nat -> string -> string -> string -> res DataFrame;
  (* successive readings of [datetime.now()] *)
  now : nat -> datetime;
  (* [os.path.abspath] *)
  abspath : string -> string;
  (* the operating system refusing to create a directory / open a file *)
  makedirs_fault : string -> option exn;
  write_fault : string -> option exn;
  (* [os.stat(path)]: [st_size] and [st_ctime] *)
  os_stat : string -> Z * Z;
  (* pandas parsing a file it did not write *)
  parse_text : string -> option DataFrame;
  (* [platform.system() == "Windows"] *)
  windows : bool
}.

Definition set_files (f : gmap string node -> gmap string node) (w : World) : World :=
  {| files := f (files w); clock := clock w; requests := requests w;
     loggers := loggers w; log := log w; stdout := stdout w |}.

Definition set_loggers (f : gmap string pylogger -> gmap string pylogger) (w : World) : World :=
  {| files := files w; clock := clock w; requests := requests w;
     loggers := f (loggers w); log := log w; stdout := stdout w |}.

Definition set_log (f : list (sink * record) -> list (sink * record)) (w : World) : World :=
  {| files := files w; clock := clock w; requests := requests w;
     loggers := loggers w; log := f (log w); stdout := stdout w |}.

Definition tick_requests (w : World) : World :=
  {| files := files w; clock := clock w; requests := S (requests w);
     loggers := loggers w; log := log w; stdout := stdout w |}.

(** [print(line)] *)
Definition print (line : string) : M World unit :=
  modify (fun w => {| files := files w; clock := clock w; requests := requests w;
                      loggers := loggers w; log := log w;
                      stdout := (stdout w ++ [line])%list |}).

(** [datetime.now()] *)
Definition datetime_now (env : Env) : M World datetime :=
  fun w => (Ok (now env (clock w)),
            {| files := files w; clock := S (clock w); requests := requests w;
               loggers := loggers w; log := log w; stdout := stdout w |}).

(** [os.path.exists] *)
Definition exists_ (w : World) (path : string) : bool :=
  match files w !! path with Some _ => true | None => false end.

(** [os.path.join] with two arguments (POSIX). *)
Definition path_join (a b : string) : string :=
  if startswith b "/" then b
  else if String.eqb a "" || endswith a "/" then a ++ b
  else a ++ "/" ++ b.

(** [os.path.basename] (POSIX): what follows the last slash. *)
Fixpoint basename (p : string) : string :=
  match p with
  | EmptyString => ""
  | String c p' =>
      if existsb (Ascii.eqb "/") (list_ascii_of_string p') then basename p'
      else if Ascii.eqb c "/" then p' else p
  end.

(** [os.makedirs(path, exist_ok=True)] *)
Definition makedirs (env : Env) (path : string) : M World unit :=
  fun w =>
    match makedirs_fault env path with
    | Some e => (Raise e, w)
    | None =>
        match files w !! abspath env path with
        | Some (File _) => (Raise (OSError ("File exists: " ++ path)), w)
        | _ => (Ok tt, set_files (insert (abspath env path) Dir) w)
        end
    end.

(** Opening [path] for writing and storing [c] there. *)
Definition write_file (env : Env) (path : string) (c : content) : M World unit :=
  fun w =>
    match write_fault env path with
    | Some e => (Raise e, w)
    | None =>
        match files w !! path with
        | Some Dir => (Raise (IsADirectoryError ("Is a directory: " ++ path)), w)
        | _ => (Ok tt, set_files (insert path (File c)) w)
        end
    end.

(** Insertion-ordered [dict] with string keys: an assignment to a key that
    is present replaces the value in place, a new key goes to the end. *)
Fixpoint dict_set {V} (k : string) (v : V) (d : list (string * V)) : list (string * V) :=
  match d with
  | [] => [(k, v)]
  | (k', v') :: d' =>
      if String.eqb k' k then (k', v) :: d' else (k', v') :: dict_set k v d'
  end.

Definition keys {V} (d : list (string * V)) : list string := map fst d.

End Sys.

(** ** utils/io.py *)

Module IO.
Import Py Sys Notations.

(** [create_output_directory] *)
Definition create_output_directory (env : Env) (output_dir : string) : M World string :=
  makedirs env output_dir ;;;
  ret (abspath env output_dir).

(** [generate_filename] *)
Definition generate_filename (env : Env) (ticker period : string)
    (custom_filename : option string) : M World string :=
  match custom_filename with
  | Some custom =>
      ret (if endswith custom ".csv" then custom else custom ++ ".csv")
  | None =>
      t <- datetime_now env ;;
      let timestamp := strftime_Ymd_HMS t in
      ret (ticker ++ "_" ++ period ++ "_" ++ timestamp ++ ".csv")
  end.

(** Truth value of [df.index.name]: set and not the empty string. *)
Definition index_named (df : DataFrame) : bool :=
  match index_name df with
  | Some n => negb (String.eqb n "")
  | None => false
  end.

(** The [RangeIndex] of [n] rows. *)
Definition range_index (n : nat) : list cell :=
  map (fun i => CInt (Z.of_nat i)) (seq 0 n).

(** [df.reset_index(inplace=True)]: the index becomes the first column,
    under its name, and is replaced by a [RangeIndex]; pandas refuses when a
    column of that name exists. *)
Definition reset_index (df : DataFrame) : res DataFrame :=
  let n := default "index" (index_name df) in
  if existsb (String.eqb n) (columns df)
  then Raise (ValueError ("cannot insert " ++ n ++ ", already exists"))
  else Ok {| index_name := None;
             index := range_index (len df);
             columns := n :: columns df;
             values := zip_with cons (index df) (values df) |}.

(** [df.to_csv(filepath, index=False, float_format=, date_format=)]: the
    header and the rows of the columns; nothing of the index. *)
Definition to_csv (env : Env) (df : DataFrame) (filepath float_format date_format : string)
    : M World unit :=
  write_file env filepath (Csv (columns df) (values df) float_format date_format).

(** [save_dataframe_to_csv] *)
Definition save_dataframe_to_csv (env : Env) (df : DataFrame) (ticker period : string)
    (output_dir : string) (filename : option string)
    (float_format date_format : string) : M World string :=
  output_path <- create_output_directory env output_dir ;;
  csv_filename <- generate_filename env ticker period filename ;;
  let filepath := path_join output_path csv_filename in
  df_to_save <- (if index_named df then lift_res (reset_index df) else ret df) ;;
  to_csv env df_to_save filepath float_format date_format ;;;
  ret filepath.

Definition default_float_format : string := "%.6f".
Definition default_date_format : string := "%Y-%m-%d %H:%M:%S".

(** [tz_localize(None)] on one value. *)
Definition strip_tz (c : cell) : cell :=
  match c with
  | CTime t _ => CTime t None
  | _ => c
  end.

(** One sheet of [save_multiple_stocks_to_excel]: the copy with time zones
    removed, written with [index=False]. *)
Definition excel_sheet (df : DataFrame) : list string * list (list cell) :=
  (columns df, map (map strip_tz) (values df)).

(** [save_multiple_stocks_to_excel] *)
Definition save_multiple_stocks_to_excel (env : Env)
    (stocks_dict : list (string * DataFrame)) (output_filepath output_dir : string)
    : M World string :=
  output_path <- create_output_directory env output_dir ;;
  let full_filepath := path_join output_path output_filepath in
  write_file env full_filepath
    (Xlsx (map (fun kv => (fst kv, excel_sheet (snd kv))) stocks_dict)) ;;;
  ret full_filepath.

(** [pd.read_csv(filepath, parse_dates=)].  A table is handed back with the
    cells it was stored with; the conversions of [parse_dates] are not
    modelled. *)
Definition read_csv (env : Env) (filepath : string) (parse_dates : option bool)
    : M World DataFrame :=
  fun w =>
    match files w !! filepath with
    | None => (Raise (FileNotFoundError ("No such file or directory: " ++ filepath)), w)
    | Some Dir => (Raise (IsADirectoryError ("Is a directory: " ++ filepath)), w)
    | Some (File (Csv header rows _ _)) =>
        (Ok {| index_name := None; index := range_index (length rows);
               columns := header; values := rows |}, w)
    | Some (File (Xlsx _)) =>
        (Raise (ValueError "codec can't decode byte"), w)
    | Some (File (Text bytes)) =>
        match parse_text env bytes with
        | Some df => (Ok df, w)
        | None => (Raise (ParserError "Error tokenizing data"), w)
        end
    end.

(** [load_csv_data] *)
Definition load_csv_data (env : Env) (filepath : string) (parse_dates : bool)
    : M World DataFrame :=
  fun w =>
    if negb (exists_ w filepath)
    then (Raise (FileNotFoundError ("File not found: " ++ filepath)), w)
    else read_csv env filepath (if parse_dates then Some true else None) w.

(** The dictionary [get_data_file_info] returns.  [size_mb] and [created]
    are a float quotient and a formatted time: the record keeps the
    [st_size] and [st_ctime] they are computed from. *)
Record FileInfo : Type := {
  filename : string;
  filepath : string;
  size_bytes : Z;
  created_at : Z;
  rows : nat;
  columns_ : nat;
  column_names : list string
}.

(** [get_data_file_info] *)
Definition get_data_file_info (env : Env) (path : string) : M World FileInfo :=
  fun w =>
    if negb (exists_ w path)
    then (Raise (FileNotFoundError ("File not found: " ++ path)), w)
    else
      (df <- read_csv env path None ;;
       let file_stat := os_stat env path in
       ret {| filename := basename path;
              filepath := path;
              size_bytes := fst file_stat;
              created_at := snd file_stat;
              rows := len df;
              columns_ := length (columns df);
              column_names := columns df |}) w.

(** What [get_data_file_info] reports for the frame read from [path]. *)
Definition info_of (env : Env) (path : string) (df : DataFrame) : FileInfo :=
  {| filename := basename path;
     filepath := path;
     size_bytes := fst (os_stat env path);
     created_at := snd (os_stat env path);
     rows := len df;
     columns_ := length (columns df);
     column_names := columns df |}.

End IO.

(** ** utils/logger.py *)

Module Logger.
Import Py Sys Notations.

(** [safe_symbol] *)
Definition safe_symbol (env : Env) (symbol fallback : string) : string :=
  if windows env then fallback else symbol.

Inductive color : Type := RESET | GREEN | YELLOW | RED | BLUE | CYAN.

Definition ESC : string := String (ascii_of_nat 27) "".

(** [DataLogger.COLORS] *)
Definition COLORS (c : color) : string :=
  match c with
  | RESET => ESC ++ "[0m"
  | GREEN => ESC ++ "[92m"
  | YELLOW => ESC ++ "[93m"
  | RED => ESC ++ "[91m"
  | BLUE => ESC ++ "[94m"
  | CYAN => ESC ++ "[96m"
  end.

(** The attributes of a [DataLogger]; [self.logger] is the logger of the
    registry called [name]. *)
Record DataLogger : Type := {
  name : string;
  enable_colors : bool;
  log_dir : string
}.

(** [logging.getLogger(name)]: the registered logger, made on first use. *)
Definition getLogger (nm : string) (w : World) : pylogger :=
  default {| llevel := WARNING; handlers := [] |} (loggers w !! nm).

Definition update_logger (nm : string) (f : pylogger -> pylogger) : M World unit :=
  modify (fun w => set_loggers (insert nm (f (getLogger nm w))) w).

Definition setLevel (nm : string) (l : level) : M World unit :=
  update_logger nm (fun lg => {| llevel := l; handlers := handlers lg |}).

Definition addHandler (nm : string) (h : handler) : M World unit :=
  update_logger nm (fun lg => {| llevel := llevel lg; handlers := (handlers lg ++ [h])%list |}).

Definition clear_handlers (nm : string) : M World unit :=
  update_logger nm (fun lg => {| llevel := llevel lg; handlers := [] |}).

(** [logging.FileHandler(path)] opens the file for appending, which creates
    it when it is not there. *)
Definition open_append (env : Env) (path : string) : M World unit :=
  fun w =>
    match write_fault env path with
    | Some e => (Raise e, w)
    | None =>
        match files w !! path with
        | Some Dir => (Raise (IsADirectoryError ("Is a directory: " ++ path)), w)
        | Some (File _) => (Ok tt, w)
        | None => (Ok tt, set_files (insert path (File (Text ""))) w)
        end
    end.

(** [DataLogger._setup_file_handler] *)
Definition _setup_file_handler (env : Env) (self : DataLogger) : M World unit :=
  makedirs env (log_dir self) ;;;
  today <- datetime_now env ;;
  let timestamp := strftime_Ymd today in
  let log_file := path_join (log_dir self) ("data_download_" ++ timestamp ++ ".log") in
  open_append env log_file ;;;
  addHandler (name self) {| target := FileHandler log_file; hlevel := DEBUG |}.

(** [DataLogger.__init__] *)
Definition DataLogger_init (env : Env) (nm dir : string)
    (enable_file_logging enable_console_colors : bool) : M World DataLogger :=
  let self := {| name := nm; enable_colors := enable_console_colors; log_dir := dir |} in
  setLevel nm DEBUG ;;;
  clear_handlers nm ;;;
  addHandler nm {| target := StreamHandler; hlevel := DEBUG |} ;;;
  when enable_file_logging (_setup_file_handler env self) ;;;
  ret self.

(** [setup_logging] *)
Definition setup_logging (env : Env) (nm dir : string) (lv : level) : M World string :=
  setLevel nm lv ;;;
  makedirs env dir ;;;
  addHandler nm {| target := StreamHandler; hlevel := lv |} ;;;
  today <- datetime_now env ;;
  let timestamp := strftime_Ymd today in
  let log_file := path_join dir (nm ++ "_" ++ timestamp ++ ".log") in
  open_append env log_file ;;;
  addHandler nm {| target := FileHandler log_file; hlevel := lv |} ;;;
  ret nm.

(** [logger.log(lv, msg)] of [logging]: the record goes to every handler
    whose threshold it reaches, when the logger's own level lets it pass. *)
Definition log_record (nm : string) (lv : level) (msg : string) : M World unit :=
  modify (fun w =>
    let lg := getLogger nm w in
    if (levelno (llevel lg) <=? levelno lv)%nat then
      set_log (fun l => (l ++
        map (fun h => (target h, {| lvl := lv; logger_name := nm; message := msg |}))
            (List.filter (fun h => (levelno (hlevel h) <=? levelno lv)%nat) (handlers lg)))%list) w
    else w).

(** [DataLogger._colorize] *)
Definition _colorize (self : DataLogger) (msg : string) (c : color) : string :=
  if negb (enable_colors self) then msg
  else COLORS c ++ msg ++ COLORS RESET.

Definition info (env : Env) (self : DataLogger) (msg : string) : M World unit :=
  let symbol := safe_symbol env "✓" "[OK]" in
  log_record (name self) INFO (_colorize self (symbol ++ " " ++ msg) GREEN).

Definition success (env : Env) (self : DataLogger) (msg : string) : M World unit :=
  let symbol := safe_symbol env "✓" "[OK]" in
  log_record (name self) INFO (_colorize self (symbol ++ " " ++ msg) GREEN).

Definition warning (env : Env) (self : DataLogger) (msg : string) : M World unit :=
  let symbol := safe_symbol env "⚠" "[WARN]" in
  log_record (name self) WARNING (_colorize self (symbol ++ " " ++ msg) YELLOW).

Definition error (env : Env) (self : DataLogger) (msg : string) : M World unit :=
  let symbol := safe_symbol env "✗" "[ERR]" in
  log_record (name self) ERROR (_colorize self (symbol ++ " " ++ msg) RED).

Definition debug (env : Env) (self : DataLogger) (msg : string) : M World unit :=
  let symbol := safe_symbol env "⚙" "[DBG]" in
  log_record (name self) DEBUG (_colorize self (symbol ++ " " ++ msg) CYAN).

Definition dashes (n : nat) : string := string_of_list_ascii (repeat "-"%char n).

Definition separator (self : DataLogger) : M World unit :=
  print (_colorize self (dashes 50) BLUE).

(** [DownloadLogger.__init__] *)
Definition DownloadLogger_init (env : Env) (dir : string) : M World DataLogger :=
  DataLogger_init env "download_logger" dir true true.

Definition default_log_dir : string := "../logs".

Definition log_download_start (env : Env) (self : DataLogger)
    (ticker period interval : string) : M World unit :=
  info env self ("Starting download: " ++ ticker ++ " (period=" ++ period
                 ++ ", interval=" ++ interval ++ ")").

Definition log_download_complete (env : Env) (self : DataLogger)
    (ticker : string) (nrows : nat) (path : string) : M World unit :=
  success env self ("Download complete: " ++ ticker ++ " - "
                    ++ str_int (Z.of_nat nrows) ++ " rows saved to " ++ path).

Definition log_download_error (env : Env) (self : DataLogger)
    (ticker err : string) : M World unit :=
  error env self ("Download failed for " ++ ticker ++ ": " ++ err).

Definition log_data_stats (env : Env) (self : DataLogger)
    (ticker : string) (nrows : nat) (cols : list string) : M World unit :=
  let col_str := join ", " cols in
  debug env self (ticker ++ " | Rows: " ++ str_int (Z.of_nat nrows)
                  ++ " | Columns: " ++ col_str).

(** The paths of the files the handlers of a logger append to. *)
Fixpoint file_sinks (hs : list handler) : list string :=
  match hs with
  | [] => []
  | h :: hs' =>
      match target h with
      | FileHandler path => path :: file_sinks hs'
      | StreamHandler => file_sinks hs'
      end
  end.

(** The path of the log file in the words of the specification:
    [{log_dir}/{logger_name}_{YYYYMMDD}.log]. *)
Definition spec_log_file (dir nm : string) (today : datetime) : string :=
  dir ++ "/" ++ nm ++ "_" ++ strftime_Ymd today ++ ".log".

End Logger.

(** ** download_data.py *)

Module Download.
Import Py Sys Notations.

(** The attributes of a [StockDataDownloader]. *)
Record StockDataDownloader : Type := {
  output_dir : string;
  logger : option Logger.DataLogger
}.


(** [StockDataDownloader.__init__] *)
Definition StockDataDownloader_init (env : Env) (dir : string) (use_logging : bool)
    : M World StockDataDownloader :=
  lg <- (if use_logging
         then (l <- Logger.DownloadLogger_init env Logger.default_log_dir ;; ret (Some l))
         else ret None) ;;
  ret {| output_dir := dir; logger := lg |}.

(** [if self.logger: stmt] *)
Definition if_logger (self : StockDataDownloader)
    (stmt : Logger.DataLogger -> M World unit) : M World unit :=
  match logger self with
  | Some lg => stmt lg
  | None => ret tt
  end.

(** [yf.Ticker(ticker).history(period=period, interval=interval)] *)
Definition fetch_history (env : Env) (ticker period interval : string) : M World DataFrame :=
  fun w => (history env (requests w) ticker period interval, tick_requests w).

(** The [try] block of [download_single_stock]. *)
Definition download_single_stock_body (env : Env) (self : StockDataDownloader)
    (ticker period interval : string) (filename : option string)
    : M World (option DataFrame) :=
  if_logger self (fun lg => Logger.log_download_start env lg ticker period interval) ;;;
  df <- fetch_history env ticker period interval ;;
  if empty df then
    if_logger self (fun lg => Logger.warning env lg ("No data found for " ++ ticker)) ;;;
    ret None
  else
    filepath <- IO.save_dataframe_to_csv env df ticker period (output_dir self) filename
                  IO.default_float_format IO.default_date_format ;;
    if_logger self (fun lg =>
      Logger.log_download_complete env lg ticker (len df) filepath ;;;
      Logger.log_data_stats env lg ticker (len df) (columns df)) ;;;
    ret (Some df).

(** [StockDataDownloader.download_single_stock]: [None] stands for the
    Python [None], [Some df] for the frame. *)
Definition download_single_stock (env : Env) (self : StockDataDownloader)
    (ticker period interval : string) (filename : option string)
    : M World (option DataFrame) :=
  try_except
    (download_single_stock_body env self ticker period interval filename)
    (fun e =>
       match logger self with
       | Some lg => Logger.log_download_error env lg ticker (str_exn e)
       | None => print ("Error downloading " ++ ticker ++ ": " ++ str_exn e)
       end ;;;
       ret None).

(** The [for ticker in tickers] loop of [download_multiple_stocks], run on
    the dictionary built so far. *)
Fixpoint download_loop (env : Env) (self : StockDataDownloader)
    (tickers : list string) (period interval : string)
    (results : list (string * DataFrame)) : M World (list (string * DataFrame)) :=
  match tickers with
  | [] => ret results
  | ticker :: rest =>
      df <- download_single_stock env self ticker period interval None ;;
      let results' := match df with
                      | Some d => dict_set ticker d results
                      | None => results
                      end in
      if_logger self (fun lg => Logger.separator lg) ;;;
      download_loop env self rest period interval results'
  end.

(** The [try] statement that saves the combined workbook. *)
Definition save_combined (env : Env) (self : StockDataDownloader)
    (results : list (string * DataFrame)) (period : string) : M World unit :=
  try_except
    (let filename := "combined_stocks_" ++ period ++ ".xlsx" in
     excel_path <- IO.save_multiple_stocks_to_excel env results filename (output_dir self) ;;
     if_logger self (fun lg =>
       Logger.success env lg ("Combined Excel saved to " ++ excel_path)))
    (fun e =>
       if_logger self (fun lg =>
         Logger.error env lg ("Failed to save combined Excel: " ++ str_exn e))).

(** [StockDataDownloader.download_multiple_stocks]; a dictionary is true
    when it is not empty. *)
Definition download_multiple_stocks (env : Env) (self : StockDataDownloader)
    (tickers : list string) (period interval : string)
    (save_individual save_combined_excel : bool)
    : M World (list (string * DataFrame)) :=
  results <- download_loop env self tickers period interval [] ;;
  when (save_combined_excel && negb (length results =? 0)%nat)
    (save_combined env self results period) ;;;
  ret results.

(** What each call of [download_single_stock] in the loop hands back, in the
    order of [tickers]: the observation "ticker number i failed" is
    [None] at position i. *)
Fixpoint batch_outcomes (env : Env) (self : StockDataDownloader)
    (tickers : list string) (period interval : string) (w : World)
    : list (option DataFrame) :=
  match tickers with
  | [] => []
  | ticker :: rest =>
      let '(r, w1) := download_single_stock env self ticker period interval None w in
      let '(_, w2) := if_logger self (fun lg => Logger.separator lg) w1 in
      match r with
      | Ok (Some d) => Some d
      | _ => None
      end :: batch_outcomes env self rest period interval w2
  end.

(** The number M of tickers that failed. *)
Definition failures (outcomes : list (option DataFrame)) : nat :=
  length (List.filter (fun o => match o with None => true | Some _ => false end) outcomes).

(** The tickers whose download succeeded, in input order. *)
Fixpoint succeeded (tickers : list string) (outcomes : list (option DataFrame))
    : list string :=
  match tickers, outcomes with
  | t :: ts, Some _ :: os => t :: succeeded ts os
  | _ :: ts, None :: os => succeeded ts os
  | _, _ => []
  end.

(** The keys of a dictionary after an assignment to [k]. *)
Definition add_key (ks : list string) (k : string) : list string :=
  if existsb (String.eqb k) ks then ks else (ks ++ [k])%list.

(** The records a download that finds no rows sends to the logger [lg]. *)
Definition start_record (env : Env) (lg : Logger.DataLogger)
    (ticker period interval : string) : record :=
  {| lvl := INFO; logger_name := Logger.name lg;
     message := Logger._colorize lg
                  (Logger.safe_symbol env "✓" "[OK]" ++ " "
                   ++ "Starting download: " ++ ticker ++ " (period=" ++ period
                   ++ ", interval=" ++ interval ++ ")") Logger.GREEN |}.

Definition no_data_record (env : Env) (lg : Logger.DataLogger) (ticker : string) : record :=
  {| lvl := WARNING; logger_name := Logger.name lg;
     message := Logger._colorize lg
                  (Logger.safe_symbol env "⚠" "[WARN]" ++ " "
                   ++ "No data found for " ++ ticker) Logger.YELLOW |}.

(** A logger as [DataLogger.__init__] leaves it with file logging on: a
    console handler and a file handler on [path], all at [DEBUG]. *)
Definition wired (lg : Logger.DataLogger) (path : string) (w : World) : Prop :=
  Logger.getLogger (Logger.name lg) w
  = {| llevel := DEBUG;
       handlers := [ {| target := StreamHandler; hlevel := DEBUG |};
                     {| target := FileHandler path; hlevel := DEBUG |} ] |}.

(** The remote answers every request for [ticker] with a frame without
    rows or columns. *)
Definition always_empty (env : Env) (ticker period interval : string) : Prop :=
  forall n, exists df, history env n ticker period interval = Ok df /\ empty df = true.

(** The module-level [download_stock_data] *)
Definition download_stock_data (env : Env) (ticker period interval : string)
    (filename : option string) (dir : string) : M World (option DataFrame) :=
  downloader <- StockDataDownloader_init env dir true ;;
  download_single_stock env downloader ticker period interval filename.

(** The module-level [download_multiple_stocks] *)
Definition download_multiple_stocks_in (env : Env) (tickers : list string)
    (period interval dir : string) (save_combined_excel : bool)
    : M World (list (string * DataFrame)) :=
  downloader <- StockDataDownloader_init env dir true ;;
  download_multiple_stocks env downloader tickers period interval true save_combined_excel.

End Download.

(** ** utils/seeding.py *)

Module Seeding.
Import Py Notations.

(** The state the seeding calls write: the seed last given to each random
    generator and the flags of the libraries, by the dotted name the code
    uses, and [os.environ]. *)
Record Runtime : Type := {
  rng : gmap string Z;
  flags : gmap string bool;
  environ : gmap string string
}.

Definition seed_rng (generator : string) (seed : Z) : M Runtime unit :=
  modify (fun rt => {| rng := <[generator := seed]> (rng rt);
                       flags := flags rt; environ := environ rt |}).

Definition set_flag (flag : string) (v : bool) : M Runtime unit :=
  modify (fun rt => {| rng := rng rt; flags := <[flag := v]> (flags rt);
                       environ := environ rt |}).

(** [os.environ[key] = value] *)
Definition setenv (key value : string) : M Runtime unit :=
  modify (fun rt => {| rng := rng rt; flags := flags rt;
                       environ := <[key := value]> (environ rt) |}).

(** [random.seed(seed)]: every [int] is accepted. *)
Definition random_seed (seed : Z) : M Runtime unit := seed_rng "random" seed.

(** [np.random.seed(seed)]: the legacy seeder of numpy takes the integers
    of 32 bits and raises [ValueError] on any other. *)
Definition np_random_seed (seed : Z) : M Runtime unit :=
  if ((0 <=? seed) && (seed <=? 2 ^ 32 - 1))%Z
  then seed_rng "np.random" seed
  else raise (ValueError "Seed must be between 0 and 2**32 - 1").

(** What the guarded calls into TensorFlow and PyTorch leave alone: the
    environment and the seeds of [random] and [np.random]. *)
Definition keeps (rt rt' : Runtime) : Prop :=
  environ rt' = environ rt
  /\ rng rt' !! "random" = rng rt !! "random"
  /\ rng rt' !! "np.random" = rng rt !! "np.random".

Definition preserving {A} (m : M Runtime A) : Prop :=
  forall rt, keeps rt (snd (m rt)).

Section WithBackends.

(** The exception, if any, that a call into TensorFlow or PyTorch raises
    in this installation, by the dotted name of the call. *)
Variable fault : string -> Z -> option exn.

Definition call (fn : string) (seed : Z) : M Runtime unit :=
  match fault fn seed with
  | Some e => raise e
  | None => seed_rng fn seed
  end.

Definition assign (attr : string) (v : bool) (seed : Z) : M Runtime unit :=
  match fault attr seed with
  | Some e => raise e
  | None => set_flag attr v
  end.

(** The [try] block around the TensorFlow calls. *)
Definition tf_block (seed : Z) : M Runtime unit :=
  try_except
    (call "tf.random.set_seed" seed ;;;
     call "tf.compat.v1.set_random_seed" seed)
    (fun _ => ret tt).

(** The [try] block around the PyTorch calls. *)
Definition torch_block (seed : Z) : M Runtime unit :=
  try_except
    (call "torch.manual_seed" seed ;;;
     call "torch.cuda.manual_seed" seed ;;;
     call "torch.cuda.manual_seed_all" seed ;;;
     assign "torch.backends.cudnn.deterministic" true seed ;;;
     assign "torch.backends.cudnn.benchmark" false seed)
    (fun _ => ret tt).

(** [set_random_seed] *)
Definition set_random_seed (seed : Z) : M Runtime unit :=
  random_seed seed ;;;
  np_random_seed seed ;;;
  tf_block seed ;;;
  torch_block seed ;;;
  setenv "PYTHONHASHSEED" (str_int seed) ;;;
  setenv "TF_DETERMINISTIC_OPS" "1".

(** The built-in [hash] on strings, as this run of the interpreter
    computes it. *)
Variable hash : string -> Z.

(** The instance attributes of a [SeedManager]. *)
Record SeedManagerObj : Type := {
  _seed : Z;
  _experiment_seeds : gmap string Z
}.

(** The process: the class attribute [SeedManager._instance] (the one
    object ever allocated, which every reference aliases), the seeding
    state, and the number of times [hash] has been evaluated (an
    observation of the run, not a Python variable). *)
Record Process : Type := {
  _instance : option SeedManagerObj;
  runtime : Runtime;
  hash_calls : nat
}.

Definition put_self (o : SeedManagerObj) : M Process unit :=
  modify (fun p => {| _instance := Some o; runtime := runtime p;
                      hash_calls := hash_calls p |}).

Definition on_runtime {A} (m : M Runtime A) : M Process A :=
  fun p => let '(r, rt) := m (runtime p) in
           (r, {| _instance := _instance p; runtime := rt;
                  hash_calls := hash_calls p |}).

Definition count_hash : M Process unit :=
  modify (fun p => {| _instance := _instance p; runtime := runtime p;
                      hash_calls := S (hash_calls p) |}).

(** A method runs on [self], the singleton.  No method can be called
    before an object exists, so the other branch is never taken by a
    program. *)
Definition with_self {A} (method : SeedManagerObj -> M Process A) : M Process A :=
  fun p => match _instance p with
           | Some self => method self p
           | None => (Raise (RuntimeError "no SeedManager object"), p)
           end.

(** [SeedManager.__new__]: allocate on the first call only.  The fresh
    object sees the class attribute [_seed = 42]; its
    [_experiment_seeds] is set by [__init__], which always follows. *)
Definition __new__ : M Process unit :=
  fun p => match _instance p with
           | None => put_self {| _seed := 42; _experiment_seeds := ∅ |} p
           | Some _ => (Ok tt, p)
           end.

(** [SeedManager.__init__] *)
Definition __init__ : M Process unit :=
  with_self (fun self => put_self {| _seed := 42; _experiment_seeds := ∅ |}).

(** The call [SeedManager()]: Python runs [__new__] and then, because it
    handed back an instance of the class, [__init__] on the result. *)
Definition SeedManager : M Process unit :=
  __new__ ;;; __init__.

(** [SeedManager.set_seed] *)
Definition set_seed (seed : Z) : M Process unit :=
  with_self (fun self =>
    put_self {| _seed := seed; _experiment_seeds := _experiment_seeds self |} ;;;
    on_runtime (set_random_seed seed)).

(** [SeedManager.get_seed] *)
Definition get_seed : M Process Z :=
  with_self (fun self => ret (_seed self)).

(** [SeedManager.create_experiment_seed] *)
Definition create_experiment_seed (experiment_name : string) : M Process Z :=
  with_self (fun self =>
    count_hash ;;;
    let experiment_seed :=
      (hash (experiment_name ++ "_" ++ str_int (_seed self)) mod (2 ^ 32 - 1))%Z in
    put_self {| _seed := _seed self;
                _experiment_seeds :=
                  <[experiment_name := experiment_seed]> (_experiment_seeds self) |} ;;;
    ret experiment_seed).

(** [SeedManager.get_experiment_seed]: the second argument of [dict.get]
    is evaluated before [get] is called. *)
Definition get_experiment_seed (experiment_name : string) : M Process Z :=
  fallback <- create_experiment_seed experiment_name ;;
  with_self (fun self =>
    ret (default fallback (_experiment_seeds self !! experiment_name))).

(** [SeedManager.reset] *)
Definition reset : M Process unit :=
  with_self (fun self =>
    put_self {| _seed := 42; _experiment_seeds := ∅ |} ;;;
    on_runtime (set_random_seed 42)).

(** The dictionary [get_reproducible_config] returns. *)
Record Config : Type := {
  seed : Z;
  torch_available : bool;
  tensorflow_available : bool;
  numpy_available : bool;
  python_hashseed : string;
  deterministic_ops : string
}.

(** [get_reproducible_config] *)
Definition get_reproducible_config : M Process Config :=
  SeedManager ;;;
  s <- get_seed ;;
  env <- gets (fun p => environ (runtime p)) ;;
  ret {| seed := s;
         torch_available := true;
         tensorflow_available := true;
         numpy_available := true;
         python_hashseed := default "not set" (env !! "PYTHONHASHSEED");
         deterministic_ops := default "not set" (env !! "TF_DETERMINISTIC_OPS") |}.

End WithBackends.

(** The state of a process that has just imported the module. *)
Definition fresh : Process :=
  {| _instance := None;
     runtime := {| rng := ∅; flags := ∅; environ := ∅ |};
     hash_calls := 0 |}.

(** The attributes [__init__] gives the object. *)
Definition blank : SeedManagerObj := {| _seed := 42; _experiment_seeds := ∅ |}.

End Seeding.

(** ** Concrete inputs *)

Module Examples.
Import Py Sys.

Definition jan5 : datetime :=
  {| year := 2024; month := 1; day := 5; hour := 9; minute := 30; second := 7 |}.

Definition jan2 : datetime :=
  {| year := 2024; month := 1; day := 2; hour := 0; minute := 0; second := 0 |}.

Definition jan3 : datetime :=
  {| year := 2024; month := 1; day := 3; hour := 0; minute := 0; second := 0 |}.

(** Two daily bars, indexed by a date axis called [Date]. *)
Definition bars : DataFrame :=
  {| index_name := Some "Date";
     index := [CTime jan2 (Some "America/New_York"); CTime jan3 (Some "America/New_York")];
     columns := ["Open"; "Close"];
     values := [[CFloat "100.0"; CFloat "101.0"]; [CFloat "101.0"; CFloat "102.0"]] |}.

(** The same bars under an index without a name. *)
Definition unnamed_bars : DataFrame :=
  {| index_name := None;
     index := index bars; columns := columns bars; values := values bars |}.

(** What the remote hands back for a symbol it has no rows for. *)
Definition no_rows : DataFrame :=
  {| index_name := Some "Date"; index := []; columns := ["Open"; "Close"]; values := [] |}.

(** A remote that knows every ticker except [NOPE], on a machine where
    nothing fails and the clock stands at [jan5]. *)
Definition env0 : Env :=
  {| history := fun _ ticker _ _ =>
                  if String.eqb ticker "NOPE" then Ok no_rows else Ok bars;
     now := fun _ => jan5;
     abspath := fun p => "/home/user/" ++ p;
     makedirs_fault := fun _ => None;
     write_fault := fun _ => None;
     os_stat := fun _ => (0%Z, 0%Z);
     parse_text := fun _ => None;
     windows := false |}.

Definition w0 : World :=
  {| files := ∅; clock := 0; requests := 0; loggers := ∅; log := []; stdout := [] |}.

(** A downloader built with [use_logging=False]. *)
Definition quiet : Download.StockDataDownloader :=
  {| Download.output_dir := "data"; Download.logger := None |}.

Definition download_logger : Logger.DataLogger :=
  {| Logger.name := "download_logger"; Logger.enable_colors := true;
     Logger.log_dir := "../logs" |}.

(** A downloader built with [use_logging=True], and the world right after
    its construction. *)
Definition chatty : Download.StockDataDownloader :=
  {| Download.output_dir := "data"; Download.logger := Some download_logger |}.

Definition w1 : World :=
  snd (Logger.DownloadLogger_init env0 "../logs" w0).

(** No TensorFlow or PyTorch call fails. *)
Definition no_fault : string -> Z -> option exn := fun _ _ => None.

(** A stand-in for the interpreter's [hash]. *)
Definition toy_hash (s : string) : Z := Z.of_nat (String.length s) * 1000003 - 7.

Definition rt0 : Seeding.Runtime :=
  {| Seeding.rng := ∅; Seeding.flags := ∅; Seeding.environ := ∅ |}.

End Examples.

(** ** What the operations leave behind *)

Module Views.
Import Py Sys.

(** The header and the rows [save_dataframe_to_csv] writes for [df]: the
    columns, behind the index when the index carries a name. *)
Definition saved_header (df : DataFrame) : list string :=
  if IO.index_named df
  then default "index" (index_name df) :: columns df
  else columns df.

Definition saved_rows (df : DataFrame) : list (list cell) :=
  if IO.index_named df
  then zip_with cons (index df) (values df)
  else values df.




(** The fields of a [datetime] fit the widths [strftime] prints them in. *)
Definition fits (t : datetime) : Prop :=
  year t < 10 ^ 4 /\ month t < 10 ^ 2 /\ day t < 10 ^ 2
  /\ hour t < 10 ^ 2 /\ minute t < 10 ^ 2 /\ second t < 10 ^ 2.

(** A file, as opposed to a directory or nothing, is at [path]. *)
Definition is_file (w : World) (path : string) : bool :=
  match files w !! path with
  | Some (File _) => true
  | _ => false
  end.

End Views.

(** ** What the loggers are set up with *)

Module LogViews.
Import Py Sys.


(** The log file of a [DataLogger] for a day stamp. *)
Definition data_log_file (dir stamp : string) : string :=
  path_join dir ("data_download_" ++ stamp ++ ".log").



End LogViews.

(** ** utils/seeding.py: the single-library setters and the environment *)

Module SeedingMore.
Import Py Seeding Notations.

(** [set_numpy_seed] *)
Definition set_numpy_seed (seed : Z) : M Runtime unit := np_random_seed seed.

Section WithBackends.

Variable fault : string -> Z -> option exn.

(** [set_torch_seed] *)
Definition set_torch_seed (seed : Z) : M Runtime unit :=
  try_except
    (call fault "torch.manual_seed" seed ;;;
     call fault "torch.cuda.manual_seed" seed ;;;
     call fault "torch.cuda.manual_seed_all" seed ;;;
     assign fault "torch.backends.cudnn.deterministic" true seed)
    (fun _ => ret tt).

(** [set_tensorflow_seed] *)
Definition set_tensorflow_seed (seed : Z) : M Runtime unit :=
  try_except
    (call fault "tf.random.set_seed" seed ;;;
     call fault "tf.compat.v1.set_random_seed" seed)
    (fun _ => ret tt).

(** The fraction of GPU memory is a float: its type is left open, with its
    truth value ([0.0] is false), the integer [int(fraction * 1024)] (which
    raises on [nan] and [inf]) and the text an f-string prints for it. *)
Variable fraction : Type.
Variable truthy : fraction -> bool.
Variable memory_limit_of : fraction -> res Z.
Variable str_fraction : fraction -> string.

(** The machine: is CUDA available to PyTorch, the version of numpy, what
    [tf.config.list_physical_devices('GPU')] hands back, and the exception,
    if any, of [tf.config.set_logical_device_configuration] for a GPU. *)
Variable cuda_available : bool.
Variable numpy_version : string.
Variable physical_gpus : res (list string).
Variable device_fault : string -> option exn.

(** The dictionary [configure_environment] returns; the key
    [gpu_memory_limit] may be absent. *)
Record Report : Type := {
  report_seed : Z;
  gpu_enabled : bool;
  report_numpy_version : string;
  gpu_memory_limit : option fraction
}.

(** The state [configure_environment] runs in: the seeding state, the memory
    limit set for each GPU, the lines printed, and its local [config]. *)
Record Frame : Type := {
  runtime : Runtime;
  memory_limits : gmap string Z;
  printed : list string;
  config : Report
}.

Definition on_runtime {A} (m : M Runtime A) : M Frame A :=
  fun f => let '(r, rt) := m (runtime f) in
           (r, {| runtime := rt; memory_limits := memory_limits f;
                  printed := printed f; config := config f |}).

Definition print (line : string) : M Frame unit :=
  modify (fun f => {| runtime := runtime f; memory_limits := memory_limits f;
                      printed := (printed f ++ [line])%list; config := config f |}).

(** [tf.config.set_logical_device_configuration(gpu, [... memory_limit=int(fraction * 1024)])] *)
Definition set_logical_device_configuration (gpu : string) (fr : fraction) : M Frame unit :=
  fun f =>
    match memory_limit_of fr with
    | Raise e => (Raise e, f)
    | Ok limit =>
        match device_fault gpu with
        | Some e => (Raise e, f)
        | None => (Ok tt, {| runtime := runtime f;
                             memory_limits := <[gpu := limit]> (memory_limits f);
                             printed := printed f; config := config f |})
        end
    end.

(** [config['gpu_memory_limit'] = gpu_memory_fraction] *)
Definition record_limit (fr : fraction) : M Frame unit :=
  modify (fun f => {| runtime := runtime f; memory_limits := memory_limits f;
                      printed := printed f;
                      config := {| report_seed := report_seed (config f);
                                   gpu_enabled := gpu_enabled (config f);
                                   report_numpy_version := report_numpy_version (config f);
                                   gpu_memory_limit := Some fr |} |}).

(** The loop [for gpu in gpus]. *)
Fixpoint configure_gpus (gpus : list string) (fr : fraction) : M Frame unit :=
  match gpus with
  | [] => ret tt
  | gpu :: rest =>
      set_logical_device_configuration gpu fr ;;;
      record_limit fr ;;;
      configure_gpus rest fr
  end.

(** [str(b)] for a [bool]. *)
Definition str_bool (b : bool) : string := if b then "True" else "False".

(** [gpus and gpu_memory_fraction]: a list is true when it is not empty, a
    missing fraction ([None]) is false. *)
Definition wants_limit (gpus : list string) (gpu_memory_fraction : option fraction)
    : option fraction :=
  match gpus, gpu_memory_fraction with
  | _ :: _, Some fr => if truthy fr then Some fr else None
  | _, _ => None
  end.

(** The [try] statement around the GPU configuration. *)
Definition configure_memory (gpu_memory_fraction : option fraction) : M Frame unit :=
  try_except
    (gpus <- lift_res physical_gpus ;;
     match wants_limit gpus gpu_memory_fraction with
     | Some fr => configure_gpus gpus fr
     | None => ret tt
     end)
    (fun _ => ret tt).

(** The [if verbose:] statement. *)
Definition print_report (seed : Z) (verbose : bool) : M Frame unit :=
  when verbose
    (print "Environment Configuration:" ;;;
     print ("  Random Seed: " ++ str_int seed) ;;;
     cfg <- gets config ;;
     print ("  GPU Available (PyTorch): " ++ str_bool (gpu_enabled cfg)) ;;;
     match gpu_memory_limit cfg with
     | Some fr => print ("  GPU Memory Fraction: " ++ str_fraction fr)
     | None => ret tt
     end ;;;
     print ("  NumPy Version: " ++ report_numpy_version cfg)).

(** [configure_environment], run with the [config] of the frame as its
    local dictionary. *)
Definition configure_environment (seed : Z) (gpu_memory_fraction : option fraction)
    (verbose : bool) : M Frame Report :=
  modify (fun f => {| runtime := runtime f; memory_limits := memory_limits f;
                      printed := printed f;
                      config := {| report_seed := seed;
                                   gpu_enabled := cuda_available;
                                   report_numpy_version := numpy_version;
                                   gpu_memory_limit := None |} |}) ;;;
  on_runtime (set_random_seed fault seed) ;;;
  configure_memory gpu_memory_fraction ;;;
  print_report seed verbose ;;;
  gets config.

(** When the report says that a memory limit was applied: there is a GPU,
    the fraction is given and true, and configuring the first GPU went
    through. *)
Definition expected_limit (gpu_memory_fraction : option fraction) : option fraction :=
  match physical_gpus with
  | Ok (gpu :: rest) =>
      match gpu_memory_fraction with
      | Some fr =>
          if truthy fr then
            match memory_limit_of fr, device_fault gpu with
            | Ok _, None => Some fr
            | _, _ => None
            end
          else None
      | None => None
      end
  | _ => None
  end.

(** The lines a verbose call prints for a report. *)
Definition report_lines (cfg : Report) : list string :=
  ([ "Environment Configuration:";
     ("  Random Seed: " ++ str_int (report_seed cfg))%string;
     ("  GPU Available (PyTorch): " ++ str_bool (gpu_enabled cfg))%string ]
   ++ match gpu_memory_limit cfg with
      | Some fr => [("  GPU Memory Fraction: " ++ str_fraction fr)%string]
      | None => []
      end
   ++ [("  NumPy Version: " ++ report_numpy_version cfg)%string])%list.

End WithBackends.

Arguments report_seed {fraction}.
Arguments gpu_enabled {fraction}.
Arguments report_numpy_version {fraction}.
Arguments gpu_memory_limit {fraction}.
Arguments runtime {fraction}.
Arguments memory_limits {fraction}.
Arguments printed {fraction}.
Arguments config {fraction}.
Arguments on_runtime {fraction A}.
Arguments print {fraction}.
Arguments set_logical_device_configuration {fraction}.
Arguments record_limit {fraction}.
Arguments configure_gpus {fraction}.
Arguments wants_limit {fraction}.
Arguments configure_memory {fraction}.
Arguments print_report {fraction}.
Arguments configure_environment fault {fraction}.
Arguments expected_limit {fraction}.
Arguments report_lines {fraction}.

(** A frame before the call: nothing printed, no limit set; the [config]
    field is overwritten at once. *)
Definition frame0 (fraction : Type) (rt : Runtime) : Frame fraction :=
  {| runtime := rt; memory_limits := ∅; printed := [];
     config := {| report_seed := 0; gpu_enabled := false;
                  report_numpy_version := ""; gpu_memory_limit := None |} |}.

(** The names under which the seeding calls of TensorFlow and PyTorch are
    recorded, and all the generators [set_random_seed] seeds. *)
Definition tf_generators : list string :=
  ["tf.random.set_seed"; "tf.compat.v1.set_random_seed"].

Definition torch_generators : list string :=
  ["torch.manual_seed"; "torch.cuda.manual_seed"; "torch.cuda.manual_seed_all"].

Definition generators : list string :=
  ("random" :: "np.random" :: tf_generators ++ torch_generators)%list.

End SeedingMore.

(** ** More concrete inputs *)

Module MoreExamples.
Import Py Sys.

(** An installation whose [torch.manual_seed] raises. *)
Definition torch_broken : string -> Z -> option exn :=
  fun fn _ => if String.eqb fn "torch.manual_seed"
              then Some (RuntimeError "CUDA error") else None.

(** A remote that is down. *)
Definition env_down : Env :=
  {| history := fun _ _ _ _ => Raise (RuntimeError "connection refused");
     now := now Examples.env0;
     abspath := abspath Examples.env0;
     makedirs_fault := makedirs_fault Examples.env0;
     write_fault := write_fault Examples.env0;
     os_stat := os_stat Examples.env0;
     parse_text := parse_text Examples.env0;
     windows := false |}.

(** A machine on which the log directory cannot be made. *)
Definition env_readonly : Env :=
  {| history := history Examples.env0;
     now := now Examples.env0;
     abspath := abspath Examples.env0;
     makedirs_fault := fun _ => Some (OSError "Permission denied");
     write_fault := write_fault Examples.env0;
     os_stat := os_stat Examples.env0;
     parse_text := parse_text Examples.env0;
     windows := false |}.

(** A machine with two GPUs, the second of which cannot be configured; a
    memory fraction is written here as a number of 1024ths. *)
Definition two_gpus : res (list string) := Ok ["GPU:0"; "GPU:1"].

Definition second_gpu_fails : string -> option exn :=
  fun gpu => if String.eqb gpu "GPU:1"
             then Some (RuntimeError "Virtual devices cannot be modified")
             else None.

Definition nonzero (fr : Z) : bool := negb (fr =? 0)%Z.

Definition limit_1024ths (fr : Z) : res Z := Ok fr.

Definition str_1024ths (fr : Z) : string := str_int fr ++ "/1024".

End MoreExamples.

(** ** What a statement leaves alone *)

Module Frames.
Import Py Sys.

(** The statement [m] never changes the part [part] of the world, whether it
    returns or raises. *)
Definition unchanged {A B} (part : World -> B) (m : M World A) : Prop :=
  forall w r w', m w = (r, w') -> part w' = part w.

(** A part of the world that neither the files nor the clock belong to. *)
Definition beside_disk {B} (part : World -> B) : Prop :=
  (forall f w, part (set_files f w) = part w)
  /\ (forall w, part {| files := files w; clock := S (clock w); requests := requests w;
                        loggers := loggers w; log := log w; stdout := stdout w |} = part w).

(** The error record of a failed download. *)
Definition error_record (env : Env) (lg : Logger.DataLogger) (ticker : string) (e : exn)
    : record :=
  {| lvl := ERROR; logger_name := Logger.name lg;
     message := Logger._colorize lg
                  (Logger.safe_symbol env "✗" "[ERR]" ++ " "
                   ++ "Download failed for " ++ ticker ++ ": " ++ str_exn e) Logger.RED |}.

(** The line [separator] prints. *)
Definition separator_line (lg : Logger.DataLogger) : string :=
  Logger._colorize lg (Logger.dashes 50) Logger.BLUE.


End Frames.

(** ** The script of download_data.py *)

Module Script.
Import Py Sys Notations.










(** The world with [lines] printed. *)
Definition printed (lines : list string) (w : World) : World :=
  {| files := files w; clock := clock w; requests := requests w;
     loggers := loggers w; log := log w; stdout := (stdout w ++ lines)%list |}.

End Script.

(** * Properties *)

(** ** Facts about the Python layer *)

Module PyFacts.
Import Py Sys Notations.

Lemma endswith_unfold (s suffix : string) :
  endswith s suffix =
  if String.eqb s suffix then true
  else match s with
       | EmptyString => false
       | String _ s' => endswith s' suffix
       end.
Proof. destruct s; reflexivity. Qed.

Lemma endswith_refl (s : string) : endswith s s = true.
Proof. rewrite endswith_unfold, String.eqb_refl; reflexivity. Qed.

Lemma endswith_app (p suffix : string) : endswith (p ++ suffix) suffix = true.
Proof.
  induction p as [| c p IH].
  - apply endswith_refl.
  - rewrite endswith_unfold.
    destruct (String.eqb (String c p ++ suffix) suffix); [reflexivity | exact IH].
Qed.

Lemma is_digit_digit (d : nat) : is_digit (digit d) = true.
Proof.
  unfold is_digit, digit.
  assert (Hlt : (d mod 10 < 10)%nat) by (apply Nat.mod_upper_bound; lia).
  rewrite nat_ascii_embedding by lia.
  apply andb_true_intro; split; apply Nat.leb_le; lia.
Qed.

Lemma decimal_value_app (s t : string) (acc : nat) :
  decimal_value acc (s ++ t) = decimal_value (decimal_value acc s) t.
Proof.
  revert acc. induction s as [| c s IH]; intros acc; [reflexivity |].
  change (String c s ++ t) with (String c (s ++ t)).
  cbn [decimal_value]. apply IH.
Qed.

(** [zpad] writes [n] itself when [n] has at most [width] digits. *)
Lemma zpad_value (width n : nat) :
  decimal_value 0 (zpad width n) = n mod 10 ^ width.
Proof.
  revert n. induction width as [| w IH]; intros n.
  - cbn [zpad decimal_value Nat.pow]. rewrite Nat.mod_1_r. reflexivity.
  - cbn [zpad]. rewrite decimal_value_app, IH. cbn [decimal_value].
    unfold digit.
    assert (Hd : n mod 10 < 10) by (apply Nat.mod_upper_bound; lia).
    rewrite nat_ascii_embedding by lia.
    replace (48 + n mod 10 - 48) with (n mod 10) by lia.
    rewrite Nat.pow_succ_r', Nat.Div0.mod_mul_r. lia.
Qed.

Lemma zpad_exact (width n : nat) :
  n < 10 ^ width -> decimal_value 0 (zpad width n) = n.
Proof. intros H. rewrite zpad_value. apply Nat.mod_small. exact H. Qed.


(** The date stamp of a log file: eight digits. *)
Lemma strftime_Ymd_shape (t : datetime) :
  shape "dddddddd" (strftime_Ymd t) = true.
Proof.
  cbv [strftime_Ymd zpad String.append shape Ascii.eqb Bool.eqb].
  rewrite !is_digit_digit; reflexivity.
Qed.

(** *** Statements that cannot raise *)

Lemma total_ret {S A} (a : A) : total (@ret S A a).
Proof. intros s; eexists _, _; reflexivity. Qed.

Lemma total_modify {S} (f : S -> S) : total (modify f).
Proof. intros s; eexists _, _; reflexivity. Qed.

Lemma total_bind {S A B} (m : M S A) (k : A -> M S B) :
  total m -> (forall a, total (k a)) -> total (bind m k).
Proof.
  intros Hm Hk s. unfold bind.
  destruct (Hm s) as (a & s' & ->). apply Hk.
Qed.

Lemma total_try_except {S A} (body : M S A) (handler : exn -> M S A) :
  (forall e, total (handler e)) -> total (try_except body handler).
Proof.
  intros Hh s. unfold try_except.
  destruct (body s) as [[a | e] s']; [eexists _, _; reflexivity | apply Hh].
Qed.

Lemma total_when {S} (guard : bool) (stmt : M S unit) :
  total stmt -> total (when guard stmt).
Proof. intros H; destruct guard; [exact H | apply total_ret]. Qed.

End PyFacts.

(** ** utils/io.py *)

Module IOSpec.
Import Py Sys IO PyFacts Notations.

(** [pd.read_csv] finds a path that exists: it may fail on it, but not with
    [FileNotFoundError]. *)
Lemma read_csv_found (env : Env) (path : string) (parse_dates : option bool)
    (w : World) (msg : string) :
  exists_ w path = true ->
  fst (read_csv env path parse_dates w) <> Raise (FileNotFoundError msg).
Proof.
  unfold exists_, read_csv. intros Hex.
  destruct (files w !! path) as [[| [header rows ff df | sheets | bytes]] |];
    simpl; try discriminate.
  destruct (parse_text env bytes); simpl; discriminate.
Qed.

Lemma load_csv_data_missing (env : Env) (path : string) (parse_dates : bool) (w : World) :
  exists_ w path = false ->
  load_csv_data env path parse_dates w
  = (Raise (FileNotFoundError ("File not found: " ++ path)), w).
Proof. intros H. unfold load_csv_data. rewrite H. reflexivity. Qed.

Lemma get_data_file_info_missing (env : Env) (path : string) (w : World) :
  exists_ w path = false ->
  get_data_file_info env path w
  = (Raise (FileNotFoundError ("File not found: " ++ path)), w).
Proof. intros H. unfold get_data_file_info. rewrite H. reflexivity. Qed.

Lemma get_data_file_info_found (env : Env) (path : string) (w : World) :
  exists_ w path = true ->
  fst (get_data_file_info env path w)
  = match fst (read_csv env path None w) with
    | Ok df => Ok (info_of env path df)
    | Raise e => Raise e
    end.
Proof.
  intros H. unfold get_data_file_info, bind. rewrite H. simpl.
  destruct (read_csv env path None w) as [[df | e] w']; reflexivity.
Qed.


(** C8.  [load_csv_data] and [get_data_file_info] raise
    [FileNotFoundError] exactly when the path does not exist; on a path
    that exists they go on to [pd.read_csv], whose outcome decides
    theirs. *)
Theorem not_found_iff_missing (env : Env) (path : string) (parse_dates : bool)
    (w : World) :
  ((exists msg, fst (load_csv_data env path parse_dates w) = Raise (FileNotFoundError msg))
     <-> exists_ w path = false)
  /\ ((exists msg, fst (get_data_file_info env path w) = Raise (FileNotFoundError msg))
        <-> exists_ w path = false)
  /\ (exists_ w path = true ->
      load_csv_data env path parse_dates w
      = read_csv env path (if parse_dates then Some true else None) w
      /\ fst (get_data_file_info env path w)
         = match fst (read_csv env path None w) with
           | Ok df => Ok (info_of env path df)
           | Raise e => Raise e
           end).
Proof.
  split; [| split].
  - split.
    + intros [msg Hmsg]. destruct (exists_ w path) eqn:Hex; [| reflexivity].
      exfalso. unfold load_csv_data in Hmsg. rewrite Hex in Hmsg. simpl in Hmsg.
      exact (read_csv_found env path _ w msg Hex Hmsg).
    + intros Hex. rewrite (load_csv_data_missing env path parse_dates w Hex).
      eexists; reflexivity.
  - split.
    + intros [msg Hmsg]. destruct (exists_ w path) eqn:Hex; [| reflexivity].
      exfalso. rewrite (get_data_file_info_found env path w Hex) in Hmsg.
      pose proof (read_csv_found env path None w msg Hex) as Hno.
      destruct (fst (read_csv env path None w)) as [df | e]; [discriminate |].
      apply Hno. injection Hmsg as ->. reflexivity.
    + intros Hex. rewrite (get_data_file_info_missing env path w Hex).
      eexists; reflexivity.
  - intros Hex. split.
    + unfold load_csv_data. rewrite Hex. reflexivity.
    + apply get_data_file_info_found; exact Hex.
Qed.

(** With an index that carries no name, [save_dataframe_to_csv] is the
    directory, the file name, and one write of the columns. *)
Lemma save_unnamed (env : Env) (df : DataFrame) (ticker period dir : string)
    (filename : option string) (ff dfmt : string) :
  index_named df = false ->
  save_dataframe_to_csv env df ticker period dir filename ff dfmt
  = (output_path <- create_output_directory env dir ;;
     csv_filename <- generate_filename env ticker period filename ;;
     write_file env (path_join output_path csv_filename)
                (Csv (columns df) (values df) ff dfmt) ;;;
     ret (path_join output_path csv_filename)).
Proof. intros H. unfold save_dataframe_to_csv, to_csv. rewrite H. reflexivity. Qed.

Lemma write_file_stores (env : Env) (path : string) (c : content) (w w' : World) :
  write_file env path c w = (Ok tt, w') -> files w' !! path = Some (File c).
Proof.
  unfold write_file. intros H.
  destruct (write_fault env path); [discriminate |].
  destruct (files w !! path) as [[| c0] |]; try discriminate;
    injection H as <-; simpl; apply lookup_insert_eq.
Qed.

(** C10.  For a frame whose index has no name, the file
    [save_dataframe_to_csv] writes holds the header and the rows of the
    columns and nothing else: the call does the same whatever the values
    on the index are, and the file stored at the path it returns is the
    table of the columns. *)
Theorem unnamed_index_is_not_written (env : Env) (df : DataFrame)
    (ticker period dir : string) (filename : option string) (ff dfmt : string)
    (w : World) :
  index_named df = false ->
  (forall idx,
      save_dataframe_to_csv env (reindexed idx df) ticker period dir filename ff dfmt w
      = save_dataframe_to_csv env df ticker period dir filename ff dfmt w)
  /\ (forall path,
        fst (save_dataframe_to_csv env df ticker period dir filename ff dfmt w) = Ok path ->
        files (snd (save_dataframe_to_csv env df ticker period dir filename ff dfmt w)) !! path
        = Some (File (Csv (columns df) (values df) ff dfmt))).
Proof.
  intros Hname. split.
  - intros idx. rewrite !save_unnamed by exact Hname. reflexivity.
  - intros path. rewrite save_unnamed by exact Hname. unfold bind.
    destruct (create_output_directory env dir w) as [[output_path | e] w1];
      [| discriminate].
    destruct (generate_filename env ticker period filename w1) as [[name | e] w2];
      [| discriminate].
    destruct (write_file env (path_join output_path name)
                (Csv (columns df) (values df) ff dfmt) w2) as [[[] | e] w3] eqn:Hw;
      [| discriminate].
    simpl. intros [= <-]. eapply write_file_stores; exact Hw.
Qed.

Lemma unnamed_index_is_not_written_witness :
  files (snd (save_dataframe_to_csv Examples.env0 Examples.unnamed_bars "AAPL" "1y"
                "data" (Some "aapl") "%.6f" "%Y-%m-%d %H:%M:%S" Examples.w0))
    !! "/home/user/data/aapl.csv"
  = Some (File (Csv ["Open"; "Close"]
                  [[CFloat "100.0"; CFloat "101.0"]; [CFloat "101.0"; CFloat "102.0"]]
                  "%.6f" "%Y-%m-%d %H:%M:%S")).
Proof.
  apply (unnamed_index_is_not_written Examples.env0 Examples.unnamed_bars "AAPL" "1y"
           "data" (Some "aapl") "%.6f" "%Y-%m-%d %H:%M:%S" Examples.w0);
    reflexivity.
Defined.

(** The other side: an index that carries a name is written, as the first
    column and under that name. *)
Lemma named_index_is_a_column (env : Env) (df : DataFrame)
    (ticker period dir : string) (filename : option string) (ff dfmt : string)
    (w : World) (name path : string) :
  index_name df = Some name -> name <> "" ->
  existsb (String.eqb name) (columns df) = false ->
  fst (save_dataframe_to_csv env df ticker period dir filename ff dfmt w) = Ok path ->
  files (snd (save_dataframe_to_csv env df ticker period dir filename ff dfmt w)) !! path
  = Some (File (Csv (name :: columns df) (zip_with cons (index df) (values df)) ff dfmt)).
Proof.
  intros Hname Hne Hfree.
  assert (Hnamed : index_named df = true).
  { unfold index_named. rewrite Hname.
    destruct (String.eqb_spec name ""); [contradiction | reflexivity]. }
  unfold save_dataframe_to_csv, to_csv, bind.
  destruct (create_output_directory env dir w) as [[output_path | e] w1];
    [| discriminate].
  destruct (generate_filename env ticker period filename w1) as [[fname | e] w2];
    [| discriminate].
  rewrite Hnamed. unfold lift_res, reset_index. rewrite Hname. cbn [default from_option id].
  rewrite Hfree. cbn [columns values].
  match goal with |- context [write_file env ?p ?c ?w] =>
    destruct (write_file env p c w) as [[[] | e] w3] eqn:Hw; [| discriminate] end.
  cbn [fst snd ret]. intros [= <-]. eapply write_file_stores; exact Hw.
Qed.

Example bars_saved_with_date_column :
  files (snd (save_dataframe_to_csv Examples.env0 Examples.bars "AAPL" "1y"
                "data" None "%.6f" "%Y-%m-%d %H:%M:%S" Examples.w0))
    !! "/home/user/data/AAPL_1y_20240105_093007.csv"
  = Some (File (Csv ["Date"; "Open"; "Close"]
                  [ [CTime Examples.jan2 (Some "America/New_York");
                     CFloat "100.0"; CFloat "101.0"];
                    [CTime Examples.jan3 (Some "America/New_York");
                     CFloat "101.0"; CFloat "102.0"] ]
                  "%.6f" "%Y-%m-%d %H:%M:%S")).
Proof. vm_compute. reflexivity. Qed.

End IOSpec.

(** ** utils/logger.py *)

Module LoggerSpec.
Import Py Sys Logger PyFacts Notations.

Lemma path_join_plain (dir file : string) :
  dir <> "" -> endswith dir "/" = false -> startswith file "/" = false ->
  path_join dir file = dir ++ "/" ++ file.
Proof.
  intros Hdir Hslash Hfile. unfold path_join. rewrite Hfile, Hslash.
  destruct (String.eqb_spec dir ""); [contradiction | reflexivity].
Qed.

Lemma startswith_slash_app (nm rest : string) :
  startswith nm "/" = false ->
  startswith (nm ++ "_" ++ rest) "/" = false.
Proof.
  destruct nm as [| c nm]; [reflexivity |].
  change (String c nm ++ "_" ++ rest) with (String c (nm ++ "_" ++ rest)).
  unfold startswith. cbn [String.prefix].
  destruct (ascii_dec "/" c); [| reflexivity].
  destruct nm; discriminate.
Qed.

Lemma getLogger_update (nm : string) (f : pylogger -> pylogger) (w : World) :
  getLogger nm (snd (update_logger nm f w)) = f (getLogger nm w).
Proof.
  unfold update_logger, modify, set_loggers, getLogger at 1. simpl.
  rewrite lookup_insert_eq. reflexivity.
Qed.

Lemma file_sinks_app (hs hs' : list handler) :
  file_sinks (hs ++ hs') = (file_sinks hs ++ file_sinks hs')%list.
Proof.
  induction hs as [| h hs IH]; [reflexivity |].
  simpl. destruct (target h); simpl; rewrite IH; reflexivity.
Qed.

(** Reading back what was just put in the registry. *)
Ltac registry :=
  repeat first
    [ rewrite lookup_insert_eq
    | progress cbn [default from_option id handlers llevel loggers set_loggers clock] ].

(** Creating a directory or opening a file leaves the registry and the
    clock alone. *)
Lemma makedirs_frame (env : Env) (path : string) (w w' : World) (r : res unit) :
  makedirs env path w = (r, w') ->
  loggers w' = loggers w /\ clock w' = clock w /\ log w' = log w.
Proof.
  unfold makedirs. destruct (makedirs_fault env path); [intros [= _ <-]; auto |].
  destruct (files w !! abspath env path) as [[| c] |]; intros [= _ <-]; auto.
Qed.

Lemma open_append_frame (env : Env) (path : string) (w w' : World) (r : res unit) :
  open_append env path w = (r, w') ->
  loggers w' = loggers w /\ clock w' = clock w /\ log w' = log w.
Proof.
  unfold open_append. destruct (write_fault env path); [intros [= _ <-]; auto |].
  destruct (files w !! path) as [[| c] |]; intros [= _ <-]; auto.
Qed.

(** The handlers [setup_logging] leaves on the logger, when it returns. *)
Lemma setup_logging_handlers (env : Env) (nm dir : string) (lv : level) (w : World) :
  raises (fst (setup_logging env nm dir lv w)) = false ->
  handlers (getLogger nm (snd (setup_logging env nm dir lv w)))
  = (handlers (getLogger nm w)
     ++ [ {| target := StreamHandler; hlevel := lv |};
          {| target := FileHandler
                         (path_join dir (nm ++ "_" ++ strftime_Ymd (now env (clock w)) ++ ".log"));
             hlevel := lv |} ])%list.
Proof.
  unfold setup_logging, bind, setLevel, addHandler, update_logger, modify,
    datetime_now, ret.
  destruct (makedirs env dir _) as [[[] | e] w2] eqn:E2; [| discriminate].
  match goal with |- context [open_append env ?p ?w] =>
    destruct (open_append env p w) as [[[] | e] w4] eqn:E4; [| discriminate] end.
  intros _. cbn [fst snd].
  apply makedirs_frame in E2 as (F2 & C2 & _).
  apply open_append_frame in E4 as (F4 & _ & _).
  cbn [clock loggers set_loggers] in F2, C2, F4 |- *.
  unfold getLogger in *. registry. rewrite F4. registry. rewrite F2. registry.
  rewrite C2, <- app_assoc. reflexivity.
Qed.

(** The logger [DataLogger.__init__] leaves in the registry, when it
    returns. *)
Lemma DataLogger_init_logger (env : Env) (nm dir : string) (file_logging colors : bool)
    (w : World) :
  raises (fst (DataLogger_init env nm dir file_logging colors w)) = false ->
  getLogger nm (snd (DataLogger_init env nm dir file_logging colors w))
  = {| llevel := DEBUG;
       handlers :=
         {| target := StreamHandler; hlevel := DEBUG |}
         :: (if file_logging
             then [ {| target := FileHandler
                                   (path_join dir ("data_download_"
                                      ++ strftime_Ymd (now env (clock w)) ++ ".log"));
                       hlevel := DEBUG |} ]
             else []) |}.
Proof.
  unfold DataLogger_init, bind, setLevel, clear_handlers, addHandler, update_logger,
    modify, ret.
  destruct file_logging; cbn [when].
  - unfold _setup_file_handler, bind, addHandler, update_logger, modify, datetime_now.
    cbn [log_dir name].
    destruct (makedirs env dir _) as [[[] | e] w2] eqn:E2; [| discriminate].
    match goal with |- context [open_append env ?p ?w] =>
      destruct (open_append env p w) as [[[] | e] w4] eqn:E4; [| discriminate] end.
    intros _. cbn [fst snd].
    apply makedirs_frame in E2 as (F2 & C2 & _).
    apply open_append_frame in E4 as (F4 & _ & _).
    cbn [clock loggers set_loggers] in F2, C2, F4 |- *.
    unfold getLogger in *. registry. rewrite F4. registry. rewrite F2. registry.
    rewrite C2. reflexivity.
  - intros _. unfold ret. cbn [fst snd]. unfold getLogger. registry. reflexivity.
Qed.

(** A record logged through a logger that has a console handler and a file
    handler, both at [DEBUG], reaches both. *)
Lemma log_record_wired (nm : string) (lv : level) (msg path : string) (w : World) :
  getLogger nm w
  = {| llevel := DEBUG;
       handlers := [ {| target := StreamHandler; hlevel := DEBUG |};
                     {| target := FileHandler path; hlevel := DEBUG |} ] |} ->
  let r := {| lvl := lv; logger_name := nm; message := msg |} in
  log (snd (log_record nm lv msg w))
  = (log w ++ [(StreamHandler, r); (FileHandler path, r)])%list.
Proof.
  intros H. unfold log_record, modify. cbn [snd]. rewrite H.
  destruct lv; reflexivity.
Qed.

(** C6, as the code has it.  With a log directory that is not empty and
    does not end in a slash: [setup_logging] adds a file handler on
    [{log_dir}/{name}_{YYYYMMDD}.log] (for a name that does not begin with
    a slash), and a [DataLogger] with file logging enabled has one file
    handler, on [{log_dir}/data_download_{YYYYMMDD}.log] whatever the name
    it was constructed with, to which every record it logs is appended;
    [YYYYMMDD] is the date read from the clock at set-up. *)
Theorem log_file_paths (env : Env) (nm dir : string) (lv : level) (colors : bool)
    (w : World) :
  dir <> "" -> endswith dir "/" = false -> startswith nm "/" = false ->
  let stamp := strftime_Ymd (now env (clock w)) in
  (raises (fst (setup_logging env nm dir lv w)) = false ->
     file_sinks (handlers (getLogger nm (snd (setup_logging env nm dir lv w))))
     = (file_sinks (handlers (getLogger nm w))
        ++ [(dir ++ "/" ++ nm ++ "_" ++ stamp ++ ".log")%string])%list)
  /\ (raises (fst (DataLogger_init env nm dir true colors w)) = false ->
      let w' := snd (DataLogger_init env nm dir true colors w) in
      let log_file := dir ++ "/data_download_" ++ stamp ++ ".log" in
      file_sinks (handlers (getLogger nm w')) = [log_file]
      /\ forall l msg,
           log (snd (log_record nm l msg w'))
           = (log w' ++ [ (StreamHandler, {| lvl := l; logger_name := nm; message := msg |});
                          (FileHandler log_file,
                           {| lvl := l; logger_name := nm; message := msg |}) ])%list)
  /\ shape "dddddddd" stamp = true.
Proof.
  intros Hdir Hslash Hnm stamp. split; [| split].
  - intros Hok. rewrite (setup_logging_handlers env nm dir lv w Hok).
    rewrite file_sinks_app. cbn [file_sinks target].
    rewrite path_join_plain; auto using startswith_slash_app.
  - intros Hok w' log_file.
    pose proof (DataLogger_init_logger env nm dir true colors w Hok) as Hlg.
    rewrite path_join_plain in Hlg by auto.
    fold stamp in Hlg. fold w' in Hlg. fold log_file in Hlg.
    split.
    + rewrite Hlg. reflexivity.
    + intros l msg. apply log_record_wired. exact Hlg.
  - apply strftime_Ymd_shape.
Qed.

Lemma log_file_paths_witness :
  file_sinks (handlers (getLogger "volatility_prediction"
     (snd (setup_logging Examples.env0 "volatility_prediction" "../logs" INFO Examples.w0))))
  = ["../logs/volatility_prediction_20240105.log"]
  /\ file_sinks (handlers (getLogger "volatility_prediction"
        (snd (DataLogger_init Examples.env0 "volatility_prediction" "../logs" true true
                Examples.w0))))
     = ["../logs/data_download_20240105.log"].
Proof.
  assert (Hslash : endswith "../logs" "/" = false) by reflexivity.
  assert (Hnm : startswith "volatility_prediction" "/" = false) by reflexivity.
  assert (Hdir : "../logs" <> "") by discriminate.
  destruct (log_file_paths Examples.env0 "volatility_prediction" "../logs" INFO true
              Examples.w0 Hdir Hslash Hnm) as (Hsetup & Hdata & _).
  split.
  - exact (Hsetup eq_refl).
  - exact (proj1 (Hdata eq_refl)).
Defined.

(** C6, as the specification has it, fails on a [DataLogger]: constructed
    under its default name [data_logger] it appends to
    [data_download_20240105.log], not to [data_logger_20240105.log]. *)
Lemma data_logger_file_ignores_name :
  let w' := snd (DataLogger_init Examples.env0 "data_logger" "../logs" true true Examples.w0) in
  raises (fst (DataLogger_init Examples.env0 "data_logger" "../logs" true true Examples.w0))
  = false
  /\ file_sinks (handlers (getLogger "data_logger" w'))
     = ["../logs/data_download_20240105.log"]
  /\ spec_log_file "../logs" "data_logger" (now Examples.env0 (clock Examples.w0))
     = "../logs/data_logger_20240105.log"
  /\ ~ In (spec_log_file "../logs" "data_logger" (now Examples.env0 (clock Examples.w0)))
          (file_sinks (handlers (getLogger "data_logger" w'))).
Proof.
  assert (Hsinks : file_sinks (handlers (getLogger "data_logger"
            (snd (DataLogger_init Examples.env0 "data_logger" "../logs" true true
                    Examples.w0))))
          = ["../logs/data_download_20240105.log"]) by (vm_compute; reflexivity).
  cbv zeta. rewrite Hsinks.
  repeat split.
  intros [H | []]. discriminate H.
Qed.

End LoggerSpec.

(** ** utils/seeding.py *)

Module SeedingSpec.
Import Py Seeding PyFacts Notations.

Section Seeds.

Variable fault : string -> Z -> option exn.
Variable hash : string -> Z.

(** Outside the range of numpy's seeder the [ValueError] of
    [np.random.seed] leaves [set_random_seed]: the call is not inside a
    [try]. *)
Lemma set_random_seed_out_of_range (seed : Z) (rt : Runtime) :
  ~ (0 <= seed <= 2 ^ 32 - 1)%Z ->
  fst (set_random_seed fault seed rt)
  = Raise (ValueError "Seed must be between 0 and 2**32 - 1").
Proof.
  intros Hout. unfold set_random_seed, bind, random_seed, np_random_seed.
  cbn [seed_rng modify].
  destruct ((0 <=? seed)%Z && (seed <=? 2 ^ 32 - 1)%Z) eqn:E; [| reflexivity].
  apply andb_prop in E as [E1 E2].
  apply Z.leb_le in E1, E2. lia.
Qed.

Lemma keeps_refl (rt : Runtime) : keeps rt rt.
Proof. repeat split. Qed.

Lemma keeps_trans (a b c : Runtime) : keeps a b -> keeps b c -> keeps a c.
Proof.
  intros (E1 & R1 & N1) (E2 & R2 & N2).
  repeat split; congruence.
Qed.

Lemma preserving_ret {A} (a : A) : preserving (ret a).
Proof. intros rt. apply keeps_refl. Qed.

Lemma preserving_bind {A B} (m : M Runtime A) (k : A -> M Runtime B) :
  preserving m -> (forall a, preserving (k a)) -> preserving (bind m k).
Proof.
  intros Hm Hk rt. unfold bind. specialize (Hm rt).
  destruct (m rt) as [[a | e] rt1]; cbn [snd] in *; [| exact Hm].
  eapply keeps_trans; [exact Hm | apply Hk].
Qed.

Lemma preserving_try_except {A} (body : M Runtime A) (handler : exn -> M Runtime A) :
  preserving body -> (forall e, preserving (handler e)) ->
  preserving (try_except body handler).
Proof.
  intros Hb Hh rt. unfold try_except. specialize (Hb rt).
  destruct (body rt) as [[a | e] rt1]; cbn [snd] in *; [exact Hb |].
  eapply keeps_trans; [exact Hb | apply Hh].
Qed.

Lemma preserving_call (fn : string) (seed : Z) :
  fn <> "random" -> fn <> "np.random" -> preserving (call fault fn seed).
Proof.
  intros H1 H2 rt. unfold call.
  destruct (fault fn seed); [apply keeps_refl |].
  unfold seed_rng, modify. cbn [snd].
  repeat split; cbn [rng]; rewrite lookup_insert_ne by assumption; reflexivity.
Qed.

Lemma preserving_assign (attr : string) (v : bool) (seed : Z) :
  preserving (assign fault attr v seed).
Proof.
  intros rt. unfold assign.
  destruct (fault attr seed); [apply keeps_refl |].
  repeat split.
Qed.

Lemma tf_block_skips (seed : Z) (rt : Runtime) :
  exists rt', tf_block fault seed rt = (Ok tt, rt') /\ keeps rt rt'.
Proof.
  assert (Ht : total (tf_block fault seed))
    by (apply total_try_except; intros; apply total_ret).
  assert (Hp : preserving (tf_block fault seed)).
  { apply preserving_try_except; [| intros; apply preserving_ret].
    apply preserving_bind; [| intros _]; apply preserving_call; discriminate. }
  destruct (Ht rt) as ([] & rt' & E). exists rt'. split; [exact E |].
  specialize (Hp rt). rewrite E in Hp. exact Hp.
Qed.

Lemma torch_block_skips (seed : Z) (rt : Runtime) :
  exists rt', torch_block fault seed rt = (Ok tt, rt') /\ keeps rt rt'.
Proof.
  assert (Ht : total (torch_block fault seed))
    by (apply total_try_except; intros; apply total_ret).
  assert (Hp : preserving (torch_block fault seed)).
  { apply preserving_try_except; [| intros; apply preserving_ret].
    repeat (apply preserving_bind; [| intros _]);
      first [ apply preserving_assign | apply preserving_call; discriminate ]. }
  destruct (Ht rt) as ([] & rt' & E). exists rt'. split; [exact E |].
  specialize (Hp rt). rewrite E in Hp. exact Hp.
Qed.

(** C7, as the code has it.  For every seed that numpy's seeder takes,
    [0 <= seed <= 2^32 - 1], [set_random_seed] returns without raising
    whatever the TensorFlow and PyTorch calls do, having seeded [random]
    and [np.random] and set [PYTHONHASHSEED] to [str(seed)] and
    [TF_DETERMINISTIC_OPS] to [1]. *)
Theorem set_random_seed_in_range (seed : Z) (rt : Runtime) :
  (0 <= seed <= 2 ^ 32 - 1)%Z ->
  exists rt',
    set_random_seed fault seed rt = (Ok tt, rt')
    /\ environ rt' !! "PYTHONHASHSEED" = Some (str_int seed)
    /\ environ rt' !! "TF_DETERMINISTIC_OPS" = Some "1"
    /\ rng rt' !! "random" = Some seed
    /\ rng rt' !! "np.random" = Some seed.
Proof.
  intros [Hlo Hhi].
  unfold set_random_seed.
  unfold bind at 1 2, random_seed, np_random_seed.
  apply Z.leb_le in Hlo, Hhi. rewrite Hlo, Hhi. cbn [andb seed_rng modify].
  unfold bind at 1.
  match goal with |- context [tf_block fault seed ?r] =>
    destruct (tf_block_skips seed r) as (rt1 & -> & E1 & R1 & N1) end.
  unfold bind at 1.
  destruct (torch_block_skips seed rt1) as (rt2 & -> & E2 & R2 & N2).
  cbn [rng environ] in *.
  eexists. split; [reflexivity |]. cbn [rng environ].
  repeat split.
  - rewrite lookup_insert_ne by discriminate. apply lookup_insert_eq.
  - apply lookup_insert_eq.
  - rewrite R2, R1, lookup_insert_ne by discriminate. apply lookup_insert_eq.
  - rewrite N2, N1. apply lookup_insert_eq.
Qed.

(** *** The seed manager *)

Lemma SeedManager_blank (p : Process) :
  SeedManager p
  = (Ok tt, {| _instance := Some blank; runtime := runtime p;
               hash_calls := hash_calls p |}).
Proof.
  unfold SeedManager, bind, __new__, __init__, with_self, put_self, modify.
  destruct (_instance p) eqn:E; cbn [_instance]; rewrite ?E; reflexivity.
Qed.

(** [get_seed] reads: the process is left as it was. *)
Lemma get_seed_reads (p : Process) (self : SeedManagerObj) :
  _instance p = Some self -> get_seed p = (Ok (_seed self), p).
Proof. intros H. unfold get_seed, with_self. rewrite H. reflexivity. Qed.

Lemma create_experiment_seed_run (name : string) (p : Process) (self : SeedManagerObj) :
  _instance p = Some self ->
  let v := (hash (name ++ "_" ++ str_int (_seed self)) mod (2 ^ 32 - 1))%Z in
  create_experiment_seed hash name p
  = (Ok v, {| _instance := Some {| _seed := _seed self;
                                   _experiment_seeds :=
                                     <[name := v]> (_experiment_seeds self) |};
              runtime := runtime p;
              hash_calls := S (hash_calls p) |}).
Proof.
  intros H. unfold create_experiment_seed, with_self. rewrite H. reflexivity.
Qed.

Lemma get_experiment_seed_run (name : string) (p : Process) (self : SeedManagerObj) :
  _instance p = Some self ->
  let v := (hash (name ++ "_" ++ str_int (_seed self)) mod (2 ^ 32 - 1))%Z in
  get_experiment_seed hash name p
  = (Ok v, {| _instance := Some {| _seed := _seed self;
                                   _experiment_seeds :=
                                     <[name := v]> (_experiment_seeds self) |};
              runtime := runtime p;
              hash_calls := S (hash_calls p) |}).
Proof.
  intros H. unfold get_experiment_seed, bind.
  rewrite (create_experiment_seed_run name p self H).
  unfold with_self, ret. cbn [_instance _experiment_seeds].
  rewrite lookup_insert_eq. reflexivity.
Qed.

(** C9.  The seed [create_experiment_seed] derives is the hash of
    [{experiment_name}_{base seed}] modulo [2^32 - 1]; it lies between 0
    and [2^32 - 2], and it is the same in every state of the process
    that has the same base seed. *)
Theorem experiment_seed_is_hash_mod (name : string) (p : Process)
    (self : SeedManagerObj) :
  _instance p = Some self ->
  let v := (hash (name ++ "_" ++ str_int (_seed self)) mod (2 ^ 32 - 1))%Z in
  fst (create_experiment_seed hash name p) = Ok v
  /\ (0 <= v <= 2 ^ 32 - 2)%Z
  /\ (forall p' self',
        _instance p' = Some self' -> _seed self' = _seed self ->
        fst (create_experiment_seed hash name p') = Ok v).
Proof.
  intros H v. split; [| split].
  - rewrite (create_experiment_seed_run name p self H). reflexivity.
  - subst v.
    pose proof (Z.mod_pos_bound (hash (name ++ "_" ++ str_int (_seed self)))
                  (2 ^ 32 - 1) ltac:(lia)).
    lia.
  - intros p' self' H' Hseed.
    rewrite (create_experiment_seed_run name p' self' H'). cbn [fst].
    subst v. rewrite Hseed. reflexivity.
Qed.

(** C4, on the code.  Two lookups of the same experiment in a row hand
    back the same seed, and each of them evaluates the derivation: the
    count of hash evaluations goes up by one at the first lookup and by
    one more at the second. *)
Theorem get_experiment_seed_derives_again (name : string) (p : Process)
    (self : SeedManagerObj) :
  _instance p = Some self ->
  exists v p1 p2,
    get_experiment_seed hash name p = (Ok v, p1)
    /\ get_experiment_seed hash name p1 = (Ok v, p2)
    /\ hash_calls p1 = S (hash_calls p)
    /\ hash_calls p2 = S (S (hash_calls p)).
Proof.
  intros H.
  pose proof (get_experiment_seed_run name p self H) as E1. cbv zeta in E1.
  match type of E1 with _ = (Ok ?v, ?q) => set (p1 := q) in * end.
  pose proof (get_experiment_seed_run name p1 _ eq_refl) as E2.
  cbv zeta in E2. cbn [_seed] in E2.
  eexists _, p1, _. split; [exact E1 |].
  split; [exact E2 |]. split; reflexivity.
Qed.

(** C3, on the code.  Every call of [SeedManager()] leaves the singleton
    with seed 42 and no experiment seeds, so a singleton that held
    anything else is changed by it; and so does [get_reproducible_config],
    which always reports seed 42. *)
Theorem SeedManager_again_resets (p : Process) :
  _instance (snd (SeedManager p)) = Some blank
  /\ (forall self,
        _instance p = Some self -> self <> blank ->
        _instance (snd (SeedManager p)) <> _instance p)
  /\ exists c p',
       get_reproducible_config p = (Ok c, p')
       /\ seed c = 42%Z
       /\ _instance p' = Some blank.
Proof.
  split; [| split].
  - rewrite SeedManager_blank. reflexivity.
  - intros self Hself Hne. rewrite SeedManager_blank, Hself. cbn [snd _instance].
    intros [= E]. apply Hne. symmetry. exact E.
  - unfold get_reproducible_config, bind. rewrite SeedManager_blank.
    eexists _, _. split; [reflexivity |]. split; reflexivity.
Qed.

End Seeds.

Lemma set_random_seed_in_range_witness :
  exists rt',
    set_random_seed Examples.no_fault 42 Examples.rt0 = (Ok tt, rt')
    /\ environ rt' !! "PYTHONHASHSEED" = Some "42"
    /\ environ rt' !! "TF_DETERMINISTIC_OPS" = Some "1"
    /\ rng rt' !! "random" = Some 42%Z
    /\ rng rt' !! "np.random" = Some 42%Z.
Proof.
  apply (set_random_seed_in_range Examples.no_fault 42 Examples.rt0). lia.
Defined.

(** C7, as the specification has it, fails below zero: the [ValueError] of
    [np.random.seed(-1)] leaves [set_random_seed(-1)], and neither
    environment variable has been set. *)
Lemma set_random_seed_minus_one_raises :
  set_random_seed Examples.no_fault (-1) Examples.rt0
  = (Raise (ValueError "Seed must be between 0 and 2**32 - 1"),
     {| rng := <["random" := (-1)%Z]> ∅; flags := ∅; environ := ∅ |})
  /\ raises (fst (set_random_seed Examples.no_fault (-1) Examples.rt0)) = true.
Proof. split; reflexivity. Qed.

Lemma experiment_seed_is_hash_mod_witness :
  fst (create_experiment_seed Examples.toy_hash "x" (snd (SeedManager fresh)))
  = Ok 4000005%Z.
Proof.
  apply (experiment_seed_is_hash_mod Examples.toy_hash "x" (snd (SeedManager fresh)) blank).
  reflexivity.
Defined.

Lemma get_experiment_seed_derives_again_witness :
  exists v p1 p2,
    get_experiment_seed Examples.toy_hash "x" (snd (SeedManager fresh)) = (Ok v, p1)
    /\ get_experiment_seed Examples.toy_hash "x" p1 = (Ok v, p2)
    /\ hash_calls p1 = 1
    /\ hash_calls p2 = 2.
Proof.
  apply (get_experiment_seed_derives_again Examples.toy_hash "x"
           (snd (SeedManager fresh)) blank).
  reflexivity.
Defined.

(** The run [m = SeedManager(); m.set_seed(7); m.create_experiment_seed("x")]
    followed by [get_reproducible_config()]: the seed was 7 and one
    experiment seed was stored; the configuration reports 42, and the
    singleton is back to seed 42 with no experiment seeds. *)
Example set_seed_then_config :
  let run := SeedManager ;;; set_seed Examples.no_fault 7 ;;;
             create_experiment_seed Examples.toy_hash "x" in
  let p := snd (run fresh) in
  match _instance p with
  | Some o => _seed o = 7%Z /\ _experiment_seeds o !! "x" = Some 3000002%Z
  | None => False
  end
  /\ fst (get_seed p) = Ok 7%Z
  /\ (seed <$> match fst (get_reproducible_config p) with
                | Ok c => Some c
                | Raise _ => None
                end) = Some 42%Z
  /\ _instance (snd (get_reproducible_config p)) = Some blank.
Proof.
  cbv zeta. split; [| split; [| split]].
  - vm_compute. split; reflexivity.
  - vm_compute; reflexivity.
  - vm_compute; reflexivity.
  - vm_compute; reflexivity.
Qed.

End SeedingSpec.

(** ** download_data.py *)

Module DownloadSpec.
Import Py Sys Download PyFacts Notations.

Create HintDb total.

Lemma total_log_record (nm : string) (lv : level) (msg : string) :
  total (Logger.log_record nm lv msg).
Proof. apply total_modify. Qed.

Lemma total_print (line : string) : total (print line).
Proof. apply total_modify. Qed.

Lemma total_if_logger (self : StockDataDownloader)
    (stmt : Logger.DataLogger -> M World unit) :
  (forall lg, total (stmt lg)) -> total (if_logger self stmt).
Proof. intros H. unfold if_logger. destruct (logger self); [apply H | apply total_ret]. Qed.

#[local] Hint Resolve total_ret total_modify total_log_record total_print : total.
#[local] Hint Extern 1 (total (bind _ _)) => apply total_bind; [| intros] : total.
#[local] Hint Extern 1 (total (try_except _ _)) => apply total_try_except; intros : total.
#[local] Hint Extern 1 (total (when _ _)) => apply total_when : total.
#[local] Hint Extern 1 (total (if_logger _ _)) => apply total_if_logger; intros : total.
#[local] Hint Unfold Logger.info Logger.success Logger.warning Logger.error Logger.debug
  Logger.separator Logger.log_download_start Logger.log_download_complete
  Logger.log_download_error Logger.log_data_stats : total.

(** [download_single_stock] hands back a frame or [None]; no exception
    leaves it. *)
Lemma download_single_stock_total (env : Env) (self : StockDataDownloader)
    (ticker period interval : string) (filename : option string) :
  total (download_single_stock env self ticker period interval filename).
Proof.
  unfold download_single_stock. apply total_try_except. intros e.
  apply total_bind; [| intros; apply total_ret].
  destruct (logger self); autounfold with total; auto with total.
Qed.

Lemma separator_total (self : StockDataDownloader) :
  total (if_logger self (fun lg => Logger.separator lg)).
Proof. apply total_if_logger. intros lg. autounfold with total. auto with total. Qed.

(** Logging leaves the request counter and the files alone. *)
Lemma log_record_frame (nm : string) (lv : level) (msg : string) (w : World) :
  exists w',
    Logger.log_record nm lv msg w = (Ok tt, w')
    /\ requests w' = requests w /\ files w' = files w /\ clock w' = clock w.
Proof.
  unfold Logger.log_record, modify. eexists. split; [reflexivity |].
  match goal with |- context [if ?b then _ else _] => destruct b end; repeat split.
Qed.

(** The statement that opens [download_single_stock]. *)
Lemma log_start_frame (env : Env) (self : StockDataDownloader)
    (ticker period interval : string) (w : World) :
  exists w',
    if_logger self (fun lg => Logger.log_download_start env lg ticker period interval) w
    = (Ok tt, w')
    /\ requests w' = requests w /\ files w' = files w /\ clock w' = clock w.
Proof.
  unfold if_logger. destruct (logger self) as [lg |].
  - apply log_record_frame.
  - exists w. repeat split.
Qed.

(** What [download_single_stock] hands back, by cases: [None] when the fetch
    raises, when the frame is empty, and when saving raises; the frame
    otherwise.  Saving starts in the world [w0] in which the fetch
    returned. *)
Lemma download_single_stock_cases (env : Env) (self : StockDataDownloader)
    (ticker period interval : string) (filename : option string) (w : World) :
  let w0 := tick_requests
              (snd (if_logger self
                      (fun lg => Logger.log_download_start env lg ticker period interval) w)) in
  fst (download_single_stock env self ticker period interval filename w)
  = match history env (requests w) ticker period interval with
    | Raise _ => Ok None
    | Ok df =>
        if empty df then Ok None
        else match fst (IO.save_dataframe_to_csv env df ticker period (output_dir self)
                          filename IO.default_float_format IO.default_date_format w0) with
             | Ok _ => Ok (Some df)
             | Raise _ => Ok None
             end
    end.
Proof.
  assert (Hhandler : forall e w1,
            exists w2,
              (match logger self with
               | Some lg => Logger.log_download_error env lg ticker (str_exn e)
               | None => print ("Error downloading " ++ ticker ++ ": " ++ str_exn e)
               end ;;; ret None) w1 = (Ok (@None DataFrame), w2)).
  { intros e w1. unfold bind.
    assert (Ht : total (match logger self with
                        | Some lg => Logger.log_download_error env lg ticker (str_exn e)
                        | None => print ("Error downloading " ++ ticker ++ ": " ++ str_exn e)
                        end))
      by (destruct (logger self); autounfold with total; auto with total).
    destruct (Ht w1) as ([] & w2 & ->). exists w2. reflexivity. }
  intros w0. subst w0.
  unfold download_single_stock, try_except, download_single_stock_body.
  unfold bind at 1.
  destruct (log_start_frame env self ticker period interval w) as (wa & -> & Hreq & _).
  cbn [snd]. unfold bind at 1, fetch_history. rewrite Hreq.
  destruct (history env (requests w) ticker period interval) as [df | e].
  - destruct (empty df).
    + unfold bind at 1.
      assert (Ht : total (if_logger self (fun lg =>
                     Logger.warning env lg ("No data found for " ++ ticker))))
        by (apply total_if_logger; intros; autounfold with total; auto with total).
      destruct (Ht (tick_requests wa)) as ([] & wb & ->). reflexivity.
    + unfold bind at 1.
      destruct (IO.save_dataframe_to_csv env df ticker period (output_dir self) filename
                  IO.default_float_format IO.default_date_format (tick_requests wa))
        as [[path | e] ws]; cbn [fst].
      * unfold bind at 1.
        assert (Ht : total (if_logger self (fun lg =>
                       Logger.log_download_complete env lg ticker (len df) path ;;;
                       Logger.log_data_stats env lg ticker (len df) (columns df))))
          by (apply total_if_logger; intros; autounfold with total; auto with total).
        destruct (Ht ws) as ([] & wb & ->). reflexivity.
      * destruct (Hhandler e ws) as (w2 & ->). reflexivity.
  - destruct (Hhandler e (tick_requests wa)) as (w2 & ->). reflexivity.
Qed.

(** *** The dictionary built by the loop *)

Lemma keys_dict_set {V} (k : string) (v : V) (d : list (string * V)) :
  keys (dict_set k v d) = add_key (keys d) k.
Proof.
  unfold add_key, keys. induction d as [| [k' v'] d IH]; [reflexivity |].
  cbn [dict_set map fst existsb].
  rewrite (String.eqb_sym k k').
  destruct (String.eqb k' k); cbn [orb map fst]; [reflexivity |].
  rewrite IH. destruct (existsb (String.eqb k) (map fst d)); reflexivity.
Qed.

Lemma existsb_eqb_In (k : string) (ks : list string) :
  existsb (String.eqb k) ks = true <-> In k ks.
Proof.
  rewrite existsb_exists. split.
  - intros (x & Hin & Heq). apply String.eqb_eq in Heq. subst. exact Hin.
  - intros Hin. exists k. split; [exact Hin | apply String.eqb_refl].
Qed.

Lemma In_add_key (ks : list string) (k x : string) :
  In x (add_key ks k) <-> In x ks \/ x = k.
Proof.
  unfold add_key. destruct (existsb (String.eqb k) ks) eqn:E.
  - apply existsb_eqb_In in E. split; [auto |]. intros [H | ->]; assumption.
  - rewrite in_app_iff. cbn [In]. intuition.
Qed.

Lemma In_fold_add_key (l ks : list string) (x : string) :
  In x (fold_left add_key l ks) <-> In x ks \/ In x l.
Proof.
  revert ks. induction l as [| k l IH]; intros ks; cbn [fold_left In].
  - tauto.
  - rewrite IH, In_add_key. intuition.
Qed.

Lemma length_fold_add_key (l ks : list string) :
  length (fold_left add_key l ks) <= length ks + length l.
Proof.
  revert ks. induction l as [| k l IH]; intros ks; cbn [fold_left length]; [lia |].
  specialize (IH (add_key ks k)).
  assert (length (add_key ks k) <= S (length ks)).
  { unfold add_key. destruct (existsb (String.eqb k) ks); [lia |].
    rewrite length_app. cbn. lia. }
  lia.
Qed.

Lemma NoDup_add_key (ks : list string) (k : string) :
  List.NoDup ks -> List.NoDup (add_key ks k).
Proof.
  intros Hnd. unfold add_key. destruct (existsb (String.eqb k) ks) eqn:E; [exact Hnd |].
  apply List.NoDup_app; [exact Hnd | |].
  - repeat constructor. intros [].
  - intros x Hx [<- | []].
    apply existsb_eqb_In in Hx. congruence.
Qed.

Lemma NoDup_fold_add_key (l ks : list string) :
  List.NoDup ks -> List.NoDup (fold_left add_key l ks).
Proof.
  revert ks. induction l as [| k l IH]; intros ks Hnd; cbn [fold_left]; [exact Hnd |].
  apply IH, NoDup_add_key, Hnd.
Qed.

Lemma fold_add_key_fresh (l ks : list string) :
  List.NoDup l -> (forall x, In x l -> ~ In x ks) ->
  fold_left add_key l ks = (ks ++ l)%list.
Proof.
  revert ks. induction l as [| k l IH]; intros ks Hnd Hfresh; cbn [fold_left].
  - rewrite app_nil_r. reflexivity.
  - apply List.NoDup_cons_iff in Hnd as [Hk Hnd].
    assert (E : existsb (String.eqb k) ks = false).
    { destruct (existsb (String.eqb k) ks) eqn:E; [| reflexivity].
      apply existsb_eqb_In in E. exfalso. apply (Hfresh k); [left; reflexivity | exact E]. }
    unfold add_key at 2. rewrite E.
    rewrite IH; [rewrite <- app_assoc; reflexivity | exact Hnd |].
    intros x Hx Hin. apply in_app_iff in Hin as [Hin | [<- | []]].
    + apply (Hfresh x); [right; exact Hx | exact Hin].
    + apply Hk. exact Hx.
Qed.

(** *** Who succeeded *)

Lemma In_succeeded (tickers : list string) (outcomes : list (option DataFrame))
    (x : string) :
  In x (succeeded tickers outcomes) -> In x tickers.
Proof.
  revert outcomes. induction tickers as [| t ts IH]; intros [| [d |] os];
    cbn [succeeded In]; try tauto.
  - intros [-> | H]; [left; reflexivity | right; eapply IH; exact H].
  - intros H. right. eapply IH; exact H.
Qed.

Lemma NoDup_succeeded (tickers : list string) (outcomes : list (option DataFrame)) :
  List.NoDup tickers -> List.NoDup (succeeded tickers outcomes).
Proof.
  revert outcomes. induction tickers as [| t ts IH]; intros [| [d |] os] Hnd;
    cbn [succeeded]; try constructor.
  - apply List.NoDup_cons_iff in Hnd as [Ht Hnd].
    intros Hin. apply Ht. eapply In_succeeded; exact Hin.
  - apply List.NoDup_cons_iff in Hnd as [Ht Hnd]. apply IH; exact Hnd.
  - apply List.NoDup_cons_iff in Hnd as [Ht Hnd]. apply IH; exact Hnd.
Qed.

Lemma length_succeeded (tickers : list string) (outcomes : list (option DataFrame)) :
  length outcomes = length tickers ->
  length (succeeded tickers outcomes) + failures outcomes = length tickers.
Proof.
  unfold failures.
  revert outcomes. induction tickers as [| t ts IH]; intros [| [d |] os] Hlen;
    cbn [succeeded List.filter length] in *; try lia.
  - specialize (IH os). lia.
  - specialize (IH os). lia.
Qed.

Lemma length_batch_outcomes (env : Env) (self : StockDataDownloader)
    (tickers : list string) (period interval : string) (w : World) :
  length (batch_outcomes env self tickers period interval w) = length tickers.
Proof.
  revert w. induction tickers as [| t ts IH]; intros w; cbn [batch_outcomes]; [reflexivity |].
  destruct (download_single_stock env self t period interval None w) as [r w1].
  destruct (if_logger self _ w1) as [u w2].
  cbn [length]. rewrite IH. reflexivity.
Qed.

(** *** The batch *)

(** The loop returns, and the keys of its dictionary are those it started
    with followed by the tickers that succeeded, each once. *)
Lemma download_loop_keys (env : Env) (self : StockDataDownloader)
    (tickers : list string) (period interval : string) :
  forall (results : list (string * DataFrame)) (w : World),
  exists results' w',
    download_loop env self tickers period interval results w = (Ok results', w')
    /\ keys results'
       = fold_left add_key
           (succeeded tickers (batch_outcomes env self tickers period interval w))
           (keys results).
Proof.
  induction tickers as [| t ts IH]; intros results w.
  - exists results, w. split; reflexivity.
  - cbn [download_loop batch_outcomes]. unfold bind at 1.
    destruct (download_single_stock_total env self t period interval None w)
      as (o & w1 & ->).
    unfold bind at 1.
    destruct (separator_total self w1) as ([] & w2 & ->).
    destruct o as [d |].
    + destruct (IH (dict_set t d results) w2) as (results' & w' & -> & Hkeys).
      exists results', w'. split; [reflexivity |].
      rewrite Hkeys, keys_dict_set. reflexivity.
    + destruct (IH results w2) as (results' & w' & -> & Hkeys).
      exists results', w'. split; [reflexivity | exact Hkeys].
Qed.

(** The combined-Excel step cannot raise: its failure is logged. *)
Lemma save_combined_total (env : Env) (self : StockDataDownloader)
    (results : list (string * DataFrame)) (period : string) :
  total (save_combined env self results period).
Proof.
  apply total_try_except. intros e.
  apply total_if_logger. intros lg. autounfold with total. auto with total.
Qed.

Lemma download_multiple_stocks_keys (env : Env) (self : StockDataDownloader)
    (tickers : list string) (period interval : string)
    (save_individual save_combined_excel : bool) (w : World) :
  exists results w',
    download_multiple_stocks env self tickers period interval
      save_individual save_combined_excel w = (Ok results, w')
    /\ keys results
       = fold_left add_key
           (succeeded tickers (batch_outcomes env self tickers period interval w)) [].
Proof.
  unfold download_multiple_stocks. unfold bind at 1.
  destruct (download_loop_keys env self tickers period interval [] w)
    as (results & w1 & -> & Hkeys).
  unfold bind at 1.
  destruct (total_when (save_combined_excel && negb (length results =? 0)%nat) _
              (save_combined_total env self results period) w1)
    as ([] & w2 & ->).
  exists results, w2. split; [reflexivity | exact Hkeys].
Qed.

(** C1, as the code has it.  [download_multiple_stocks] returns a
    dictionary from every list of tickers, whatever fails on the way: no
    exception leaves it.  Its keys are the tickers that succeeded, each
    once, so it has at most N - M entries; when no ticker occurs twice in
    the list its keys are the successful tickers in input order and it has
    exactly N - M entries. *)
Theorem batch_result_size (env : Env) (self : StockDataDownloader)
    (tickers : list string) (period interval : string)
    (save_individual save_combined_excel : bool) (w : World) :
  let outcomes := batch_outcomes env self tickers period interval w in
  exists results w',
    download_multiple_stocks env self tickers period interval
      save_individual save_combined_excel w = (Ok results, w')
    /\ (forall k, In k (keys results) <-> In k (succeeded tickers outcomes))
    /\ List.NoDup (keys results)
    /\ length results <= length tickers - failures outcomes
    /\ (List.NoDup tickers ->
        keys results = succeeded tickers outcomes
        /\ length results = length tickers - failures outcomes).
Proof.
  intros outcomes.
  destruct (download_multiple_stocks_keys env self tickers period interval
              save_individual save_combined_excel w) as (results & w' & Hrun & Hkeys).
  fold outcomes in Hkeys.
  assert (Hlen : length (succeeded tickers outcomes) + failures outcomes = length tickers)
    by (apply length_succeeded, length_batch_outcomes).
  assert (Hsize : length results = length (keys results))
    by (unfold keys; rewrite length_map; reflexivity).
  exists results, w'. split; [exact Hrun |]. split; [| split; [| split]].
  - intros k. rewrite Hkeys, In_fold_add_key. cbn [In]. tauto.
  - rewrite Hkeys. apply NoDup_fold_add_key. constructor.
  - rewrite Hsize, Hkeys.
    pose proof (length_fold_add_key (succeeded tickers outcomes) []) as Hle.
    cbn [length] in Hle. lia.
  - intros Hnd.
    assert (Hk : keys results = succeeded tickers outcomes).
    { rewrite Hkeys. apply fold_add_key_fresh.
      - apply NoDup_succeeded. exact Hnd.
      - intros x _ []. }
    split; [exact Hk |]. rewrite Hsize, Hk. lia.
Qed.

Lemma batch_result_size_witness :
  exists results w',
    download_multiple_stocks Examples.env0 Examples.chatty ["AAPL"; "NOPE"; "MSFT"]
      "1y" "1d" true true Examples.w1 = (Ok results, w')
    /\ keys results = ["AAPL"; "MSFT"]
    /\ length results = 3 - 1.
Proof.
  destruct (batch_result_size Examples.env0 Examples.chatty ["AAPL"; "NOPE"; "MSFT"]
              "1y" "1d" true true Examples.w1)
    as (results & w' & Hrun & _ & _ & _ & Hnodup).
  assert (Hnd : List.NoDup ["AAPL"; "NOPE"; "MSFT"]).
  { repeat constructor; cbn [In]; intuition discriminate. }
  destruct (Hnodup Hnd) as [Hkeys Hlen].
  exists results, w'. split; [exact Hrun |]. split.
  - rewrite Hkeys. vm_compute. reflexivity.
  - rewrite Hlen. vm_compute. reflexivity.
Defined.

(** C1, as the specification has it, fails on a ticker given twice: both
    downloads succeed, so N - M is 2, and the dictionary has one entry. *)
Lemma duplicate_tickers_share_an_entry :
  let tickers := ["AAPL"; "AAPL"] in
  let outcomes := batch_outcomes Examples.env0 Examples.quiet tickers "1y" "1d" Examples.w0 in
  failures outcomes = 0
  /\ match fst (download_multiple_stocks Examples.env0 Examples.quiet tickers
                  "1y" "1d" true false Examples.w0) with
     | Ok results =>
         length results = 1
         /\ length results <> length tickers - failures outcomes
     | Raise _ => False
     end.
Proof. vm_compute. split; [reflexivity |]. split; [reflexivity | discriminate]. Qed.

(** *** A ticker without rows *)

Lemma no_rows_run (env : Env) (self : StockDataDownloader)
    (ticker period interval : string) (filename : option string) (w : World)
    (df : DataFrame) :
  history env (requests w) ticker period interval = Ok df ->
  empty df = true ->
  exists w',
    download_single_stock env self ticker period interval filename w = (Ok None, w')
    /\ files w' = files w
    /\ match logger self with
       | Some lg =>
           forall path, wired lg path w ->
             log w' = (log w ++
                       [ (StreamHandler, start_record env lg ticker period interval);
                         (FileHandler path, start_record env lg ticker period interval);
                         (StreamHandler, no_data_record env lg ticker);
                         (FileHandler path, no_data_record env lg ticker) ])%list
       | None => log w' = log w /\ stdout w' = stdout w
       end.
Proof.
  intros Hfetch Hempty.
  unfold download_single_stock, try_except, download_single_stock_body, if_logger.
  destruct (logger self) as [lg |].
  - unfold bind at 1.
    destruct (total_log_record (Logger.name lg) INFO
                (message (start_record env lg ticker period interval)) w)
      as ([] & wa & Ea).
    unfold Logger.log_download_start, Logger.info. cbn [message start_record] in Ea.
    rewrite Ea.
    unfold bind at 1, fetch_history.
    assert (Hreq : requests wa = requests w).
    { unfold Logger.log_record, modify in Ea. injection Ea as <-.
      match goal with |- context [if ?b then _ else _] => destruct b end; reflexivity. }
    rewrite Hreq, Hfetch, Hempty.
    unfold bind at 1.
    destruct (total_log_record (Logger.name lg) WARNING
                (message (no_data_record env lg ticker)) (tick_requests wa))
      as ([] & wb & Eb).
    unfold Logger.warning. cbn [message no_data_record] in Eb.
    rewrite Eb. exists wb. split; [reflexivity |].
    unfold Logger.log_record, modify in Ea, Eb.
    injection Ea as <-. injection Eb as <-.
    split.
    + repeat (match goal with |- context [if ?b then _ else _] => destruct b end);
        reflexivity.
    + intros path Hw. unfold wired in Hw.
      unfold Logger.getLogger in *. rewrite Hw.
      cbn [llevel handlers levelno Nat.leb List.filter hlevel map target].
      cbn [tick_requests set_log loggers log]. rewrite Hw.
      cbn [llevel handlers levelno Nat.leb List.filter hlevel map target].
      cbn [set_log log tick_requests]. rewrite <- app_assoc. reflexivity.
  - unfold bind at 1, ret at 1. unfold bind at 1, fetch_history.
    rewrite Hfetch, Hempty.
    unfold bind, ret. eexists. split; [reflexivity |].
    repeat split.
Qed.

Lemma no_rows_not_succeeded (env : Env) (self : StockDataDownloader)
    (ticker period interval : string) (tickers : list string) :
  always_empty env ticker period interval ->
  forall w, ~ In ticker (succeeded tickers (batch_outcomes env self tickers period interval w)).
Proof.
  intros Hempty. induction tickers as [| t ts IH]; intros w; cbn [batch_outcomes].
  - intros [].
  - destruct (download_single_stock env self t period interval None w) as [r w1] eqn:Er.
    destruct (if_logger self _ w1) as [u w2].
    destruct r as [[d |] | e]; cbn [succeeded]; try apply IH.
    intros [-> | Hin]; [| exact (IH w2 Hin)].
    destruct (Hempty (requests w)) as (df & Hfetch & Hdf).
    destruct (no_rows_run env self ticker period interval None w df Hfetch Hdf)
      as (w' & Hrun & _).
    rewrite Hrun in Er. discriminate Er.
Qed.

(** C2, as the code has it.  For a ticker whose fetch succeeds without
    rows, [download_single_stock] returns [None] and raises nothing, and
    leaves the files on disk as they were; with logging enabled it sends
    the start record and then a [WARNING] record "No data found for
    {ticker}" to the console and to the log file, and with logging
    disabled it logs and prints nothing; and the ticker is not a key of
    the dictionary of any batch. *)
Theorem no_rows_is_no_data (env : Env) (self : StockDataDownloader)
    (ticker period interval : string) :
  (forall filename w df,
      history env (requests w) ticker period interval = Ok df ->
      empty df = true ->
      exists w',
        download_single_stock env self ticker period interval filename w = (Ok None, w')
        /\ files w' = files w
        /\ match logger self with
           | Some lg =>
               forall path, wired lg path w ->
                 log w' = (log w ++
                           [ (StreamHandler, start_record env lg ticker period interval);
                             (FileHandler path, start_record env lg ticker period interval);
                             (StreamHandler, no_data_record env lg ticker);
                             (FileHandler path, no_data_record env lg ticker) ])%list
           | None => log w' = log w /\ stdout w' = stdout w
           end)
  /\ (always_empty env ticker period interval ->
      forall tickers save_individual save_combined_excel w,
        exists results w',
          download_multiple_stocks env self tickers period interval
            save_individual save_combined_excel w = (Ok results, w')
          /\ ~ In ticker (keys results)).
Proof.
  split.
  - intros filename w df Hfetch Hdf. apply (no_rows_run _ _ _ _ _ _ _ df); assumption.
  - intros Hempty tickers si sce w.
    destruct (download_multiple_stocks_keys env self tickers period interval si sce w)
      as (results & w' & Hrun & Hkeys).
    exists results, w'. split; [exact Hrun |].
    rewrite Hkeys, In_fold_add_key. intros [[] | Hin].
    exact (no_rows_not_succeeded env self ticker period interval tickers Hempty w Hin).
Qed.

Lemma no_rows_is_no_data_witness :
  (exists w',
     download_single_stock Examples.env0 Examples.chatty "NOPE" "1y" "1d" None Examples.w1
     = (Ok None, w')
     /\ files w' = files Examples.w1
     /\ map (fun e => (fst e, lvl (snd e))) (log w')
        = [ (StreamHandler, INFO);
            (FileHandler "../logs/data_download_20240105.log", INFO);
            (StreamHandler, WARNING);
            (FileHandler "../logs/data_download_20240105.log", WARNING) ])
  /\ (exists results w',
        download_multiple_stocks Examples.env0 Examples.chatty ["AAPL"; "NOPE"] "1y" "1d"
          true false Examples.w1 = (Ok results, w')
        /\ ~ In "NOPE" (keys results)).
Proof.
  assert (Hempty : always_empty Examples.env0 "NOPE" "1y" "1d")
    by (intros n; exists Examples.no_rows; split; reflexivity).
  destruct (no_rows_is_no_data Examples.env0 Examples.chatty "NOPE" "1y" "1d")
    as [Hsingle Hbatch].
  split.
  - destruct (Hsingle None Examples.w1 Examples.no_rows eq_refl eq_refl)
      as (w' & Hrun & Hfiles & Hlog).
    exists w'. split; [exact Hrun |]. split; [exact Hfiles |].
    cbn [Examples.chatty logger] in Hlog.
    rewrite (Hlog "../logs/data_download_20240105.log" eq_refl).
    reflexivity.
  - exact (Hbatch Hempty ["AAPL"; "NOPE"] true false Examples.w1).
Defined.

(** C2, as the specification has it, fails on a downloader constructed
    with [use_logging=False]: the fetch of [NOPE] has no rows, [None] is
    returned, and no record is logged, so no warning. *)
Lemma no_rows_without_logger_logs_nothing :
  fst (StockDataDownloader_init Examples.env0 "data" false Examples.w1) = Ok Examples.quiet
  /\ empty Examples.no_rows = true
  /\ history Examples.env0 0 "NOPE" "1y" "1d" = Ok Examples.no_rows
  /\ fst (download_single_stock Examples.env0 Examples.quiet "NOPE" "1y" "1d" None
            Examples.w1) = Ok None
  /\ log (snd (download_single_stock Examples.env0 Examples.quiet "NOPE" "1y" "1d" None
                 Examples.w1)) = []
  /\ ~ exists entry,
        In entry (log (snd (download_single_stock Examples.env0 Examples.quiet "NOPE"
                              "1y" "1d" None Examples.w1)))
        /\ lvl (snd entry) = WARNING.
Proof.
  assert (Hlog : log (snd (download_single_stock Examples.env0 Examples.quiet "NOPE"
                             "1y" "1d" None Examples.w1)) = [])
    by (vm_compute; reflexivity).
  repeat split; try reflexivity; try exact Hlog.
  rewrite Hlog. intros (entry & [] & _).
Qed.

End DownloadSpec.

(** * More of the code *)

(** ** utils/io.py: files written and read back *)

Module IOProps.
Import Py Sys IO Views PyFacts Notations.

Lemma makedirs_ok (env : Env) (dir : string) (w w' : World) :
  makedirs env dir w = (Ok tt, w') ->
  w' = set_files (insert (abspath env dir) Dir) w
  /\ makedirs_fault env dir = None
  /\ is_file w (abspath env dir) = false.
Proof.
  unfold makedirs, is_file. destruct (makedirs_fault env dir); [discriminate |].
  destruct (files w !! abspath env dir) as [[| c] |]; try discriminate;
    intros [= <-]; auto.
Qed.

Lemma write_file_ok (env : Env) (path : string) (c : content) (w w' : World) :
  write_file env path c w = (Ok tt, w') ->
  w' = set_files (insert path (File c)) w.
Proof.
  unfold write_file. destruct (write_fault env path); [discriminate |].
  destruct (files w !! path) as [[| c0] |]; try discriminate; intros [= <-]; reflexivity.
Qed.

(** [save_dataframe_to_csv], step by step, when it returns. *)
Lemma save_run (env : Env) (df : DataFrame) (ticker period dir : string)
    (filename : option string) (ff dfmt : string) (w : World) (path : string) (w' : World) :
  save_dataframe_to_csv env df ticker period dir filename ff dfmt w = (Ok path, w') ->
  exists name w1,
    generate_filename env ticker period filename
      (set_files (insert (abspath env dir) Dir) w) = (Ok name, w1)
    /\ path = path_join (abspath env dir) name
    /\ w' = set_files (insert path
                         (File (Csv (saved_header df) (saved_rows df) ff dfmt))) w1.
Proof.
  unfold save_dataframe_to_csv, create_output_directory, to_csv. unfold bind at 1 2.
  destruct (makedirs env dir w) as [[[] | e] wd] eqn:Ed; [| discriminate].
  apply makedirs_ok in Ed as (-> & _ & _).
  unfold ret at 1. unfold bind at 1.
  destruct (generate_filename env ticker period filename _) as [[name | e] w1] eqn:Eg;
    [| discriminate].
  unfold bind at 1.
  assert (Hsave : (if index_named df then lift_res (reset_index df) else ret df) w1
                  = (match (if index_named df then reset_index df else Ok df) with
                     | Ok d => Ok d | Raise e => Raise e end, w1)).
  { destruct (index_named df); [unfold lift_res; destruct (reset_index df) |];
      reflexivity. }
  rewrite Hsave. clear Hsave.
  destruct (if index_named df then reset_index df else Ok df) as [d | e] eqn:Er;
    [| discriminate].
  assert (Hd : columns d = saved_header df /\ values d = saved_rows df).
  { unfold saved_header, saved_rows. destruct (index_named df).
    - unfold reset_index in Er.
      destruct (existsb _ (columns df)); [discriminate |].
      injection Er as <-. split; reflexivity.
    - injection Er as <-. split; reflexivity. }
  destruct Hd as [-> ->].
  unfold bind at 1.
  match goal with |- context [write_file env ?p ?c ?x] =>
    destruct (write_file env p c x) as [[[] | e] w2] eqn:Ew; [| discriminate] end.
  apply write_file_ok in Ew as ->.
  unfold ret. intros [= <- <-]. exists name, w1.
  repeat split.
Qed.






(** X2.  A custom file name is taken without reading the clock, and the
    name handed back is a fixed point: given as the custom name again, for
    any ticker and period, it comes back unchanged, so [.csv] is never
    appended twice. *)
Theorem custom_filename_fixed_point (env : Env) (ticker period custom : string)
    (w : World) :
  exists name,
    generate_filename env ticker period (Some custom) w = (Ok name, w)
    /\ forall ticker' period' w',
         generate_filename env ticker' period' (Some name) w' = (Ok name, w').
Proof.
  eexists. split; [reflexivity |].
  intros ticker' period' w'. unfold generate_filename, ret.
  destruct (endswith custom ".csv") eqn:E.
  - rewrite E. reflexivity.
  - rewrite endswith_app. reflexivity.
Qed.

(** *** File names from the clock *)

Lemma append_inv_head (p a b : string) : p ++ a = p ++ b -> a = b.
Proof.
  induction p as [| c p IH]; [exact (fun H => H) |].
  change (String c p ++ a) with (String c (p ++ a)).
  change (String c p ++ b) with (String c (p ++ b)).
  intros [= H]. apply IH. exact H.
Qed.

Lemma zpad_inj (width n m : nat) :
  n < 10 ^ width -> m < 10 ^ width -> zpad width n = zpad width m -> n = m.
Proof.
  intros Hn Hm H. apply (f_equal (decimal_value 0)) in H.
  rewrite !zpad_exact in H by assumption. exact H.
Qed.

(** The stamp determines the reading of the clock, to the second. *)
Lemma strftime_Ymd_HMS_inj (t1 t2 : datetime) :
  fits t1 -> fits t2 ->
  strftime_Ymd_HMS t1 ++ ".csv" = strftime_Ymd_HMS t2 ++ ".csv" -> t1 = t2.
Proof.
  intros (Hy1 & Hmo1 & Hd1 & Hh1 & Hmi1 & Hs1) (Hy2 & Hmo2 & Hd2 & Hh2 & Hmi2 & Hs2) H.
  cbv [strftime_Ymd_HMS strftime_Ymd zpad String.append] in H.
  injection H as Y3 Y2 Y1 Y0 M1 M0 D1 D0 H1 H0 MI1 MI0 S1 S0.
  assert (Ey : year t1 = year t2).
  { apply (zpad_inj 4); [assumption .. |]. cbv [zpad String.append Nat.div]. congruence. }
  assert (Emo : month t1 = month t2).
  { apply (zpad_inj 2); [assumption .. |]. cbv [zpad String.append Nat.div]. congruence. }
  assert (Ed : day t1 = day t2).
  { apply (zpad_inj 2); [assumption .. |]. cbv [zpad String.append Nat.div]. congruence. }
  assert (Eh : hour t1 = hour t2).
  { apply (zpad_inj 2); [assumption .. |]. cbv [zpad String.append Nat.div]. congruence. }
  assert (Emi : minute t1 = minute t2).
  { apply (zpad_inj 2); [assumption .. |]. cbv [zpad String.append Nat.div]. congruence. }
  assert (Es : second t1 = second t2).
  { apply (zpad_inj 2); [assumption .. |]. cbv [zpad String.append Nat.div]. congruence. }
  destruct t1, t2. cbn in *. congruence.
Qed.

(** X3.  Two file names generated from the clock for the same ticker and
    period are equal only when the two readings of the clock agree to the
    second: downloads made in different seconds do not collide. *)
Theorem auto_filenames_differ (env : Env) (ticker period : string) (w1 w2 : World) :
  fits (now env (clock w1)) -> fits (now env (clock w2)) ->
  fst (generate_filename env ticker period None w1)
  = fst (generate_filename env ticker period None w2) ->
  now env (clock w1) = now env (clock w2).
Proof.
  intros F1 F2. unfold generate_filename, bind, datetime_now, ret. cbn [fst].
  intros [= H].
  apply append_inv_head in H. apply (append_inv_head "_") in H.
  apply append_inv_head in H. apply (append_inv_head "_") in H.
  apply strftime_Ymd_HMS_inj; assumption.
Qed.

Lemma auto_filenames_differ_witness :
  now Examples.env0 (clock Examples.w0) = now Examples.env0 (clock Examples.w1).
Proof.
  apply (auto_filenames_differ Examples.env0 "AAPL" "1y" Examples.w0 Examples.w1).
  - cbv [fits Examples.env0 now Examples.jan5 year month day hour minute second].
    cbn [Nat.pow]. lia.
  - cbv [fits Examples.env0 now Examples.jan5 year month day hour minute second].
    cbn [Nat.pow]. lia.
  - reflexivity.
Defined.

(** *** Directories and collisions *)



Lemma generate_custom (env : Env) (ticker period custom : string) (w : World) :
  generate_filename env ticker period (Some custom) w
  = (Ok (if endswith custom ".csv" then custom else custom ++ ".csv"), w).
Proof. reflexivity. Qed.

(** X4.  With a custom file name the path depends on the directory and the
    name alone, not on the ticker or the period, and a second save under
    the same name replaces the first: the file then holds the table of the
    second frame. *)
Theorem same_name_overwrites (env : Env) (df1 df2 : DataFrame)
    (ticker1 period1 ticker2 period2 dir name ff dfmt : string)
    (w : World) (p1 p2 : string) :
  let first := save_dataframe_to_csv env df1 ticker1 period1 dir (Some name) ff dfmt w in
  let second := save_dataframe_to_csv env df2 ticker2 period2 dir (Some name) ff dfmt
                  (snd first) in
  fst first = Ok p1 -> fst second = Ok p2 ->
  p2 = p1
  /\ files (snd first) !! p1
     = Some (File (Csv (saved_header df1) (saved_rows df1) ff dfmt))
  /\ files (snd second) !! p1
     = Some (File (Csv (saved_header df2) (saved_rows df2) ff dfmt)).
Proof.
  intros first second. subst first second.
  destruct (save_dataframe_to_csv env df1 ticker1 period1 dir (Some name) ff dfmt w)
    as [r1 w1] eqn:E1.
  cbn [fst snd].
  destruct (save_dataframe_to_csv env df2 ticker2 period2 dir (Some name) ff dfmt w1)
    as [r2 w2] eqn:E2.
  cbn [fst snd]. intros -> ->.
  apply save_run in E1 as (n1 & wa & G1 & P1 & ->).
  apply save_run in E2 as (n2 & wb & G2 & P2 & ->).
  rewrite generate_custom in G1, G2.
  injection G1 as <- <-. injection G2 as <- <-.
  subst p1 p2. split; [reflexivity |].
  split; apply lookup_insert_eq.
Qed.

Lemma same_name_overwrites_witness :
  files (snd (save_dataframe_to_csv Examples.env0 Examples.unnamed_bars "MSFT" "5y" "data"
                (Some "prices") "%.6f" "%Y-%m-%d %H:%M:%S"
                (snd (save_dataframe_to_csv Examples.env0 Examples.bars "AAPL" "1y" "data"
                        (Some "prices") "%.6f" "%Y-%m-%d %H:%M:%S" Examples.w0))))
    !! "/home/user/data/prices.csv"
  = Some (File (Csv ["Open"; "Close"] (values Examples.bars) "%.6f" "%Y-%m-%d %H:%M:%S")).
Proof.
  apply (same_name_overwrites Examples.env0 Examples.bars Examples.unnamed_bars
           "AAPL" "1y" "MSFT" "5y" "data" "prices" "%.6f" "%Y-%m-%d %H:%M:%S"
           Examples.w0 "/home/user/data/prices.csv" "/home/user/data/prices.csv");
    reflexivity.
Defined.

Lemma existsb_eqb_of_In (k : string) (ks : list string) :
  In k ks -> existsb (String.eqb k) ks = true.
Proof.
  intros Hin. apply existsb_exists. exists k. split; [exact Hin | apply String.eqb_refl].
Qed.

Lemma is_file_insert_dir (w : World) (d p : string) :
  is_file w d = false ->
  is_file (set_files (insert d Dir) w) p = is_file w p.
Proof.
  unfold is_file. cbn [files set_files]. intros Hd.
  destruct (decide (d = p)) as [<- | Hne].
  - rewrite lookup_insert_eq. symmetry. exact Hd.
  - rewrite lookup_insert_ne by exact Hne. reflexivity.
Qed.

Lemma save_clash_run (env : Env) (df : DataFrame)
    (ticker period dir : string) (filename : option string) (ff dfmt : string)
    (w : World) (name : string) :
  index_name df = Some name -> name <> "" -> In name (columns df) ->
  save_dataframe_to_csv env df ticker period dir filename ff dfmt w
  = match makedirs env dir w with
    | (Ok _, wd) =>
        (Raise (ValueError ("cannot insert " ++ name ++ ", already exists")),
         snd (generate_filename env ticker period filename wd))
    | (Raise e, wd) => (Raise e, wd)
    end.
Proof.
  intros Hname Hne Hin.
  assert (Hnamed : index_named df = true).
  { unfold index_named. rewrite Hname.
    destruct (String.eqb_spec name ""); [contradiction | reflexivity]. }
  assert (Hreset : reset_index df
                   = Raise (ValueError ("cannot insert " ++ name ++ ", already exists"))).
  { unfold reset_index. rewrite Hname. cbn [default from_option id].
    rewrite (existsb_eqb_of_In name (columns df) Hin). reflexivity. }
  unfold save_dataframe_to_csv, create_output_directory. unfold bind at 1 2.
  destruct (makedirs env dir w) as [[[] | e] wd]; [| reflexivity].
  unfold ret at 1. unfold bind at 1.
  rewrite Hnamed. unfold lift_res. rewrite Hreset.
  destruct filename as [custom |]; reflexivity.
Qed.

(** X6.  A frame whose index is named like one of its columns cannot be
    saved: [save_dataframe_to_csv] raises, with the [ValueError] of
    [reset_index] when the directory could be made, and no file is created:
    the paths that hold a file are those that held one before. *)
Theorem index_name_clash_raises (env : Env) (df : DataFrame)
    (ticker period dir : string) (filename : option string) (ff dfmt : string)
    (w : World) (name : string) :
  index_name df = Some name -> name <> "" -> In name (columns df) ->
  let run := save_dataframe_to_csv env df ticker period dir filename ff dfmt w in
  raises (fst run) = true
  /\ (raises (fst (makedirs env dir w)) = false ->
      fst run = Raise (ValueError ("cannot insert " ++ name ++ ", already exists")))
  /\ forall p, is_file (snd run) p = is_file w p.
Proof.
  intros Hname Hne Hin run. subst run.
  rewrite (save_clash_run env df ticker period dir filename ff dfmt w name Hname Hne Hin).
  destruct (makedirs env dir w) as [[[] | e] wd] eqn:Ed; cbn [fst snd raises].
  - apply makedirs_ok in Ed as (-> & _ & Hfile).
    split; [reflexivity |]. split; [reflexivity |].
    intros p.
    assert (Hfiles : files (snd (generate_filename env ticker period filename
                                   (set_files (insert (abspath env dir) Dir) w)))
                     = files (set_files (insert (abspath env dir) Dir) w))
      by (destruct filename; reflexivity).
    unfold is_file at 1. rewrite Hfiles.
    apply (is_file_insert_dir w (abspath env dir) p Hfile).
  - split; [reflexivity |]. split; [discriminate |].
    intros p. unfold makedirs in Ed.
    destruct (makedirs_fault env dir); [injection Ed as _ <-; reflexivity |].
    destruct (files w !! abspath env dir) as [[| c] |]; try discriminate.
    injection Ed as _ <-. reflexivity.
Qed.

Lemma index_name_clash_raises_witness :
  raises (fst (save_dataframe_to_csv Examples.env0
                 {| index_name := Some "Open"; index := index Examples.bars;
                    columns := ["Open"; "Close"]; values := values Examples.bars |}
                 "AAPL" "1y" "data" None "%.6f" "%Y-%m-%d %H:%M:%S" Examples.w0)) = true.
Proof.
  apply (index_name_clash_raises Examples.env0
           {| index_name := Some "Open"; index := index Examples.bars;
              columns := ["Open"; "Close"]; values := values Examples.bars |}
           "AAPL" "1y" "data" None "%.6f" "%Y-%m-%d %H:%M:%S" Examples.w0 "Open").
  - reflexivity.
  - discriminate.
  - left. reflexivity.
Defined.

(** *** The combined workbook *)






End IOProps.

(** ** utils/logger.py: handlers and levels *)

Module LoggerProps.
Import Py Sys Logger LogViews PyFacts LoggerSpec Notations.








Lemma open_append_ok (env : Env) (path : string) (w w' : World) :
  open_append env path w = (Ok tt, w') ->
  files w' !! path
  = match files w !! path with
    | Some (File c) => Some (File c)
    | _ => Some (File (Text ""))
    end
  /\ files w !! path <> Some Dir.
Proof.
  unfold open_append. destruct (write_fault env path); [discriminate |].
  destruct (files w !! path) as [[| c] |] eqn:E; try discriminate; intros [= <-].
  - split; [exact E | discriminate].
  - split; [apply lookup_insert_eq | discriminate].
Qed.

(** X11.  Constructing a [DataLogger] with file logging opens its log file
    for appending: a log file that is already there keeps its content, one
    that is not is created empty; and construction logs nothing. *)
Theorem log_file_is_appended_to (env : Env) (nm dir : string) (colors : bool) (w : World) :
  raises (fst (DataLogger_init env nm dir true colors w)) = false ->
  let w' := snd (DataLogger_init env nm dir true colors w) in
  let path := data_log_file dir (strftime_Ymd (now env (clock w))) in
  files w' !! path
  = match files w !! path with
    | Some (File c) => Some (File c)
    | _ => Some (File (Text ""))
    end
  /\ log w' = log w.
Proof.
  unfold DataLogger_init, bind, setLevel, clear_handlers, addHandler, update_logger,
    modify, ret, data_log_file.
  cbn [when].
  unfold _setup_file_handler, bind, addHandler, update_logger, modify, datetime_now.
  cbn [log_dir name].
  destruct (makedirs env dir _) as [[[] | e] w2] eqn:E2; [| discriminate].
  match goal with |- context [open_append env ?p ?x] =>
    destruct (open_append env p x) as [[[] | e] w4] eqn:E4; [| discriminate] end.
  intros _. cbn [fst snd].
  pose proof (makedirs_frame _ _ _ _ _ E2) as (_ & C2 & L2).
  pose proof (open_append_frame _ _ _ _ _ E4) as (_ & _ & L4).
  apply IOProps.makedirs_ok in E2 as (-> & _ & _).
  cbn [clock log files set_loggers set_files] in C2, L2, L4, E4 |- *.
  apply open_append_ok in E4 as [Hfile Hnodir].
  cbn [files set_files set_loggers] in Hfile, Hnodir.
  split; [| rewrite L4; reflexivity].
  rewrite Hfile.
  destruct (decide (abspath env dir
                    = path_join dir ("data_download_"
                                     ++ strftime_Ymd (now env (clock w)) ++ ".log")))
    as [Heq | Hne].
  - exfalso. apply Hnodir. rewrite <- Heq. apply lookup_insert_eq.
  - rewrite lookup_insert_ne by exact Hne. reflexivity.
Qed.

Lemma log_file_is_appended_to_witness :
  files (snd (DataLogger_init Examples.env0 "data_logger" "../logs" true true Examples.w0))
    !! "../logs/data_download_20240105.log"
  = Some (File (Text "")).
Proof.
  apply (log_file_is_appended_to Examples.env0 "data_logger" "../logs" true Examples.w0).
  reflexivity.
Defined.




End LoggerProps.

(** ** utils/seeding.py: what is seeded, and when *)

Module SeedingProps.
Import Py Seeding SeedingMore PyFacts SeedingSpec Notations.

Section Seeds.

Variable fault : string -> Z -> option exn.

(** The runtime once [random] and [np.random] are seeded. *)
Lemma in_range_test (seed : Z) :
  (0 <= seed <= 2 ^ 32 - 1)%Z -> ((0 <=? seed) && (seed <=? 2 ^ 32 - 1))%Z = true.
Proof.
  intros [Hlo Hhi]. apply Z.leb_le in Hlo, Hhi. rewrite Hlo, Hhi. reflexivity.
Qed.

Lemma out_of_range_test (seed : Z) :
  ~ (0 <= seed <= 2 ^ 32 - 1)%Z -> ((0 <=? seed) && (seed <=? 2 ^ 32 - 1))%Z = false.
Proof.
  intros Hout. destruct ((0 <=? seed)%Z && (seed <=? 2 ^ 32 - 1)%Z) eqn:E; [| reflexivity].
  apply andb_prop in E as [E1 E2]. apply Z.leb_le in E1, E2. lia.
Qed.

(** [set_random_seed] on a seed numpy takes, step by step. *)
Lemma set_random_seed_steps (seed : Z) (rt : Runtime) :
  (0 <= seed <= 2 ^ 32 - 1)%Z ->
  exists rta rtb,
    tf_block fault seed
      {| rng := <["np.random" := seed]> (<["random" := seed]> (rng rt));
         flags := flags rt; environ := environ rt |} = (Ok tt, rta)
    /\ torch_block fault seed rta = (Ok tt, rtb)
    /\ set_random_seed fault seed rt
       = (Ok tt, {| rng := rng rtb; flags := flags rtb;
                    environ := <["TF_DETERMINISTIC_OPS" := "1"]>
                                 (<["PYTHONHASHSEED" := str_int seed]> (environ rtb)) |})
    /\ rng rtb !! "random" = Some seed
    /\ rng rtb !! "np.random" = Some seed.
Proof.
  intros Hin.
  destruct (tf_block_skips fault seed
              {| rng := <["np.random" := seed]> (<["random" := seed]> (rng rt));
                 flags := flags rt; environ := environ rt |}) as (rta & Ea & _ & Ra & Na).
  destruct (torch_block_skips fault seed rta) as (rtb & Eb & _ & Rb & Nb).
  cbn [rng] in Ra, Na.
  exists rta, rtb. split; [exact Ea |]. split; [exact Eb |].
  split; [| split;
            [ rewrite Rb, Ra, lookup_insert_ne by discriminate; apply lookup_insert_eq
            | rewrite Nb, Na; apply lookup_insert_eq ]].
  unfold set_random_seed.
  unfold bind at 1 2, random_seed, np_random_seed.
  rewrite (in_range_test seed Hin). cbn [seed_rng modify rng flags environ].
  unfold bind at 1. rewrite Ea. unfold bind at 1. rewrite Eb. reflexivity.
Qed.

(** [set_random_seed] on a seed numpy refuses. *)
Lemma set_random_seed_refused (seed : Z) (rt : Runtime) :
  ~ (0 <= seed <= 2 ^ 32 - 1)%Z ->
  set_random_seed fault seed rt
  = (Raise (ValueError "Seed must be between 0 and 2**32 - 1"),
     {| rng := <["random" := seed]> (rng rt); flags := flags rt; environ := environ rt |}).
Proof.
  intros Hout. unfold set_random_seed, bind, random_seed, np_random_seed.
  cbn [seed_rng modify]. rewrite (out_of_range_test seed Hout). reflexivity.
Qed.

(** X12.  For a seed outside [0, 2^32 - 1], [set_random_seed] raises the
    [ValueError] of [np.random.seed] when only Python's [random] has been
    seeded: numpy, TensorFlow and PyTorch are not seeded, no flag is set
    and the environment is not touched. *)
Theorem set_random_seed_stops_at_numpy (seed : Z) (rt : Runtime) :
  ~ (0 <= seed <= 2 ^ 32 - 1)%Z ->
  set_random_seed fault seed rt
  = (Raise (ValueError "Seed must be between 0 and 2**32 - 1"),
     {| rng := <["random" := seed]> (rng rt); flags := flags rt; environ := environ rt |}).
Proof. apply set_random_seed_refused. Qed.

Ltac lookups :=
  repeat first
    [ apply lookup_insert_eq
    | rewrite lookup_insert_ne by discriminate
    | reflexivity ].

Lemma tf_block_clean (seed : Z) (rt : Runtime) :
  (forall fn, fault fn seed = None) ->
  tf_block fault seed rt
  = (Ok tt, {| rng := <["tf.compat.v1.set_random_seed" := seed]>
                        (<["tf.random.set_seed" := seed]> (rng rt));
               flags := flags rt; environ := environ rt |}).
Proof.
  intros H. unfold tf_block, try_except, bind, call. rewrite !H. reflexivity.
Qed.

Lemma torch_block_clean (seed : Z) (rt : Runtime) :
  (forall fn, fault fn seed = None) ->
  torch_block fault seed rt
  = (Ok tt, {| rng := <["torch.cuda.manual_seed_all" := seed]>
                        (<["torch.cuda.manual_seed" := seed]>
                           (<["torch.manual_seed" := seed]> (rng rt)));
               flags := <["torch.backends.cudnn.benchmark" := false]>
                          (<["torch.backends.cudnn.deterministic" := true]> (flags rt));
               environ := environ rt |}).
Proof.
  intros H. unfold torch_block, try_except, bind, call, assign. rewrite !H. reflexivity.
Qed.

(** The TensorFlow block touches nothing but its own two generators. *)
Lemma tf_block_frame (seed : Z) (rt rt' : Runtime) (r : res unit) :
  tf_block fault seed rt = (r, rt') ->
  flags rt' = flags rt /\ environ rt' = environ rt
  /\ forall g, ~ In g tf_generators -> rng rt' !! g = rng rt !! g.
Proof.
  unfold tf_block, try_except, bind, call, raise, ret, seed_rng, modify, tf_generators.
  destruct (fault "tf.random.set_seed" seed);
    [| destruct (fault "tf.compat.v1.set_random_seed" seed)];
    intros [= _ <-]; cbn [rng flags environ]; repeat split; intros g Hg;
    cbn [In] in Hg; rewrite ?lookup_insert_ne by intuition; reflexivity.
Qed.

(** X13.  When no call into TensorFlow or PyTorch fails, [set_random_seed]
    on a seed numpy takes seeds all seven generators with that seed, sets
    cuDNN to deterministic and its benchmark mode off, and sets
    [PYTHONHASHSEED] to the seed and [TF_DETERMINISTIC_OPS] to [1]. *)
Theorem set_random_seed_seeds_all (seed : Z) (rt : Runtime) :
  (0 <= seed <= 2 ^ 32 - 1)%Z ->
  (forall fn, fault fn seed = None) ->
  exists rt',
    set_random_seed fault seed rt = (Ok tt, rt')
    /\ Forall (fun g => rng rt' !! g = Some seed) generators
    /\ flags rt' !! "torch.backends.cudnn.deterministic" = Some true
    /\ flags rt' !! "torch.backends.cudnn.benchmark" = Some false
    /\ environ rt' !! "PYTHONHASHSEED" = Some (str_int seed)
    /\ environ rt' !! "TF_DETERMINISTIC_OPS" = Some "1".
Proof.
  intros Hin Hclean.
  destruct (set_random_seed_steps seed rt Hin) as (rta & rtb & Ea & Eb & -> & _ & _).
  rewrite tf_block_clean in Ea by exact Hclean. injection Ea as <-.
  rewrite torch_block_clean in Eb by exact Hclean. injection Eb as <-.
  eexists. split; [reflexivity |]. cbn [rng flags environ].
  split; [| repeat split; lookups].
  unfold generators, tf_generators, torch_generators. cbn [app].
  repeat constructor; lookups.
Qed.

(** X14.  When [torch.manual_seed] raises, the rest of the PyTorch block is
    skipped without a word: [set_random_seed] still returns and sets the
    environment, but no PyTorch generator is seeded and the cuDNN flags are
    left as they were. *)
Theorem torch_failure_skips_cudnn (seed : Z) (rt : Runtime) (e : exn) :
  (0 <= seed <= 2 ^ 32 - 1)%Z ->
  fault "torch.manual_seed" seed = Some e ->
  exists rt',
    set_random_seed fault seed rt = (Ok tt, rt')
    /\ flags rt' = flags rt
    /\ Forall (fun g => rng rt' !! g = rng rt !! g) torch_generators
    /\ rng rt' !! "random" = Some seed
    /\ rng rt' !! "np.random" = Some seed
    /\ environ rt' !! "PYTHONHASHSEED" = Some (str_int seed)
    /\ environ rt' !! "TF_DETERMINISTIC_OPS" = Some "1".
Proof.
  intros Hin Hfail.
  destruct (set_random_seed_steps seed rt Hin) as (rta & rtb & Ea & Eb & -> & _ & _).
  apply tf_block_frame in Ea as (Fa & Va & Ra). cbn [rng flags environ] in Fa, Va, Ra.
  assert (Eb' : torch_block fault seed rta = (Ok tt, rta)).
  { unfold torch_block, try_except, bind, call. rewrite Hfail. reflexivity. }
  rewrite Eb' in Eb. injection Eb as <-.
  eexists. split; [reflexivity |]. cbn [rng flags environ].
  split; [exact Fa |].
  assert (Hkeep : forall g, ~ In g tf_generators -> g <> "random" -> g <> "np.random" ->
                            rng rta !! g = rng rt !! g).
  { intros g Hg H1 H2. rewrite Ra by exact Hg.
    rewrite !lookup_insert_ne by congruence. reflexivity. }
  split.
  { unfold torch_generators. repeat constructor; apply Hkeep;
      unfold tf_generators; cbn [In]; intuition discriminate. }
  split.
  { rewrite Ra by (unfold tf_generators; cbn [In]; intuition discriminate). lookups. }
  split.
  { rewrite Ra by (unfold tf_generators; cbn [In]; intuition discriminate). lookups. }
  split; lookups.
Qed.

(** X15.  [set_torch_seed] and [set_tensorflow_seed] return for every seed,
    whatever the library does, and leave the environment and the seeds of
    [random] and [np.random] alone; [set_torch_seed] never sets the cuDNN
    benchmark flag, and [set_tensorflow_seed] sets no flag.  [set_numpy_seed]
    raises exactly outside [0, 2^32 - 1], and then changes nothing. *)
Theorem single_library_setters (seed : Z) (rt : Runtime) :
  (exists rt',
     set_torch_seed fault seed rt = (Ok tt, rt')
     /\ keeps rt rt'
     /\ flags rt' !! "torch.backends.cudnn.benchmark"
        = flags rt !! "torch.backends.cudnn.benchmark")
  /\ (exists rt',
        set_tensorflow_seed fault seed rt = (Ok tt, rt')
        /\ keeps rt rt' /\ flags rt' = flags rt)
  /\ (raises (fst (set_numpy_seed seed rt)) = true <-> ~ (0 <= seed <= 2 ^ 32 - 1)%Z)
  /\ (raises (fst (set_numpy_seed seed rt)) = true -> snd (set_numpy_seed seed rt) = rt).
Proof.
  split; [| split; [| split]].
  - assert (Ht : total (set_torch_seed fault seed))
      by (apply total_try_except; intros; apply total_ret).
    assert (Hp : preserving (set_torch_seed fault seed)).
    { apply preserving_try_except; [| intros; apply preserving_ret].
      repeat (apply preserving_bind; [| intros _]);
        first [ apply preserving_assign | apply preserving_call; discriminate ]. }
    destruct (Ht rt) as ([] & rt' & E). exists rt'. split; [exact E |].
    specialize (Hp rt). rewrite E in Hp. split; [exact Hp |].
    revert E.
    unfold set_torch_seed, try_except, bind, call, assign, raise, ret, seed_rng,
      set_flag, modify.
    repeat (match goal with |- context [fault ?fn seed] => destruct (fault fn seed) end);
      intros [= <-]; cbn [flags]; lookups.
  - change (set_tensorflow_seed fault seed) with (tf_block fault seed).
    destruct (tf_block_skips fault seed rt) as (rt' & E & K).
    exists rt'. split; [exact E |]. split; [exact K |].
    apply tf_block_frame in E as [F _]. exact F.
  - unfold set_numpy_seed, np_random_seed. split.
    + intros Hr Hin. rewrite (in_range_test seed Hin) in Hr. discriminate Hr.
    + intros Hout. rewrite (out_of_range_test seed Hout). reflexivity.
  - unfold set_numpy_seed, np_random_seed.
    destruct ((0 <=? seed)%Z && (seed <=? 2 ^ 32 - 1)%Z); [discriminate | reflexivity].
Qed.

(** *** The seed manager *)

Variable hash : string -> Z.

Lemma set_seed_run (seed : Z) (p : Process) (self : SeedManagerObj) :
  _instance p = Some self ->
  set_seed fault seed p
  = (fst (set_random_seed fault seed (Seeding.runtime p)),
     {| _instance := Some {| _seed := seed; _experiment_seeds := _experiment_seeds self |};
        Seeding.runtime := snd (set_random_seed fault seed (Seeding.runtime p));
        hash_calls := hash_calls p |}).
Proof.
  intros H. unfold set_seed, with_self. rewrite H.
  unfold bind, put_self, modify, Seeding.on_runtime. cbn [Seeding.runtime _instance hash_calls].
  destruct (set_random_seed fault seed (Seeding.runtime p)) as [[[] | e] rt']; reflexivity.
Qed.

Lemma reset_run (p : Process) (self : SeedManagerObj) :
  _instance p = Some self ->
  reset fault p
  = (fst (set_random_seed fault 42 (Seeding.runtime p)),
     {| _instance := Some blank;
        Seeding.runtime := snd (set_random_seed fault 42 (Seeding.runtime p));
        hash_calls := hash_calls p |}).
Proof.
  intros H. unfold reset, with_self. rewrite H.
  unfold bind, put_self, modify, Seeding.on_runtime. cbn [Seeding.runtime _instance hash_calls].
  destruct (set_random_seed fault 42 (Seeding.runtime p)) as [[[] | e] rt']; reflexivity.
Qed.

(** X16.  [set_seed] stores the seed before it seeds the libraries: for a
    seed outside [0, 2^32 - 1] the call raises [ValueError], and yet the
    manager then reports that seed as the current one; the experiment
    seeds are as they were. *)
Theorem set_seed_stores_before_seeding (seed : Z) (p : Process) (self : SeedManagerObj) :
  _instance p = Some self ->
  ~ (0 <= seed <= 2 ^ 32 - 1)%Z ->
  exists p',
    set_seed fault seed p
    = (Raise (ValueError "Seed must be between 0 and 2**32 - 1"), p')
    /\ get_seed p' = (Ok seed, p')
    /\ _instance p'
       = Some {| _seed := seed; _experiment_seeds := _experiment_seeds self |}.
Proof.
  intros H Hout. rewrite (set_seed_run seed p self H).
  rewrite (set_random_seed_refused seed (Seeding.runtime p) Hout). cbn [fst snd].
  eexists. split; [reflexivity |]. split; [| reflexivity].
  reflexivity.
Qed.

(** X17.  [set_seed] with a seed numpy takes returns, and leaves the stored
    experiment seeds as they were, derived from the old base seed; the
    next [get_experiment_seed] of any name hands back the seed derived
    from the new base seed and stores it in place of the old one. *)
Theorem set_seed_then_lookup (seed : Z) (p : Process) (self : SeedManagerObj) :
  _instance p = Some self ->
  (0 <= seed <= 2 ^ 32 - 1)%Z ->
  exists p1,
    set_seed fault seed p = (Ok tt, p1)
    /\ _instance p1
       = Some {| _seed := seed; _experiment_seeds := _experiment_seeds self |}
    /\ get_seed p1 = (Ok seed, p1)
    /\ forall name,
         let v := (hash (name ++ "_" ++ str_int seed) mod (2 ^ 32 - 1))%Z in
         exists p2,
           get_experiment_seed hash name p1 = (Ok v, p2)
           /\ _instance p2
              = Some {| _seed := seed;
                        _experiment_seeds := <[name := v]> (_experiment_seeds self) |}.
Proof.
  intros H Hin. rewrite (set_seed_run seed p self H).
  destruct (set_random_seed_steps seed (Seeding.runtime p) Hin) as (rta & rtb & _ & _ & -> & _ & _).
  cbn [fst snd]. eexists. split; [reflexivity |]. split; [reflexivity |].
  split; [reflexivity |].
  intros name. cbv zeta. eexists.
  erewrite get_experiment_seed_run by reflexivity.
  split; reflexivity.
Qed.

(** X18.  [reset] cannot raise: it puts the manager back to seed 42 with no
    experiment seeds, seeds the libraries with 42 and sets [PYTHONHASHSEED]
    to [42]. *)
Theorem reset_restores_defaults (p : Process) (self : SeedManagerObj) :
  _instance p = Some self ->
  exists p',
    reset fault p = (Ok tt, p')
    /\ _instance p' = Some blank
    /\ get_seed p' = (Ok 42%Z, p')
    /\ rng (Seeding.runtime p') !! "random" = Some 42%Z
    /\ rng (Seeding.runtime p') !! "np.random" = Some 42%Z
    /\ environ (Seeding.runtime p') !! "PYTHONHASHSEED" = Some "42"
    /\ hash_calls p' = hash_calls p.
Proof.
  intros H. rewrite (reset_run p self H).
  assert (Hin : (0 <= 42 <= 2 ^ 32 - 1)%Z) by lia.
  destruct (set_random_seed_steps 42 (Seeding.runtime p) Hin)
    as (rta & rtb & _ & _ & E & R & N).
  rewrite E. cbn [fst snd]. eexists. split; [reflexivity |].
  cbn [_instance Seeding.runtime hash_calls rng environ].
  split; [reflexivity |]. split; [reflexivity |].
  split; [exact R |]. split; [exact N |].
  split; [| reflexivity].
  rewrite lookup_insert_ne by discriminate. apply lookup_insert_eq.
Qed.

End Seeds.

Lemma set_random_seed_stops_at_numpy_witness :
  set_random_seed Examples.no_fault (2 ^ 32) Examples.rt0
  = (Raise (ValueError "Seed must be between 0 and 2**32 - 1"),
     {| rng := <["random" := (2 ^ 32)%Z]> ∅; flags := ∅; environ := ∅ |}).
Proof.
  apply (set_random_seed_stops_at_numpy Examples.no_fault (2 ^ 32) Examples.rt0). lia.
Defined.

Lemma set_random_seed_seeds_all_witness :
  exists rt',
    set_random_seed Examples.no_fault 42 Examples.rt0 = (Ok tt, rt')
    /\ rng rt' !! "torch.cuda.manual_seed_all" = Some 42%Z
    /\ flags rt' !! "torch.backends.cudnn.benchmark" = Some false.
Proof.
  destruct (set_random_seed_seeds_all Examples.no_fault 42 Examples.rt0)
    as (rt' & E & Hall & _ & Hb & _); [lia | reflexivity |].
  exists rt'. split; [exact E |]. split; [| exact Hb].
  unfold generators, tf_generators, torch_generators in Hall. cbn [app] in Hall.
  do 6 apply Forall_inv_tail in Hall. apply Forall_inv in Hall. exact Hall.
Defined.

Lemma torch_failure_skips_cudnn_witness :
  exists rt',
    set_random_seed MoreExamples.torch_broken 42 Examples.rt0 = (Ok tt, rt')
    /\ flags rt' = ∅.
Proof.
  destruct (torch_failure_skips_cudnn MoreExamples.torch_broken 42 Examples.rt0
              (RuntimeError "CUDA error")) as (rt' & E & F & _); [lia | reflexivity |].
  exists rt'. split; [exact E | exact F].
Defined.

Lemma set_seed_stores_before_seeding_witness :
  exists p',
    set_seed Examples.no_fault (-1) (snd (SeedManager fresh))
    = (Raise (ValueError "Seed must be between 0 and 2**32 - 1"), p')
    /\ get_seed p' = (Ok (-1)%Z, p').
Proof.
  destruct (set_seed_stores_before_seeding Examples.no_fault (-1)
              (snd (SeedManager fresh)) blank eq_refl) as (p' & E & G & _); [lia |].
  exists p'. split; [exact E | exact G].
Defined.

Lemma set_seed_then_lookup_witness :
  exists p1,
    set_seed Examples.no_fault 7 (snd (SeedManager fresh)) = (Ok tt, p1)
    /\ fst (get_experiment_seed Examples.toy_hash "x" p1) = Ok 3000002%Z.
Proof.
  destruct (set_seed_then_lookup Examples.no_fault Examples.toy_hash 7
              (snd (SeedManager fresh)) blank eq_refl) as (p1 & E & _ & _ & L); [lia |].
  exists p1. split; [exact E |].
  destruct (L "x") as (p2 & -> & _). reflexivity.
Defined.

Lemma reset_restores_defaults_witness :
  exists p',
    reset Examples.no_fault
      (snd (set_seed Examples.no_fault 7 (snd (SeedManager fresh)))) = (Ok tt, p')
    /\ _instance p' = Some blank.
Proof.
  destruct (reset_restores_defaults Examples.no_fault
              (snd (set_seed Examples.no_fault 7 (snd (SeedManager fresh))))
              {| _seed := 7; _experiment_seeds := ∅ |} eq_refl) as (p' & E & I & _).
  exists p'. split; [exact E | exact I].
Defined.

(** *** The environment report *)

Section Environment.

Variable fault : string -> Z -> option exn.
Variable fraction : Type.
Variable truthy : fraction -> bool.
Variable memory_limit_of : fraction -> res Z.
Variable str_fraction : fraction -> string.
Variable cuda_available : bool.
Variable numpy_version : string.
Variable physical_gpus : res (list string).
Variable device_fault : string -> option exn.

Abbreviation configure_gpus := (configure_gpus memory_limit_of device_fault).
Abbreviation configure_memory :=
  (configure_memory truthy memory_limit_of physical_gpus device_fault).
Abbreviation print_report := (print_report str_fraction).
Abbreviation configure_environment :=
  (configure_environment fault truthy memory_limit_of str_fraction cuda_available
     numpy_version physical_gpus device_fault).
Abbreviation expected_limit :=
  (expected_limit truthy memory_limit_of physical_gpus device_fault).
Abbreviation report_lines := (report_lines str_fraction).

(** What the loop over the GPUs can do to a frame in which the limit is
    already recorded: set more limits, nothing else. *)
Lemma configure_gpus_frame (gpus : list string) (fr : fraction) :
  forall (f f' : Frame fraction) (r : res unit),
    gpu_memory_limit (config f) = Some fr ->
    configure_gpus gpus fr f = (r, f') ->
    runtime f' = runtime f /\ printed f' = printed f /\ config f' = config f.
Proof.
  induction gpus as [| gpu rest IH]; intros f f' r Hlim.
  - intros [= _ <-]. repeat split.
  - cbn [SeedingMore.configure_gpus]. unfold bind at 1, set_logical_device_configuration.
    destruct (memory_limit_of fr) as [limit | e]; [| intros [= _ <-]; repeat split].
    destruct (device_fault gpu) as [e |]; [intros [= _ <-]; repeat split |].
    unfold bind at 1, record_limit, modify. intros E.
    apply IH in E as (R & P & C); [| reflexivity].
    cbn [runtime printed config] in R, P, C.
    split; [exact R |]. split; [exact P |]. rewrite C.
    destruct (config f) as [s g v l]. cbn [gpu_memory_limit] in Hlim. subst l. reflexivity.
Qed.

Lemma configure_memory_run (gpu_memory_fraction : option fraction) (f : Frame fraction) :
  gpu_memory_limit (config f) = None ->
  exists f',
    configure_memory gpu_memory_fraction f = (Ok tt, f')
    /\ runtime f' = runtime f /\ printed f' = printed f
    /\ report_seed (config f') = report_seed (config f)
    /\ gpu_enabled (config f') = gpu_enabled (config f)
    /\ report_numpy_version (config f') = report_numpy_version (config f)
    /\ gpu_memory_limit (config f') = expected_limit gpu_memory_fraction.
Proof.
  intros Hnone.
  assert (Hsame : exists f', (Ok tt, f) = (Ok tt, f')
            /\ runtime f' = runtime f /\ printed f' = printed f
            /\ report_seed (config f') = report_seed (config f)
            /\ gpu_enabled (config f') = gpu_enabled (config f)
            /\ report_numpy_version (config f') = report_numpy_version (config f)
            /\ gpu_memory_limit (config f') = None)
    by (exists f; repeat split; exact Hnone).
  unfold SeedingMore.configure_memory, SeedingMore.expected_limit, try_except, bind,
    lift_res, wants_limit.
  destruct physical_gpus as [[| gpu rest] | e]; try exact Hsame.
  destruct gpu_memory_fraction as [fr |]; [| exact Hsame].
  destruct (truthy fr); [| exact Hsame].
  cbn [SeedingMore.configure_gpus]. unfold bind at 1, set_logical_device_configuration.
  destruct (memory_limit_of fr) as [limit | e]; [| exact Hsame].
  destruct (device_fault gpu) as [e |]; [exact Hsame |].
  unfold bind at 1, record_limit, modify, ret.
  match goal with |- context [configure_gpus rest fr ?g] =>
    destruct (configure_gpus rest fr g) as [r f'] eqn:E end.
  apply configure_gpus_frame in E as (R & P & C); [| reflexivity].
  cbn [runtime printed config] in R, P, C.
  exists f'. split; [destruct r as [[] | e]; reflexivity |].
  rewrite R, P, C. repeat split.
Qed.

Lemma print_report_run (seed : Z) (verbose : bool) (f : Frame fraction) :
  report_seed (config f) = seed ->
  exists f',
    print_report seed verbose f = (Ok tt, f')
    /\ runtime f' = runtime f /\ memory_limits f' = memory_limits f
    /\ config f' = config f
    /\ printed f' = (printed f ++ if verbose then report_lines (config f) else [])%list.
Proof.
  intros <-. unfold SeedingMore.print_report, SeedingMore.report_lines.
  destruct verbose; cbn [when].
  - unfold bind, SeedingMore.print, modify, gets, ret. cbn [config printed].
    destruct (gpu_memory_limit (config f)); eexists; (split; [reflexivity |]);
      cbn [runtime memory_limits config printed]; repeat split;
      rewrite <- ?app_assoc; reflexivity.
  - exists f. unfold ret. rewrite app_nil_r. repeat split.
Qed.

(** [configure_environment] on a seed numpy takes. *)
Lemma configure_environment_run (seed : Z) (gpu_memory_fraction : option fraction)
    (verbose : bool) (f : Frame fraction) :
  (0 <= seed <= 2 ^ 32 - 1)%Z ->
  exists cfg f',
    configure_environment seed gpu_memory_fraction verbose f = (Ok cfg, f')
    /\ report_seed cfg = seed
    /\ gpu_enabled cfg = cuda_available
    /\ report_numpy_version cfg = numpy_version
    /\ gpu_memory_limit cfg = expected_limit gpu_memory_fraction
    /\ printed f' = (printed f ++ if verbose then report_lines cfg else [])%list
    /\ runtime f' = snd (set_random_seed fault seed (runtime f)).
Proof.
  intros Hin. unfold SeedingMore.configure_environment.
  unfold bind at 1, modify. unfold bind at 1, SeedingMore.on_runtime.
  cbn [runtime memory_limits printed config].
  destruct (set_random_seed_steps fault seed (runtime f) Hin)
    as (rta & rtb & _ & _ & E & _ & _).
  rewrite E. cbn [snd]. unfold bind at 1.
  match goal with |- context [configure_memory gpu_memory_fraction ?g] =>
    destruct (configure_memory_run gpu_memory_fraction g eq_refl)
      as (f1 & -> & R1 & P1 & S1 & G1 & V1 & L1) end.
  cbn [runtime printed config report_seed gpu_enabled report_numpy_version] in *.
  unfold bind at 1.
  destruct (print_report_run seed verbose f1 S1) as (f2 & -> & R2 & _ & C2 & P2).
  unfold gets. eexists _, _. split; [reflexivity |].
  rewrite C2, P2, P1, R2, R1. repeat split; assumption.
Qed.

(** X19.  [configure_environment] raises exactly when the seed is outside
    [0, 2^32 - 1], with the [ValueError] of [np.random.seed] and before
    anything is printed or any GPU configured; otherwise it returns a
    report holding the seed it was given, the CUDA flag and the numpy
    version, whatever [gpu_memory_fraction] and [verbose] are and whatever
    the GPU configuration does. *)
Theorem configure_environment_outcome (seed : Z) (gpu_memory_fraction : option fraction)
    (verbose : bool) (f : Frame fraction) :
  (~ (0 <= seed <= 2 ^ 32 - 1)%Z ->
   exists f',
     configure_environment seed gpu_memory_fraction verbose f
     = (Raise (ValueError "Seed must be between 0 and 2**32 - 1"), f')
     /\ printed f' = printed f /\ memory_limits f' = memory_limits f)
  /\ ((0 <= seed <= 2 ^ 32 - 1)%Z ->
      exists cfg f',
        configure_environment seed gpu_memory_fraction verbose f = (Ok cfg, f')
        /\ report_seed cfg = seed
        /\ gpu_enabled cfg = cuda_available
        /\ report_numpy_version cfg = numpy_version).
Proof.
  split.
  - intros Hout. unfold SeedingMore.configure_environment.
    unfold bind at 1, modify. unfold bind at 1, SeedingMore.on_runtime.
    cbn [runtime memory_limits printed config].
    rewrite (set_random_seed_refused fault seed (runtime f) Hout).
    eexists. split; [reflexivity |]. split; reflexivity.
  - intros Hin.
    destruct (configure_environment_run seed gpu_memory_fraction verbose f Hin)
      as (cfg & f' & E & S & G & V & _).
    exists cfg, f'. repeat split; assumption.
Qed.

(** X20.  The report of [configure_environment] carries [gpu_memory_limit]
    exactly when TensorFlow lists at least one GPU, a fraction is given and
    is not zero, and the configuration of the first GPU goes through: a
    failure on a later GPU is swallowed and leaves the key in the report. *)
Theorem memory_limit_reported (seed : Z) (gpu_memory_fraction : option fraction)
    (verbose : bool) (f : Frame fraction) :
  (0 <= seed <= 2 ^ 32 - 1)%Z ->
  exists cfg f',
    configure_environment seed gpu_memory_fraction verbose f = (Ok cfg, f')
    /\ gpu_memory_limit cfg = expected_limit gpu_memory_fraction.
Proof.
  intros Hin.
  destruct (configure_environment_run seed gpu_memory_fraction verbose f Hin)
    as (cfg & f' & E & _ & _ & _ & L & _).
  exists cfg, f'. split; assumption.
Qed.

(** X21.  With [verbose=False] [configure_environment] prints nothing; with
    [verbose=True] it prints the header, the seed, the CUDA flag, the
    memory fraction when the report carries one, and the numpy version, in
    this order: four lines, or five. *)
Theorem report_printed (seed : Z) (gpu_memory_fraction : option fraction)
    (verbose : bool) (f : Frame fraction) :
  (0 <= seed <= 2 ^ 32 - 1)%Z ->
  exists cfg f',
    configure_environment seed gpu_memory_fraction verbose f = (Ok cfg, f')
    /\ printed f' = (printed f ++ if verbose then report_lines cfg else [])%list
    /\ length (report_lines cfg)
       = match gpu_memory_limit cfg with Some _ => 5 | None => 4 end.
Proof.
  intros Hin.
  destruct (configure_environment_run seed gpu_memory_fraction verbose f Hin)
    as (cfg & f' & E & _ & _ & _ & _ & P & _).
  exists cfg, f'. split; [exact E |]. split; [exact P |].
  unfold SeedingMore.report_lines. destruct (gpu_memory_limit cfg); reflexivity.
Qed.

End Environment.

Lemma memory_limit_reported_witness :
  exists cfg f',
    configure_environment Examples.no_fault MoreExamples.nonzero
      MoreExamples.limit_1024ths MoreExamples.str_1024ths true "1.26.4"
      MoreExamples.two_gpus MoreExamples.second_gpu_fails 42 (Some 512%Z) false
      (frame0 Z Examples.rt0) = (Ok cfg, f')
    /\ gpu_memory_limit cfg = Some 512%Z.
Proof.
  apply (memory_limit_reported Examples.no_fault Z MoreExamples.nonzero
           MoreExamples.limit_1024ths MoreExamples.str_1024ths true "1.26.4"
           MoreExamples.two_gpus MoreExamples.second_gpu_fails 42 (Some 512%Z) false
           (frame0 Z Examples.rt0)).
  lia.
Defined.

Lemma report_printed_witness :
  exists cfg f',
    configure_environment Examples.no_fault MoreExamples.nonzero
      MoreExamples.limit_1024ths MoreExamples.str_1024ths true "1.26.4"
      MoreExamples.two_gpus MoreExamples.second_gpu_fails 42 None true
      (frame0 Z Examples.rt0) = (Ok cfg, f')
    /\ printed f' = ([] ++ report_lines MoreExamples.str_1024ths cfg)%list
    /\ length (report_lines MoreExamples.str_1024ths cfg)
       = match gpu_memory_limit cfg with Some _ => 5 | None => 4 end.
Proof.
  apply (report_printed Examples.no_fault Z MoreExamples.nonzero
           MoreExamples.limit_1024ths MoreExamples.str_1024ths true "1.26.4"
           MoreExamples.two_gpus MoreExamples.second_gpu_fails 42 None true
           (frame0 Z Examples.rt0)).
  lia.
Defined.

Lemma configure_environment_outcome_witness :
  exists cfg f',
    configure_environment Examples.no_fault MoreExamples.nonzero
      MoreExamples.limit_1024ths MoreExamples.str_1024ths true "1.26.4"
      MoreExamples.two_gpus MoreExamples.second_gpu_fails 42 None false
      (frame0 Z Examples.rt0) = (Ok cfg, f')
    /\ report_seed cfg = 42%Z
    /\ gpu_enabled cfg = true
    /\ report_numpy_version cfg = "1.26.4".
Proof.
  apply (configure_environment_outcome Examples.no_fault Z MoreExamples.nonzero
           MoreExamples.limit_1024ths MoreExamples.str_1024ths true "1.26.4"
           MoreExamples.two_gpus MoreExamples.second_gpu_fails 42 None false
           (frame0 Z Examples.rt0)).
  lia.
Defined.

End SeedingProps.

(** ** download_data.py: one download, and the batch *)

Module DownloadProps.
Import Py Sys Download Views Frames PyFacts DownloadSpec Notations.

(** *** Parts of the world that statements leave alone *)

Section Unchanged.

Context {B : Type} (part : World -> B).

Lemma unchanged_ret {A} (a : A) : unchanged part (ret a).
Proof. intros w r w' [= _ <-]. reflexivity. Qed.

Lemma unchanged_bind {A C} (m : M World A) (k : A -> M World C) :
  unchanged part m -> (forall a, unchanged part (k a)) -> unchanged part (bind m k).
Proof.
  intros Hm Hk w r w'. unfold bind.
  destruct (m w) as [[a | e] w1] eqn:E.
  - intros Ek. rewrite (Hk a _ _ _ Ek). exact (Hm _ _ _ E).
  - intros [= _ <-]. exact (Hm _ _ _ E).
Qed.

Lemma unchanged_try_except {A} (body : M World A) (handler : exn -> M World A) :
  unchanged part body -> (forall e, unchanged part (handler e)) ->
  unchanged part (try_except body handler).
Proof.
  intros Hb Hh w r w'. unfold try_except.
  destruct (body w) as [[a | e] w1] eqn:E.
  - intros [= _ <-]. exact (Hb _ _ _ E).
  - intros Eh. rewrite (Hh e _ _ _ Eh). exact (Hb _ _ _ E).
Qed.

Lemma unchanged_when (guard : bool) (stmt : M World unit) :
  unchanged part stmt -> unchanged part (when guard stmt).
Proof. intros H. destruct guard; [exact H | apply unchanged_ret]. Qed.

Lemma unchanged_if_logger (self : StockDataDownloader)
    (stmt : Logger.DataLogger -> M World unit) :
  (forall lg, unchanged part (stmt lg)) -> unchanged part (if_logger self stmt).
Proof.
  intros H. unfold if_logger. destruct (logger self); [apply H | apply unchanged_ret].
Qed.

Lemma unchanged_modify (f : World -> World) :
  (forall w, part (f w) = part w) -> unchanged part (modify f).
Proof. intros H w r w' [= _ <-]. apply H. Qed.

Lemma unchanged_lift_res {A} (r : res A) : unchanged part (lift_res r).
Proof. intros w r' w' [= _ <-]. reflexivity. Qed.

End Unchanged.

(** Logging changes the log and nothing else. *)
Lemma log_record_only_logs {B} (part : World -> B) (nm : string) (l : level) (msg : string) :
  (forall f w, part (set_log f w) = part w) ->
  unchanged part (Logger.log_record nm l msg).
Proof.
  intros H. apply unchanged_modify. intros w. cbv zeta.
  destruct (levelno (llevel (Logger.getLogger nm w)) <=? levelno l)%nat; [apply H | reflexivity].
Qed.

(** The file system statements change the files, and [datetime.now()] the
    clock. *)
Lemma makedirs_only_files {B} (part : World -> B) (env : Env) (dir : string) :
  (forall f w, part (set_files f w) = part w) -> unchanged part (makedirs env dir).
Proof.
  intros H w r w'. unfold makedirs.
  destruct (makedirs_fault env dir); [intros [= _ <-]; reflexivity |].
  destruct (files w !! abspath env dir) as [[| c] |]; intros [= _ <-];
    first [apply H | reflexivity].
Qed.

Lemma write_file_only_files {B} (part : World -> B) (env : Env) (path : string)
    (c : content) :
  (forall f w, part (set_files f w) = part w) -> unchanged part (write_file env path c).
Proof.
  intros H w r w'. unfold write_file.
  destruct (write_fault env path); [intros [= _ <-]; reflexivity |].
  destruct (files w !! path) as [[| c0] |]; intros [= _ <-];
    first [apply H | reflexivity].
Qed.

Lemma generate_filename_only_clock {B} (part : World -> B) (env : Env)
    (ticker period : string) (filename : option string) :
  (forall w, part {| files := files w; clock := S (clock w); requests := requests w;
                     loggers := loggers w; log := log w; stdout := stdout w |} = part w) ->
  unchanged part (IO.generate_filename env ticker period filename).
Proof.
  intros H w r w'. destruct filename as [custom |]; intros [= _ <-];
    [reflexivity | apply H].
Qed.

Lemma save_dataframe_to_csv_beside {B} (part : World -> B) (env : Env) (df : DataFrame)
    (ticker period dir : string) (filename : option string) (ff dfmt : string) :
  beside_disk part ->
  unchanged part (IO.save_dataframe_to_csv env df ticker period dir filename ff dfmt).
Proof.
  intros [Hf Hc]. unfold IO.save_dataframe_to_csv, IO.create_output_directory, IO.to_csv.
  repeat (apply unchanged_bind; [| intros]);
    first [ apply makedirs_only_files; exact Hf
          | apply write_file_only_files; exact Hf
          | apply generate_filename_only_clock; exact Hc
          | apply unchanged_ret
          | idtac ].
  destruct (IO.index_named df); [apply unchanged_lift_res | apply unchanged_ret].
Qed.

Lemma save_multiple_stocks_to_excel_beside {B} (part : World -> B) (env : Env)
    (stocks : list (string * DataFrame)) (filename dir : string) :
  beside_disk part ->
  unchanged part (IO.save_multiple_stocks_to_excel env stocks filename dir).
Proof.
  intros [Hf Hc]. unfold IO.save_multiple_stocks_to_excel, IO.create_output_directory.
  repeat (apply unchanged_bind; [| intros]);
    first [ apply makedirs_only_files; exact Hf
          | apply write_file_only_files; exact Hf
          | apply unchanged_ret ].
Qed.

(** *** One download *)

Section Parts.

Context {B : Type} (part : World -> B) (after_fetch : B -> B).
Variable env : Env.
Variable self : StockDataDownloader.

Hypothesis part_disk : beside_disk part.
Hypothesis part_fetch : forall w, part (tick_requests w) = after_fetch (part w).
Hypothesis part_log :
  forall lg, logger self = Some lg ->
    forall nm l msg, unchanged part (Logger.log_record nm l msg).
Hypothesis part_print :
  logger self = None -> forall line, unchanged part (print line).

Lemma if_logger_part (stmt : Logger.DataLogger -> M World unit) :
  (forall lg, logger self = Some lg -> unchanged part (stmt lg)) ->
  unchanged part (if_logger self stmt).
Proof.
  intros H. unfold if_logger. destruct (logger self) as [lg |] eqn:E;
    [apply (H lg eq_refl) | apply unchanged_ret].
Qed.

Lemma handler_part (ticker : string) (e : exn) :
  unchanged part
    (match logger self with
     | Some lg => Logger.log_download_error env lg ticker (str_exn e)
     | None => print ("Error downloading " ++ ticker ++ ": " ++ str_exn e)
     end ;;; ret (@None DataFrame)).
Proof.
  apply unchanged_bind; [| intros; apply unchanged_ret].
  destruct (logger self) as [lg |].
  - apply (part_log lg eq_refl).
  - apply (part_print eq_refl).
Qed.

(** After [download_single_stock] the part is what one fetch makes of it:
    nothing else in the call touches it. *)
Lemma download_single_stock_part (ticker period interval : string)
    (filename : option string) (w : World) (r : res (option DataFrame)) (w' : World) :
  download_single_stock env self ticker period interval filename w = (r, w') ->
  part w' = after_fetch (part w).
Proof.
  unfold download_single_stock, try_except, download_single_stock_body.
  unfold bind at 1.
  destruct (if_logger self _ w) as [[[] | e0] wa] eqn:Ea.
  2: { exfalso.
       destruct (log_start_frame env self ticker period interval w) as (wx & Hx & _).
       rewrite Hx in Ea. discriminate Ea. }
  assert (Hwa : part wa = part w).
  { revert Ea. apply if_logger_part. intros lg Hlg. apply (part_log lg Hlg). }
  unfold bind at 1, fetch_history.
  assert (Hk : forall df, unchanged part
            (if empty df
             then if_logger self (fun lg =>
                    Logger.warning env lg ("No data found for " ++ ticker)) ;;;
                  ret (@None DataFrame)
             else filepath <- IO.save_dataframe_to_csv env df ticker period (output_dir self)
                                filename IO.default_float_format IO.default_date_format ;;
                  if_logger self (fun lg =>
                    Logger.log_download_complete env lg ticker (len df) filepath ;;;
                    Logger.log_data_stats env lg ticker (len df) (columns df)) ;;;
                  ret (Some df))).
  { intros df. destruct (empty df).
    - apply unchanged_bind; [| intros; apply unchanged_ret].
      apply if_logger_part. intros lg Hlg. apply (part_log lg Hlg).
    - apply unchanged_bind; [apply save_dataframe_to_csv_beside; exact part_disk |].
      intros path. apply unchanged_bind; [| intros; apply unchanged_ret].
      apply if_logger_part. intros lg Hlg.
      apply unchanged_bind; [| intros]; apply (part_log lg Hlg). }
  destruct (history env (requests wa) ticker period interval) as [df | e].
  - match goal with |- context [(if empty df then ?a else ?b) (tick_requests wa)] =>
      destruct ((if empty df then a else b) (tick_requests wa)) as [[o | e] w2] eqn:E2 end.
    + intros [= _ <-]. rewrite (Hk df _ _ _ E2), part_fetch, Hwa. reflexivity.
    + intros Eh. rewrite (handler_part ticker e _ _ _ Eh).
      rewrite (Hk df _ _ _ E2), part_fetch, Hwa. reflexivity.
  - intros Eh. rewrite (handler_part ticker e _ _ _ Eh), part_fetch, Hwa. reflexivity.
Qed.

End Parts.

Lemma print_only_stdout {B} (part : World -> B) (line : string) :
  (forall w, part {| files := files w; clock := clock w; requests := requests w;
                     loggers := loggers w; log := log w;
                     stdout := (stdout w ++ [line])%list |} = part w) ->
  unchanged part (print line).
Proof. intros H. apply unchanged_modify. exact H. Qed.

(** Each call of [download_single_stock] makes one request. *)
Lemma download_single_stock_requests (env : Env) (self : StockDataDownloader)
    (ticker period interval : string) (filename : option string)
    (w : World) (r : res (option DataFrame)) (w' : World) :
  download_single_stock env self ticker period interval filename w = (r, w') ->
  requests w' = S (requests w).
Proof.
  apply (download_single_stock_part requests S env self).
  - split; reflexivity.
  - reflexivity.
  - intros lg _ nm l msg. apply log_record_only_logs. reflexivity.
  - intros _ line. apply print_only_stdout. reflexivity.
Qed.

(** With a logger, [download_single_stock] prints nothing. *)
Lemma download_single_stock_silent (env : Env) (self : StockDataDownloader)
    (lg : Logger.DataLogger) (ticker period interval : string) (filename : option string)
    (w : World) (r : res (option DataFrame)) (w' : World) :
  logger self = Some lg ->
  download_single_stock env self ticker period interval filename w = (r, w') ->
  stdout w' = stdout w.
Proof.
  intros Hlg.
  apply (download_single_stock_part stdout (fun out => out) env self).
  - split; reflexivity.
  - reflexivity.
  - intros lg' _ nm l msg. apply log_record_only_logs. reflexivity.
  - intros Hnone. rewrite Hlg in Hnone. discriminate Hnone.
Qed.

(** Without a logger, [download_single_stock] logs nothing. *)
Lemma download_single_stock_unlogged (env : Env) (self : StockDataDownloader)
    (ticker period interval : string) (filename : option string)
    (w : World) (r : res (option DataFrame)) (w' : World) :
  logger self = None ->
  download_single_stock env self ticker period interval filename w = (r, w') ->
  log w' = log w.
Proof.
  intros Hnone.
  apply (download_single_stock_part log (fun l => l) env self).
  - split; reflexivity.
  - reflexivity.
  - intros lg Hlg. rewrite Hnone in Hlg. discriminate Hlg.
  - intros _ line. apply print_only_stdout. reflexivity.
Qed.

(** *** The batch *)

Lemma separator_requests (self : StockDataDownloader) :
  unchanged requests (if_logger self (fun lg => Logger.separator lg)).
Proof.
  apply unchanged_if_logger. intros lg. apply print_only_stdout. reflexivity.
Qed.

Lemma download_loop_requests (env : Env) (self : StockDataDownloader)
    (tickers : list string) (period interval : string) :
  forall results w r w',
    download_loop env self tickers period interval results w = (r, w') ->
    requests w' = length tickers + requests w.
Proof.
  induction tickers as [| t ts IH]; intros results w r w'.
  - intros [= _ <-]. reflexivity.
  - cbn [download_loop length]. unfold bind at 1.
    destruct (download_single_stock_total env self t period interval None w)
      as (o & w1 & E1).
    rewrite E1. apply download_single_stock_requests in E1.
    unfold bind at 1.
    destruct (separator_total self w1) as ([] & w2 & E2).
    rewrite E2. apply separator_requests in E2.
    intros E3. apply IH in E3. lia.
Qed.


(** X22.  When the fetch raises, [download_single_stock] returns [None] and
    raises nothing; one request was made and the files and the clock are as
    before.  With a logger the exception goes, after the start record, as an
    [ERROR] record "Download failed for {ticker}: {e}" to the console and the
    log file, and nothing is printed; without one the line "Error
    downloading {ticker}: {e}" is printed and nothing is logged. *)
Theorem fetch_failure_reported (env : Env) (self : StockDataDownloader)
    (ticker period interval : string) (filename : option string) (w : World) (e : exn) :
  history env (requests w) ticker period interval = Raise e ->
  exists w',
    download_single_stock env self ticker period interval filename w = (Ok None, w')
    /\ files w' = files w /\ clock w' = clock w /\ requests w' = S (requests w)
    /\ match logger self with
       | Some lg =>
           stdout w' = stdout w
           /\ forall path, wired lg path w ->
                log w' = (log w ++
                          [ (StreamHandler, start_record env lg ticker period interval);
                            (FileHandler path, start_record env lg ticker period interval);
                            (StreamHandler, error_record env lg ticker e);
                            (FileHandler path, error_record env lg ticker e) ])%list
       | None =>
           log w' = log w
           /\ stdout w' = (stdout w
                           ++ [("Error downloading " ++ ticker ++ ": " ++ str_exn e)%string])%list
       end.
Proof.
  intros Hfetch.
  unfold download_single_stock, try_except, download_single_stock_body, if_logger.
  destruct (logger self) as [lg |].
  - unfold bind at 1.
    destruct (total_log_record (Logger.name lg) INFO
                (message (start_record env lg ticker period interval)) w)
      as ([] & wa & Ea).
    unfold Logger.log_download_start, Logger.info. cbn [message start_record] in Ea.
    rewrite Ea.
    unfold bind at 1, fetch_history.
    assert (Hreq : requests wa = requests w).
    { unfold Logger.log_record, modify in Ea. injection Ea as <-.
      match goal with |- context [if ?b then _ else _] => destruct b end; reflexivity. }
    rewrite Hreq, Hfetch.
    unfold bind at 1.
    destruct (total_log_record (Logger.name lg) ERROR
                (message (error_record env lg ticker e)) (tick_requests wa))
      as ([] & wb & Eb).
    unfold Logger.log_download_error, Logger.error. cbn [message error_record] in Eb.
    rewrite Eb. exists wb. split; [reflexivity |].
    unfold Logger.log_record, modify in Ea, Eb.
    injection Ea as <-. injection Eb as <-.
    split; [| split; [| split; [| split]]].
    1-4: repeat (match goal with |- context [if ?b then _ else _] => destruct b end);
      reflexivity.
    intros path Hw. unfold wired in Hw.
    unfold Logger.getLogger in *. rewrite Hw.
    cbn [llevel handlers levelno Nat.leb List.filter hlevel map target].
    cbn [tick_requests set_log loggers log]. rewrite Hw.
    cbn [llevel handlers levelno Nat.leb List.filter hlevel map target].
    cbn [set_log log tick_requests]. rewrite <- app_assoc. reflexivity.
  - unfold bind at 1, ret at 1. unfold bind at 1, fetch_history.
    rewrite Hfetch.
    unfold bind, ret, print, modify. eexists. split; [reflexivity |].
    repeat split.
Qed.

Lemma fetch_failure_reported_witness :
  (exists w',
     download_single_stock MoreExamples.env_down Examples.chatty "AAPL" "1y" "1d" None
       Examples.w1 = (Ok None, w')
     /\ files w' = files Examples.w1
     /\ map (fun entry => (fst entry, lvl (snd entry))) (log w')
        = [ (StreamHandler, INFO);
            (FileHandler "../logs/data_download_20240105.log", INFO);
            (StreamHandler, ERROR);
            (FileHandler "../logs/data_download_20240105.log", ERROR) ])
  /\ (exists w',
        download_single_stock MoreExamples.env_down Examples.quiet "AAPL" "1y" "1d" None
          Examples.w0 = (Ok None, w')
        /\ stdout w' = ["Error downloading AAPL: connection refused"]).
Proof.
  split.
  - destruct (fetch_failure_reported MoreExamples.env_down Examples.chatty "AAPL" "1y" "1d"
                None Examples.w1 (RuntimeError "connection refused") eq_refl)
      as (w' & Hrun & Hfiles & _ & _ & Hlog).
    exists w'. split; [exact Hrun |]. split; [exact Hfiles |].
    cbn [Examples.chatty logger] in Hlog. destruct Hlog as [_ Hlog].
    rewrite (Hlog "../logs/data_download_20240105.log" eq_refl).
    reflexivity.
  - destruct (fetch_failure_reported MoreExamples.env_down Examples.quiet "AAPL" "1y" "1d"
                None Examples.w0 (RuntimeError "connection refused") eq_refl)
      as (w' & Hrun & _ & _ & _ & Hout).
    exists w'. split; [exact Hrun |].
    cbn [Examples.quiet logger] in Hout. destruct Hout as [_ Hout].
    rewrite Hout. vm_compute. reflexivity.
Defined.


Lemma handler_returns_none (env : Env) (self : StockDataDownloader) (ticker : string)
    (e : exn) (w1 : World) (df : DataFrame) (w2 : World) :
  (match logger self with
   | Some lg => Logger.log_download_error env lg ticker (str_exn e)
   | None => print ("Error downloading " ++ ticker ++ ": " ++ str_exn e)
   end ;;; ret None) w1 <> (Ok (Some df), w2).
Proof.
  unfold bind.
  match goal with |- context [match ?m w1 with _ => _ end] =>
    destruct (m w1) as [[[] | e'] w3] end; discriminate.
Qed.

(** X23.  [download_single_stock] hands back a frame only after it has
    saved it: when a frame is returned, it is the one the remote answered
    with, it has rows, and the world the call leaves holds its table (the
    index as first column when it carries a name, written with [%.6f] and
    [%Y-%m-%d %H:%M:%S]) in a file of the output directory, under the custom
    name (with [.csv] added when missing) when one was given. *)
Theorem returned_frame_was_saved (env : Env) (self : StockDataDownloader)
    (ticker period interval : string) (filename : option string) (w : World)
    (df : DataFrame) :
  fst (download_single_stock env self ticker period interval filename w) = Ok (Some df) ->
  history env (requests w) ticker period interval = Ok df
  /\ empty df = false
  /\ exists name,
       files (snd (download_single_stock env self ticker period interval filename w))
         !! path_join (abspath env (output_dir self)) name
       = Some (File (Csv (saved_header df) (saved_rows df)
                         IO.default_float_format IO.default_date_format))
       /\ forall custom, filename = Some custom ->
            name = if endswith custom ".csv" then custom else custom ++ ".csv".
Proof.
  destruct (download_single_stock env self ticker period interval filename w)
    as [r w'] eqn:E.
  cbn [fst snd]. intros ->. revert E.
  unfold download_single_stock, try_except, download_single_stock_body.
  unfold bind at 1.
  destruct (log_start_frame env self ticker period interval w) as (wa & -> & Hreq & _).
  unfold bind at 1, fetch_history. rewrite Hreq.
  destruct (history env (requests w) ticker period interval) as [d | e].
  2: { intros Eh. exfalso. exact (handler_returns_none _ _ _ _ _ _ _ Eh). }
  destruct (empty d) eqn:Hempty.
  { unfold bind at 1.
    destruct (if_logger self _ (tick_requests wa)) as [[[] | e] wb].
    - discriminate.
    - intros Eh. exfalso. exact (handler_returns_none _ _ _ _ _ _ _ Eh). }
  unfold bind at 1.
  destruct (IO.save_dataframe_to_csv env d ticker period (output_dir self) filename
              IO.default_float_format IO.default_date_format (tick_requests wa))
    as [[path | e] ws] eqn:Es.
  2: { intros Eh. exfalso. exact (handler_returns_none _ _ _ _ _ _ _ Eh). }
  unfold bind at 1.
  destruct (if_logger self _ ws) as [[[] | e] wb] eqn:El.
  2: { intros Eh. exfalso. exact (handler_returns_none _ _ _ _ _ _ _ Eh). }
  unfold ret. intros [= -> <-].
  split; [reflexivity |]. split; [exact Hempty |].
  assert (Hfiles : files wb = files ws).
  { revert El. apply unchanged_if_logger. intros lg.
    apply unchanged_bind; [| intros]; apply log_record_only_logs; reflexivity. }
  apply IOProps.save_run in Es as (name & w1 & Eg & -> & ->).
  exists name. split.
  - rewrite Hfiles. apply lookup_insert_eq.
  - intros custom ->. cbn [IO.generate_filename] in Eg. unfold ret in Eg.
    injection Eg as <- _. reflexivity.
Qed.

Lemma returned_frame_was_saved_witness :
  history Examples.env0 0 "AAPL" "1y" "1d" = Ok Examples.bars
  /\ exists name,
       files (snd (download_single_stock Examples.env0 Examples.chatty "AAPL" "1y" "1d"
                     (Some "apple") Examples.w1))
         !! path_join "/home/user/data" name
       = Some (File (Csv ["Date"; "Open"; "Close"] (saved_rows Examples.bars)
                         "%.6f" "%Y-%m-%d %H:%M:%S"))
       /\ name = "apple.csv".
Proof.
  destruct (returned_frame_was_saved Examples.env0 Examples.chatty "AAPL" "1y" "1d"
              (Some "apple") Examples.w1 Examples.bars eq_refl)
    as (Hfetch & _ & name & Hfile & Hname).
  split; [exact Hfetch |].
  exists name. split; [exact Hfile |]. exact (Hname "apple" eq_refl).
Defined.


(** [download_multiple_stocks], step by step: the loop, then the workbook. *)
Lemma download_multiple_stocks_run (env : Env) (self : StockDataDownloader)
    (tickers : list string) (period interval : string)
    (save_individual save_combined_excel : bool) (w : World) :
  exists results w1 w',
    download_loop env self tickers period interval [] w = (Ok results, w1)
    /\ when (save_combined_excel && negb (length results =? 0)%nat)
         (save_combined env self results period) w1 = (Ok tt, w')
    /\ download_multiple_stocks env self tickers period interval
         save_individual save_combined_excel w = (Ok results, w').
Proof.
  destruct (download_loop_keys env self tickers period interval [] w)
    as (results & w1 & Hloop & _).
  destruct (total_when (save_combined_excel && negb (length results =? 0)%nat) _
              (save_combined_total env self results period) w1)
    as ([] & w' & Hsave).
  exists results, w1, w'. split; [exact Hloop |]. split; [exact Hsave |].
  unfold download_multiple_stocks. unfold bind at 1. rewrite Hloop.
  unfold bind at 1. rewrite Hsave. reflexivity.
Qed.

Lemma save_combined_part {B} (part : World -> B) (env : Env) (self : StockDataDownloader)
    (results : list (string * DataFrame)) (period : string) :
  beside_disk part ->
  (forall f w, part (set_log f w) = part w) ->
  unchanged part (save_combined env self results period).
Proof.
  intros Hdisk Hlog. unfold save_combined. apply unchanged_try_except.
  - apply unchanged_bind;
      [apply save_multiple_stocks_to_excel_beside; exact Hdisk | intros path].
    apply unchanged_if_logger. intros lg. apply log_record_only_logs. exact Hlog.
  - intros e. apply unchanged_if_logger. intros lg.
    apply log_record_only_logs. exact Hlog.
Qed.

Lemma download_multiple_stocks_requests (env : Env) (self : StockDataDownloader)
    (tickers : list string) (period interval : string)
    (save_individual save_combined_excel : bool) (w : World) :
  requests (snd (download_multiple_stocks env self tickers period interval
                   save_individual save_combined_excel w))
  = length tickers + requests w.
Proof.
  destruct (download_multiple_stocks_run env self tickers period interval
              save_individual save_combined_excel w)
    as (results & w1 & w' & Hloop & Hsave & ->).
  cbn [snd].
  apply download_loop_requests in Hloop. rewrite <- Hloop.
  revert Hsave. apply unchanged_when, save_combined_part.
  - split; reflexivity.
  - reflexivity.
Qed.

(** X24.  A call of [download_single_stock] sends one request to the remote,
    whatever comes of it, and a batch one request for each entry of the list
    of tickers (a ticker listed twice is fetched twice): nothing is retried
    and nothing is skipped after a failure. *)
Theorem one_request_per_ticker (env : Env) (self : StockDataDownloader)
    (tickers : list string) (ticker period interval : string) (filename : option string)
    (save_individual save_combined_excel : bool) (w : World) :
  requests (snd (download_single_stock env self ticker period interval filename w))
  = S (requests w)
  /\ requests (snd (download_multiple_stocks env self tickers period interval
                      save_individual save_combined_excel w))
     = length tickers + requests w.
Proof.
  split.
  - destruct (download_single_stock env self ticker period interval filename w)
      as [r w'] eqn:E.
    exact (download_single_stock_requests _ _ _ _ _ _ _ _ _ E).
  - apply download_multiple_stocks_requests.
Qed.

Lemma download_loop_stdout (env : Env) (self : StockDataDownloader)
    (lg : Logger.DataLogger) (tickers : list string) (period interval : string) :
  logger self = Some lg ->
  forall results w r w',
    download_loop env self tickers period interval results w = (r, w') ->
    stdout w' = (stdout w ++ repeat (separator_line lg) (length tickers))%list.
Proof.
  intros Hlg.
  induction tickers as [| t ts IH]; intros results w r w'.
  - intros [= _ <-]. cbn [length repeat]. rewrite app_nil_r. reflexivity.
  - cbn [download_loop length]. unfold bind at 1.
    destruct (download_single_stock_total env self t period interval None w)
      as (o & w1 & E1).
    rewrite E1. apply (download_single_stock_silent _ _ lg) in E1; [| exact Hlg].
    unfold bind at 1. unfold if_logger at 1. rewrite Hlg.
    unfold Logger.separator, print, modify. intros E3. apply IH in E3.
    rewrite E3. cbn [stdout repeat]. rewrite E1, <- app_assoc. reflexivity.
Qed.

Lemma download_loop_unlogged (env : Env) (self : StockDataDownloader)
    (tickers : list string) (period interval : string) :
  logger self = None ->
  forall results w r w',
    download_loop env self tickers period interval results w = (r, w') ->
    log w' = log w.
Proof.
  intros Hnone.
  induction tickers as [| t ts IH]; intros results w r w'.
  - intros [= _ <-]. reflexivity.
  - cbn [download_loop]. unfold bind at 1.
    destruct (download_single_stock_total env self t period interval None w)
      as (o & w1 & E1).
    rewrite E1. apply download_single_stock_unlogged in E1; [| exact Hnone].
    unfold bind at 1. unfold if_logger at 1. rewrite Hnone. unfold ret at 1.
    intros E3. apply IH in E3. congruence.
Qed.

Lemma save_combined_unlogged (env : Env) (self : StockDataDownloader)
    (results : list (string * DataFrame)) (period : string) :
  logger self = None ->
  unchanged log (save_combined env self results period).
Proof.
  intros Hnone. unfold save_combined. apply unchanged_try_except.
  - apply unchanged_bind;
      [apply save_multiple_stocks_to_excel_beside; split; reflexivity | intros path].
    unfold if_logger. rewrite Hnone. apply unchanged_ret.
  - intros e. unfold if_logger. rewrite Hnone. apply unchanged_ret.
Qed.


(** X25.  What a batch prints and logs.  With a logger the only lines
    printed are the separators, one after each ticker, whether it succeeded
    or not: everything else goes to the log.  Without a logger nothing is
    logged. *)
Theorem batch_output (env : Env) (self : StockDataDownloader)
    (tickers : list string) (period interval : string)
    (save_individual save_combined_excel : bool) (w : World) :
  let w' := snd (download_multiple_stocks env self tickers period interval
                   save_individual save_combined_excel w) in
  match logger self with
  | Some lg => stdout w' = (stdout w ++ repeat (separator_line lg) (length tickers))%list
  | None => log w' = log w
  end.
Proof.
  destruct (download_multiple_stocks_run env self tickers period interval
              save_individual save_combined_excel w)
    as (results & w1 & w' & Hloop & Hsave & ->).
  cbn [snd]. cbv zeta.
  destruct (logger self) as [lg |] eqn:Hlg.
  - apply (download_loop_stdout _ _ lg) in Hloop; [| exact Hlg].
    rewrite <- Hloop. revert Hsave. apply unchanged_when, save_combined_part.
    + split; reflexivity.
    + reflexivity.
  - apply download_loop_unlogged in Hloop; [| exact Hlg].
    rewrite <- Hloop. revert Hsave.
    apply unchanged_when, save_combined_unlogged. exact Hlg.
Qed.


(** *** The combined workbook *)





(** *** The functions of the module *)

Lemma DataLogger_init_part {B} (part : World -> B) (env : Env) (nm dir : string)
    (to_file colors : bool) :
  beside_disk part ->
  (forall f w, part (set_loggers f w) = part w) ->
  unchanged part (Logger.DataLogger_init env nm dir to_file colors).
Proof.
  intros [Hfiles Hclock] Hloggers.
  unfold Logger.DataLogger_init, Logger.setLevel, Logger.clear_handlers, Logger.addHandler,
    Logger.update_logger.
  repeat (apply unchanged_bind; [| intros]);
    try (apply unchanged_modify; intros; apply Hloggers); try apply unchanged_ret.
  apply unchanged_when.
  unfold Logger._setup_file_handler, Logger.addHandler, Logger.update_logger.
  repeat (apply unchanged_bind; [| intros]);
    try (apply unchanged_modify; intros; apply Hloggers).
  - apply makedirs_only_files. exact Hfiles.
  - intros w r w' [= _ <-]. apply Hclock.
  - intros w r w'. unfold Logger.open_append.
    destruct (write_fault env _); [intros [= _ <-]; reflexivity |].
    destruct (files w !! _) as [[| c] |]; intros [= _ <-];
      first [reflexivity | apply Hfiles].
Qed.

Lemma DataLogger_init_requests (env : Env) (nm dir : string) (to_file colors : bool) :
  unchanged requests (Logger.DataLogger_init env nm dir to_file colors).
Proof. apply DataLogger_init_part; [split |]; reflexivity. Qed.

Lemma DataLogger_init_value (env : Env) (nm dir : string) (to_file colors : bool)
    (w : World) (lg : Logger.DataLogger) (w' : World) :
  Logger.DataLogger_init env nm dir to_file colors w = (Ok lg, w') ->
  lg = {| Logger.name := nm; Logger.enable_colors := colors; Logger.log_dir := dir |}.
Proof.
  unfold Logger.DataLogger_init, Logger.setLevel, Logger.clear_handlers, Logger.addHandler,
    Logger.update_logger, bind, modify, ret.
  match goal with |- context [when to_file ?m ?x] =>
    destruct (when to_file m x) as [[[] | e] w2] end; [| discriminate].
  intros [= <- _]. reflexivity.
Qed.

Lemma StockDataDownloader_init_run (env : Env) (dir : string) (w : World) :
  let made := Logger.DownloadLogger_init env Logger.default_log_dir w in
  StockDataDownloader_init env dir true w
  = (match fst made with
     | Ok lg => Ok {| output_dir := dir; logger := Some lg |}
     | Raise e => Raise e
     end, snd made).
Proof.
  cbv zeta. unfold StockDataDownloader_init, bind, ret.
  destruct (Logger.DownloadLogger_init env Logger.default_log_dir w) as [[lg | e] w1];
    reflexivity.
Qed.

(** X27.  The functions [download_stock_data] and [download_multiple_stocks]
    of the module build a downloader with logging for every call.  They
    raise exactly when the construction of its logger does (the log
    directory or the log file cannot be made), and then no request has been
    sent; in every other case they return, whatever happens in the download,
    after one request, or one request for each ticker of the list. *)
Theorem module_functions_raise_with_the_logger (env : Env) (tickers : list string)
    (ticker period interval : string) (filename : option string) (dir : string)
    (save_combined_excel : bool) (w : World) :
  let made := Logger.DownloadLogger_init env Logger.default_log_dir w in
  let single := download_stock_data env ticker period interval filename dir w in
  let batch := download_multiple_stocks_in env tickers period interval dir
                 save_combined_excel w in
  raises (fst single) = raises (fst made)
  /\ raises (fst batch) = raises (fst made)
  /\ (raises (fst made) = true ->
      requests (snd single) = requests w /\ requests (snd batch) = requests w)
  /\ (raises (fst made) = false ->
      requests (snd single) = S (requests w)
      /\ requests (snd batch) = length tickers + requests w).
Proof.
  cbv zeta.
  assert (Hs : download_stock_data env ticker period interval filename dir w
               = match Logger.DownloadLogger_init env Logger.default_log_dir w with
                 | (Ok lg, w1) =>
                     download_single_stock env {| output_dir := dir; logger := Some lg |}
                       ticker period interval filename w1
                 | (Raise e, w1) => (Raise e, w1)
                 end).
  { unfold download_stock_data, bind. rewrite StockDataDownloader_init_run. cbv zeta.
    destruct (Logger.DownloadLogger_init env Logger.default_log_dir w) as [[lg | e] w1];
      reflexivity. }
  assert (Hb : download_multiple_stocks_in env tickers period interval dir
                 save_combined_excel w
               = match Logger.DownloadLogger_init env Logger.default_log_dir w with
                 | (Ok lg, w1) =>
                     download_multiple_stocks env {| output_dir := dir; logger := Some lg |}
                       tickers period interval true save_combined_excel w1
                 | (Raise e, w1) => (Raise e, w1)
                 end).
  { unfold download_multiple_stocks_in, bind. rewrite StockDataDownloader_init_run.
    cbv zeta.
    destruct (Logger.DownloadLogger_init env Logger.default_log_dir w) as [[lg | e] w1];
      reflexivity. }
  rewrite Hs, Hb. clear Hs Hb.
  destruct (Logger.DownloadLogger_init env Logger.default_log_dir w) as [[lg | e] w1] eqn:E;
    apply DataLogger_init_requests in E; cbn [fst snd raises].
  - set (self := {| output_dir := dir; logger := Some lg |}).
    destruct (download_single_stock_total env self ticker period interval filename w1)
      as (o & ws & Es).
    destruct (download_multiple_stocks_run env self tickers period interval
                true save_combined_excel w1)
      as (results & wl & wb & _ & _ & Eb).
    pose proof (download_single_stock_requests _ _ _ _ _ _ _ _ _ Es) as H1.
    pose proof (download_multiple_stocks_requests env self tickers period interval
                  true save_combined_excel w1) as H2.
    rewrite Es. rewrite Eb in *. cbn [fst snd raises] in *.
    repeat split; try discriminate; congruence.
  - repeat split; try discriminate; exact E.
Qed.


(** X28.  Constructing a downloader.  With [use_logging=False] nothing is
    touched and the downloader has no logger.  With [use_logging=True] the
    downloader that comes back carries the logger [download_logger], colours
    on, and in the world it leaves that logger has exactly a console handler
    and a file handler on [../logs/data_download_{YYYYMMDD}.log], both at
    [DEBUG], whatever handlers it had before: a second downloader does not
    double the records.  No request is sent, and nothing is logged or
    printed. *)
Theorem downloader_construction (env : Env) (dir : string) (w : World) :
  StockDataDownloader_init env dir false w
  = (Ok {| output_dir := dir; logger := None |}, w)
  /\ forall d w',
       StockDataDownloader_init env dir true w = (Ok d, w') ->
       d = {| output_dir := dir;
              logger := Some {| Logger.name := "download_logger";
                                Logger.enable_colors := true;
                                Logger.log_dir := "../logs" |} |}
       /\ (forall lg, logger d = Some lg ->
             wired lg (path_join "../logs"
                         ("data_download_" ++ strftime_Ymd (now env (clock w)) ++ ".log")) w')
       /\ requests w' = requests w /\ log w' = log w /\ stdout w' = stdout w.
Proof.
  split; [reflexivity |].
  intros d w'. rewrite StockDataDownloader_init_run. cbv zeta.
  destruct (Logger.DownloadLogger_init env Logger.default_log_dir w) as [[lg | e] w1] eqn:E;
    [| discriminate].
  cbn [fst snd]. intros [= <- <-].
  pose proof (LoggerSpec.DataLogger_init_logger env "download_logger" "../logs" true true w)
    as Hwired.
  unfold Logger.DownloadLogger_init, Logger.default_log_dir in E.
  rewrite E in Hwired. specialize (Hwired eq_refl). cbn [snd] in Hwired.
  pose proof (DataLogger_init_value _ _ _ _ _ _ _ _ E) as ->.
  split; [reflexivity |]. split; [| repeat split].
  - cbn [logger]. intros lg [= <-]. unfold wired. cbn [Logger.name]. exact Hwired.
  - revert E. apply DataLogger_init_part; [split |]; reflexivity.
  - revert E. apply DataLogger_init_part; [split |]; reflexivity.
  - revert E. apply DataLogger_init_part; [split |]; reflexivity.
Qed.

End DownloadProps.


(** ** The script *)

Module ScriptProps.
Import Py Sys Download Frames Script PyFacts DownloadSpec DownloadProps Notations.





End ScriptProps.
